(** * langchain_vdms.vectorstores: a shallow embedding of the query/mutation engine

    The development follows [src/langchain_vdms/vectorstores.py].  Python
    dictionaries are association lists in insertion order, JSON-like data is
    the inductive [Value], Python exceptions are the constructors of [Exn],
    and the methods of [VDMS] and [VDMS_Utils] that touch [self], the logger
    or the client run in the monad [M] (a store, plus a result that is either
    an exception or a value; the store survives an exception, as object state
    does in Python). *)

From Stdlib Require Import List String Ascii Bool ZArith QArith Lia.
From Stdlib Require Import Sorting.Mergesort Sorting.Sorted Sorting.Permutation.
From Stdlib Require Import Structures.OrdersEx Classes.RelationClasses.
From Stdlib Require Import DecimalString.
Import ListNotations.
Open Scope string_scope.
Open Scope list_scope.

(** ** Floating point numbers, idealised

    A Python float is modelled by a rational, or one of the three special
    values.  The rounding error of the arithmetic is not modelled (a float
    is rounded where it is printed and where it is stored as [float32], see
    below); every finite result is kept in lowest terms so that results
    compare with [=]. *)

Inductive Float : Type :=
| Fin (q : Q)
| PInf
| NInf
| NaN.

Definition fin (q : Q) : Float := Fin (Qred q).

Definition Qsign (q : Q) : comparison := (Qnum q ?= 0)%Z.

Definition float_neg (x : Float) : Float :=
  match x with
  | Fin q => fin (- q)
  | PInf => NInf
  | NInf => PInf
  | NaN => NaN
  end.

Definition float_add (x y : Float) : Float :=
  match x, y with
  | NaN, _ | _, NaN => NaN
  | Fin a, Fin b => fin (a + b)
  | PInf, NInf | NInf, PInf => NaN
  | PInf, _ | _, PInf => PInf
  | NInf, _ | _, NInf => NInf
  end.

Definition float_sub (x y : Float) : Float := float_add x (float_neg y).

Definition float_is_zero (x : Float) : bool :=
  match x with
  | Fin q => Qeq_bool q 0
  | _ => false
  end.

(** [x == y] on floats: NaN equals nothing. *)
Definition float_eqb (x y : Float) : bool :=
  match x, y with
  | Fin a, Fin b => Qeq_bool a b
  | PInf, PInf => true
  | NInf, NInf => true
  | _, _ => false
  end.

(** [x < y] on floats: every comparison with NaN is false. *)
Definition float_ltb (x y : Float) : bool :=
  match x, y with
  | NaN, _ | _, NaN => false
  | Fin a, Fin b => negb (Qle_bool b a)
  | NInf, NInf => false
  | NInf, _ => true
  | _, NInf => false
  | PInf, _ => false
  | _, PInf => true
  end.

(** [x / y] when [y] is not zero (the zero divisor raises, see [py_div]). *)
Definition float_div_nz (x y : Float) : Float :=
  match x, y with
  | NaN, _ | _, NaN => NaN
  | Fin a, Fin b => fin (a / b)
  | Fin _, _ => Fin 0
  | _, Fin b =>
      match Qsign b, x with
      | Gt, _ => x
      | _, PInf => NInf
      | _, _ => PInf
      end
  | _, _ => NaN
  end.

(** [round(x, 10)]: the nearest multiple of [10^-10], ties to even. *)
Definition round_half_even (q : Q) : Z :=
  let n := Qnum q in
  let d := Zpos (Qden q) in
  let fl := (n / d)%Z in
  let r2 := (2 * (n - fl * d))%Z in
  match (r2 ?= d)%Z with
  | Lt => fl
  | Gt => (fl + 1)%Z
  | Eq => if Z.even fl then fl else (fl + 1)%Z
  end.

Definition ten_pow_10 : Z := 10000000000%Z.

Definition float_round10 (x : Float) : Float :=
  match x with
  | Fin q => fin (inject_Z (round_half_even (q * inject_Z ten_pow_10)) / inject_Z ten_pow_10)
  | other => other
  end.

(** ** JSON-like values

    [VInt] is a Python [int], [VNum] a Python [float]: the two print
    differently and compare by value. *)

#[local] Set Warnings "-register-all".

Inductive Value : Type :=
| VNone
| VBool (b : bool)
| VInt (z : Z)
| VNum (x : Float)
| VStr (s : string)
| VList (l : list Value)
| VDict (d : list (string * Value)).

Definition Dict : Type := list (string * Value).

(** The wire payload that travels next to the commands: the bytes of a text
    ([str.encode]), the bytes of an embedding (numpy's [tobytes] of a
    [float32] array), or, where the source passes one, a list in the place
    of the bytes. *)
Inductive Blob : Type :=
| BytesOfStr (s : string)
| BytesOfEmb (e : list Float)
| ListOfBlobs (l : list Blob).

Definition VNat (n : nat) : Value := VInt (Z.of_nat n).

(** ** Python exceptions and the logger *)

Inductive Exn : Type :=
| KeyError (key : string)
| IndexError
| ValueError (msg : string)
| TypeError
| AttributeError
| ZeroDivisionError
| NameError (var : string).

Inductive Level : Type := INFO | WARNING | ERROR.

Definition LogRecord : Type := (Level * string)%type.

Definition Res (A : Type) : Type := (Exn + A)%type.

Definition res_bind {A B : Type} (r : Res A) (f : A -> Res B) : Res B :=
  match r with
  | inl e => inl e
  | inr a => f a
  end.

Declare Scope res_scope.
Delimit Scope res_scope with res.
Notation "x <-? c ;; k" := (res_bind c (fun x => k))
  (at level 61, c at next level, right associativity) : res_scope.
Notation "' p <-? c ;; k" := (res_bind c (fun p => k))
  (at level 61, p pattern, c at next level, right associativity) : res_scope.

(** ** Dictionaries in insertion order *)

Fixpoint dict_lookup (k : string) (d : Dict) : option Value :=
  match d with
  | [] => None
  | (k', v) :: rest => if String.eqb k k' then Some v else dict_lookup k rest
  end.

Definition dict_has (k : string) (d : Dict) : bool :=
  match dict_lookup k d with
  | Some _ => true
  | None => false
  end.

(** [d[k] = v]: an existing key keeps its place, a new key goes last. *)
Fixpoint dict_set (k : string) (v : Value) (d : Dict) : Dict :=
  match d with
  | [] => [(k, v)]
  | (k', v') :: rest =>
      if String.eqb k k' then (k', v) :: rest else (k', v') :: dict_set k v rest
  end.

Definition dict_remove (k : string) (d : Dict) : Dict :=
  filter (fun kv => negb (String.eqb k (fst kv))) d.

Definition dict_keys (d : Dict) : list string := map fst d.

(** [d.update(other)] *)
Definition dict_update (d other : Dict) : Dict :=
  fold_left (fun acc kv => dict_set (fst kv) (snd kv) acc) other d.

Definition str_in (s : string) (l : list string) : bool :=
  existsb (String.eqb s) l.

(** ** Strings *)

Fixpoint str_prefix (p s : string) : bool :=
  match p, s with
  | EmptyString, _ => true
  | String a p', String b s' => if Ascii.eqb a b then str_prefix p' s' else false
  | String _ _, EmptyString => false
  end.

(** [sub in s] on strings *)
Fixpoint str_contains (sub s : string) : bool :=
  if str_prefix sub s then true
  else match s with
       | EmptyString => false
       | String _ s' => str_contains sub s'
       end.

(** [sep.join(l)] *)
Fixpoint str_join (sep : string) (l : list string) : string :=
  match l with
  | [] => ""
  | [s] => s
  | s :: rest => s ++ sep ++ str_join sep rest
  end.

(** [s.split(",")]: always at least one field. *)
Fixpoint str_split_comma_aux (cur : string) (s : string) : list string :=
  match s with
  | EmptyString => [cur]
  | String c s' =>
      if Ascii.eqb c ","%char then cur :: str_split_comma_aux "" s'
      else str_split_comma_aux (cur ++ String c EmptyString) s'
  end.

Definition str_split_comma (s : string) : list string := str_split_comma_aux "" s.

Definition str_of_nat (n : nat) : string := NilEmpty.string_of_uint (Nat.to_uint n).
Definition str_of_Z (z : Z) : string := NilZero.string_of_int (Z.to_int z).

(** ** Module constants *)

Definition TEXT_PROPERTY : string := "content".
Definition DEFAULT_COLLECTION_NAME : string := "langchain".
Definition LANGCHAIN_ID_PROPERTY : string := "langchain_id".
Definition DEFAULT_INSERT_BATCH_SIZE : Z := 500.
Definition DEFAULT_K : Z := 3.
Definition DEFAULT_FETCH_K : Z := DEFAULT_K * 5.
Definition DEFAULT_PROPERTIES : list string :=
  ["_distance"; LANGCHAIN_ID_PROPERTY; TEXT_PROPERTY].
Definition INVALID_DOC_METADATA_KEYS : list string :=
  ["_distance"; TEXT_PROPERTY; "blob"].

(** [v in INVALID_METADATA_VALUE], the list
    [["Missing property", None, {}]]. *)
Definition in_INVALID_METADATA_VALUE (v : Value) : bool :=
  match v with
  | VStr s => String.eqb s "Missing property"
  | VNone => true
  | VDict [] => true
  | _ => false
  end.

(** ** Dynamic operations on values

    What Python does on a value of the wrong type is an exception; the
    embedding raises [TypeError] or [AttributeError] there. *)

Open Scope res_scope.

(** [key in v] *)
Definition py_contains (key : string) (v : Value) : Res bool :=
  match v with
  | VDict d => inr (dict_has key d)
  | VList l =>
      inr (existsb (fun x => match x with VStr s => String.eqb key s | _ => false end) l)
  | VStr s => inr (str_contains key s)
  | _ => inl TypeError
  end.

(** [v[key]] for a string key *)
Definition py_getitem (v : Value) (key : string) : Res Value :=
  match v with
  | VDict d =>
      match dict_lookup key d with
      | Some x => inr x
      | None => inl (KeyError key)
      end
  | _ => inl TypeError
  end.

(** [v.get(key, default)] *)
Definition py_get (v : Value) (key : string) (default : Value) : Res Value :=
  match v with
  | VDict d =>
      match dict_lookup key d with
      | Some x => inr x
      | None => inr default
      end
  | _ => inl AttributeError
  end.

(** [v[key] = x] *)
Definition py_setitem (v : Value) (key : string) (x : Value) : Res Value :=
  match v with
  | VDict d => inr (VDict (dict_set key x d))
  | _ => inl TypeError
  end.

(** [v.items()] *)
Definition py_items (v : Value) : Res Dict :=
  match v with
  | VDict d => inr d
  | _ => inl AttributeError
  end.

(** [l[0]] on a list *)
Definition py_first {A : Type} (l : list A) : Res A :=
  match l with
  | x :: _ => inr x
  | [] => inl IndexError
  end.

(** [len(v)] *)
Definition py_len (v : Value) : Res nat :=
  match v with
  | VList l => inr (List.length l)
  | VDict d => inr (List.length d)
  | VStr s => inr (String.length s)
  | _ => inl TypeError
  end.

(** The elements of [for x in v]. *)
Definition py_iter (v : Value) : Res (list Value) :=
  match v with
  | VList l => inr l
  | VDict d => inr (map (fun kv => VStr (fst kv)) d)
  | VStr s => inr (map (fun c => VStr (String c EmptyString)) (list_ascii_of_string s))
  | _ => inl TypeError
  end.

(** A number read out of a value; [True] and [False] count as 1 and 0. *)
Definition py_float (v : Value) : Res Float :=
  match v with
  | VNum x => inr x
  | VInt z => inr (Fin (inject_Z z))
  | VBool b => inr (if b then Fin 1 else Fin 0)
  | _ => inl TypeError
  end.

(** [v == 0] never raises. *)
Definition py_eq_zero (v : Value) : bool :=
  match v with
  | VNum x => float_is_zero x
  | VInt z => (z =? 0)%Z
  | VBool b => negb b
  | _ => false
  end.

(** [v > 0] *)
Definition py_gt_zero (v : Value) : Res bool :=
  x <-? py_float v ;; inr (float_ltb (Fin 0) x).

(** [x / y] on Python floats. *)
Definition py_div (x y : Float) : Res Float :=
  if float_is_zero y then inl ZeroDivisionError else inr (float_div_nz x y).

(** [l[:n]] *)
Definition slice_to {A : Type} (l : list A) (n : Z) : list A :=
  if (0 <=? n)%Z then firstn (Z.to_nat n) l
  else firstn (List.length l - Z.to_nat (- n)) l.

(** [l[a:b]] for [0 <= a] *)
Definition slice {A : Type} (l : list A) (a b : Z) : list A :=
  skipn (Z.to_nat a) (slice_to l b).

(** [range(start, stop, step)] *)
Fixpoint range_up (fuel : nat) (cur stop step : Z) : list Z :=
  match fuel with
  | O => []
  | S fuel' =>
      if (cur <? stop)%Z then cur :: range_up fuel' (cur + step) stop step else []
  end.

Definition py_range (start stop step : Z) : Res (list Z) :=
  if (step =? 0)%Z then inl (ValueError "range() arg 3 must not be zero")
  else if (step <? 0)%Z then
         inr (map (fun i => (start + Z.of_nat i * step)%Z)
                  (seq 0 (Z.to_nat ((start - stop + (- step) - 1) / (- step)))))
  else inr (range_up (Z.to_nat (stop - start)) start stop step).

(** ** Binary floating point: rounding to a format and printing

    What Python prints for a float is the shortest decimal text that reads
    back as the same binary64 number.  A positive rational is a pair of
    positive integers here. *)

Definition pow2 (e : Z) : Z := Z.pow 2 e.
Definition pow10 (e : Z) : Z := Z.pow 10 e.

(** [n/d] times [base^(-e)], as a fraction *)
Definition scale_by (base : Z) (n d e : Z) : Z * Z :=
  if (0 <=? e)%Z then (n, d * Z.pow base e)%Z else (n * Z.pow base (- e), d)%Z.

(** The greatest [k] with [base^k <= n/d], between the two bounds that the
    binary logarithms give. *)
Definition floor_log2 (n d : Z) : Z :=
  let k := (Z.log2 n - Z.log2 d)%Z in
  let '(n', d') := scale_by 2 n d k in
  if (n' <? d')%Z then (k - 1)%Z else k.

Fixpoint floor_log10_from (fuel : nat) (n d k : Z) : Z :=
  match fuel with
  | O => k
  | S fuel' =>
      let '(n', d') := scale_by 10 n d k in
      if (n' <? d')%Z then floor_log10_from fuel' n d (k - 1)
      else if (10 * d' <=? n')%Z then floor_log10_from fuel' n d (k + 1)
      else k
  end.

Definition floor_log10 (n d : Z) : Z :=
  floor_log10_from 8 n d ((floor_log2 n d * 30103) / 100000)%Z.

(** The integer nearest to [n/d], ties to even *)
Definition nearest_integer (n d : Z) : Z :=
  let fl := (n / d)%Z in
  match (2 * (n - fl * d) ?= d)%Z with
  | Lt => fl
  | Gt => (fl + 1)%Z
  | Eq => if Z.even fl then fl else (fl + 1)%Z
  end.

(** A binary format: the number of bits of the mantissa and the least
    exponent of its last bit. *)
Record BinaryFormat : Type := mkFormat {
  precision : Z;
  least_exponent : Z;
  greatest_exponent : Z
}.

Definition binary64 : BinaryFormat := mkFormat 53 (-1074) 971.
Definition binary32 : BinaryFormat := mkFormat 24 (-149) 104.

(** The number of the format nearest to the positive [n/d], as mantissa and
    exponent; [None] when it is beyond the greatest finite one. *)
Definition nearest_binary (fmt : BinaryFormat) (n d : Z) : option (Z * Z) :=
  let e := Z.max (floor_log2 n d - (precision fmt - 1)) (least_exponent fmt) in
  let '(n', d') := scale_by 2 n d e in
  let m := nearest_integer n' d' in
  let '(m, e) :=
    if (m =? pow2 (precision fmt))%Z then (pow2 (precision fmt - 1), (e + 1)%Z)
    else (m, e) in
  if (greatest_exponent fmt <? e)%Z then None else Some (m, e).

(** [m * 2^e] as a fraction *)
Definition binary_value (me : Z * Z) : Z * Z :=
  let '(m, e) := me in
  if (0 <=? e)%Z then ((m * pow2 e)%Z, 1%Z) else (m, pow2 (- e)).

Definition same_binary (a b : option (Z * Z)) : bool :=
  match a, b with
  | Some (m1, e1), Some (m2, e2) => (m1 =? m2)%Z && (e1 =? e2)%Z
  | None, None => true
  | _, _ => false
  end.

(** The decimal of [digits] significant digits that reads back as the
    number [x = n/d], the nearer one when two do: the integer [c] and the
    exponent [q] of [c * 10^q]. *)
Definition round_trip_decimal (fmt : BinaryFormat) (n d : Z) (p : Z) (digits : Z)
  : option (Z * Z) :=
  let q := (p - digits + 1)%Z in
  let '(n', d') := scale_by 10 n d q in
  let lo := (n' / d')%Z in
  let hi := (lo + 1)%Z in
  let reads_back (c : Z) : bool :=
    (0 <? c)%Z
    && (let '(cn, cd) := scale_by 10 c 1 (- q) in
        same_binary (nearest_binary fmt cn cd) (nearest_binary fmt n d)) in
  match reads_back lo, reads_back hi with
  | true, true =>
      match (2 * (n' - lo * d') ?= d')%Z with
      | Lt => Some (lo, q)
      | Gt => Some (hi, q)
      | Eq => Some (if Z.even lo then lo else hi, q)
      end
  | true, false => Some (lo, q)
  | false, true => Some (hi, q)
  | false, false => None
  end.

Fixpoint shortest_decimal_from (fuel : nat) (fmt : BinaryFormat) (n d p digits : Z)
  : Z * Z :=
  match fuel with
  | O => (nearest_integer (fst (scale_by 10 n d (p - digits + 1)))
                          (snd (scale_by 10 n d (p - digits + 1))),
          (p - digits + 1)%Z)
  | S fuel' =>
      match round_trip_decimal fmt n d p digits with
      | Some cq => cq
      | None => shortest_decimal_from fuel' fmt n d p (digits + 1)
      end
  end.

Fixpoint strip_zeros (fuel : nat) (c q : Z) : Z * Z :=
  match fuel with
  | O => (c, q)
  | S fuel' =>
      if ((c mod 10 =? 0) && negb (c =? 0))%Z%bool
      then strip_zeros fuel' (c / 10)%Z (q + 1)%Z else (c, q)
  end.

(** The digits that Python prints for the positive binary64 number [n/d],
    and the place of the decimal point after the first of them. *)
Definition shortest_digits (n d : Z) : string * Z :=
  let '(c, q) := shortest_decimal_from 17 binary64 n d (floor_log10 n d) 1 in
  let '(c, q) := strip_zeros 20 c q in
  let digits := str_of_Z c in
  (digits, (Z.of_nat (String.length digits) + q)%Z).

Fixpoint zeros (n : nat) : string :=
  match n with
  | O => ""
  | S n' => String "0" (zeros n')
  end.

Fixpoint str_take (n : nat) (s : string) : string :=
  match n, s with
  | S n', String c s' => String c (str_take n' s')
  | _, _ => ""
  end.

Fixpoint str_drop (n : nat) (s : string) : string :=
  match n, s with
  | S n', String c s' => str_drop n' s'
  | _, _ => s
  end.

(** [repr] of a positive float, from its digits: plain notation while the
    decimal point lies within [-4 < decpt <= 16], else with an exponent of at
    least two digits. *)
Definition format_float (digits : string) (decpt : Z) : string :=
  let len := Z.of_nat (String.length digits) in
  if ((decpt <=? -4) || (16 <? decpt))%Z%bool then
    let e := (decpt - 1)%Z in
    let mantissa :=
      match digits with
      | String c EmptyString => String c EmptyString
      | String c rest => String c ("." ++ rest)
      | EmptyString => ""
      end in
    let e_digits := str_of_Z (Z.abs e) in
    mantissa ++ "e" ++ (if (e <? 0)%Z then "-" else "+")
    ++ (if (Z.abs e <? 10)%Z then "0" else "") ++ e_digits
  else if (decpt <=? 0)%Z then "0." ++ zeros (Z.to_nat (- decpt)) ++ digits
  else if (len <=? decpt)%Z then digits ++ zeros (Z.to_nat (decpt - len)) ++ ".0"
  else str_take (Z.to_nat decpt) digits ++ "." ++ str_drop (Z.to_nat decpt) digits.

(** The float of the format nearest to [x] *)
Definition float_to_format (fmt : BinaryFormat) (x : Float) : Float :=
  match x with
  | Fin q =>
      match Qnum q with
      | Z0 => Fin 0
      | Zpos n =>
          match nearest_binary fmt (Zpos n) (Zpos (Qden q)) with
          | Some me =>
              let '(vn, vd) := binary_value me in fin (Qmake vn (Z.to_pos vd))
          | None => PInf
          end
      | Zneg n =>
          match nearest_binary fmt (Zpos n) (Zpos (Qden q)) with
          | Some me =>
              let '(vn, vd) := binary_value me in fin (Qmake (- vn) (Z.to_pos vd))
          | None => NInf
          end
      end
  | other => other
  end.

(** [repr(x)] of a float, which is also its [str(x)] *)
Definition float_repr (x : Float) : string :=
  match float_to_format binary64 x with
  | Fin q =>
      match Qnum q with
      | Z0 => "0.0"
      | Zpos n =>
          let '(digits, decpt) := shortest_digits (Zpos n) (Zpos (Qden q)) in
          format_float digits decpt
      | Zneg n =>
          let '(digits, decpt) := shortest_digits (Zpos n) (Zpos (Qden q)) in
          "-" ++ format_float digits decpt
      end
  | PInf => "inf"
  | NInf => "-inf"
  | NaN => "nan"
  end.

(** [repr(s)] of a text whose characters are the code points below 256 *)
Definition hex_digit (n : nat) : ascii :=
  nth n (list_ascii_of_string "0123456789abcdef") "0"%char.

Definition is_printable (c : ascii) : bool :=
  let n := nat_of_ascii c in
  (32 <=? n)%nat && negb ((127 <=? n)%nat && (n <=? 160)%nat) && negb (n =? 173)%nat.

Fixpoint str_has (c : ascii) (s : string) : bool :=
  match s with
  | EmptyString => false
  | String c' s' => Ascii.eqb c c' || str_has c s'
  end.

Fixpoint escape_with (quote : ascii) (s : string) : string :=
  match s with
  | EmptyString => ""
  | String c s' =>
      (if Ascii.eqb c quote || Ascii.eqb c "\"%char
       then String "\"%char (String c EmptyString)
       else if Ascii.eqb c "009"%char then "\t"
       else if Ascii.eqb c "010"%char then "\n"
       else if Ascii.eqb c "013"%char then "\r"
       else if is_printable c then String c EmptyString
       else String "\"%char
              (String "x"%char
                 (String (hex_digit (nat_of_ascii c / 16))
                    (String (hex_digit (nat_of_ascii c mod 16)) EmptyString))))
      ++ escape_with quote s'
  end.

Definition str_repr (s : string) : string :=
  let quote :=
    if str_has "'"%char s && negb (str_has (ascii_of_nat 34) s)
    then ascii_of_nat 34 else "'"%char in
  String quote (escape_with quote s ++ String quote EmptyString).

(** [repr(v)] *)
Fixpoint py_repr (v : Value) : string :=
  match v with
  | VNone => "None"
  | VBool true => "True"
  | VBool false => "False"
  | VInt z => str_of_Z z
  | VNum x => float_repr x
  | VStr s => str_repr s
  | VList l =>
      ("["
      ++ (fix items (l : list Value) : string :=
            match l with
            | [] => ""
            | [x] => py_repr x
            | x :: rest => py_repr x ++ ", " ++ items rest
            end) l
      ++ "]")%string
  | VDict d =>
      ("{"
      ++ (fix items (d : list (string * Value)) : string :=
            match d with
            | [] => ""
            | [(k, x)] => str_repr k ++ ": " ++ py_repr x
            | (k, x) :: rest => str_repr k ++ ": " ++ py_repr x ++ ", " ++ items rest
            end) d
      ++ "}")%string
  end.

(** [str(v)]: a text is itself, everything else prints as its [repr]. *)
Definition py_str (v : Value) : string :=
  match v with
  | VStr s => s
  | other => py_repr other
  end.

(** ** Documents and result projection *)

Record Document : Type := mkDocument {
  page_content : Value;
  metadata : Dict;
  doc_id : Value
}.

(** The dictionary built by the loop of [descriptor2document] and by the
    comprehension of [results2documents_and_scores]: the entries of the entity
    whose key is not reserved and whose value is not a sentinel. *)
Definition kept_entry (kv : string * Value) : bool :=
  negb (str_in (fst kv) INVALID_DOC_METADATA_KEYS)
  && negb (in_INVALID_METADATA_VALUE (snd kv)).

Definition metadata_step (md : Dict) (kv : string * Value) : Dict :=
  if kept_entry kv then dict_set (fst kv) (snd kv) md else md.

Definition valid_metadata (items : Dict) : Dict :=
  fold_left metadata_step items [].

(** [Document(page_content=..., metadata=..., id=...)] of
    [langchain_core.documents]: the model checks its fields.  The content has
    to be a text; the id may be [None] or a text, and a number is turned
    into its text; everything else is a [ValidationError], which is a
    [ValueError]. *)
Definition validation_error : Exn := ValueError "validation error for Document".

Definition new_Document (page_content : Value) (metadata : Dict) (id : Value)
  : Res Document :=
  match page_content with
  | VStr _ =>
      match id with
      | VNone | VStr _ => inr (mkDocument page_content metadata id)
      | VInt _ | VNum _ => inr (mkDocument page_content metadata (VStr (py_str id)))
      | _ => inl validation_error
      end
  | _ => inl validation_error
  end.

(** [VDMS.descriptor2document] *)
Definition descriptor2document (descriptor_entity : Value) : Res Document :=
  items <-? py_items descriptor_entity ;;
  let metadata := valid_metadata items in
  let d_id :=
    match dict_lookup LANGCHAIN_ID_PROPERTY metadata with
    | Some v => v
    | None => VNone
    end in
  let metadata := dict_remove LANGCHAIN_ID_PROPERTY metadata in
  txt_contents <-? py_getitem descriptor_entity TEXT_PROPERTY ;;
  new_Document txt_contents metadata d_id.

(** One turn of the loop of [results2documents_and_scores].  The local
    [d_id] is assigned only when the entity carries the identity property, so
    it is threaded through the turns: [None] is the unbound local. *)
Definition project_entity (ent : Value) (d_id : option Value)
  : Res ((Document * Float) * option Value) :=
  raw_distance <-? py_getitem ent "_distance" ;;
  x <-? py_float raw_distance ;;
  let distance := float_round10 x in
  txt_contents <-? py_getitem ent TEXT_PROPERTY ;;
  items <-? py_items ent ;;
  let props := valid_metadata items in
  let d_id :=
    match dict_lookup LANGCHAIN_ID_PROPERTY props with
    | Some v => Some v
    | None => d_id
    end in
  let props := dict_remove LANGCHAIN_ID_PROPERTY props in
  match d_id with
  | None => inl (NameError "d_id")
  | Some i =>
      doc <-? new_Document txt_contents props i ;;
      inr ((doc, distance), d_id)
  end.

(** The [for ent in descriptor_entities] loop: [final_res] as it stands when
    the loop ends or an exception leaves it. *)
Fixpoint project_entities (ents : list Value)
    (final_res : list (Document * Float)) (d_id : option Value)
  : list (Document * Float) * option Exn :=
  match ents with
  | [] => (final_res, None)
  | ent :: rest =>
      match project_entity ent d_id with
      | inl e => (final_res, Some e)
      | inr (item, d_id') => project_entities rest (final_res ++ [item]) d_id'
      end
  end.

Definition SearchResult : Type := (list Value * list Blob)%type.

(** The entities that the loop of [results2documents_and_scores] visits. *)
Definition entities_of_results (results : list SearchResult) : Res (list Value) :=
  '(responses, blobs) <-? py_first results ;;
  first <-? py_first responses ;;
  found <-? py_getitem first "FindDescriptor" ;;
  descriptor_entities <-? py_get found "entities" (VList []) ;;
  n <-? py_len descriptor_entities ;;
  if (0 <? n)%nat then py_iter descriptor_entities else inr [].

(** The body of the [try] block of [results2documents_and_scores]:
    [final_res] when the block is left, and the exception if one left it. *)
Definition parse_results (results : list SearchResult)
  : list (Document * Float) * option Exn :=
  match entities_of_results results with
  | inl e => ([], Some e)
  | inr ents => project_entities ents [] None
  end.

(** ** The store and the monad of the methods *)

Definition Call : Type := (list Value * list Blob)%type.
Definition Reply : Type := (list Value * list Blob)%type.

Record Store : Type := mkStore {
  collection_name : string;
  collection_properties : list string;
  updated_properties_flag : bool;
  sent : list Call;
  logged : list LogRecord
}.

Definition M (A : Type) : Type := Store -> Store * Res A.

Definition ret {A : Type} (a : A) : M A := fun s => (s, inr a).

Definition bind {A B : Type} (c : M A) (f : A -> M B) : M B :=
  fun s =>
    match c s with
    | (s', inl e) => (s', inl e)
    | (s', inr a) => f a s'
    end.

Definition raise {A : Type} (e : Exn) : M A := fun s => (s, inl e).

Definition lift {A : Type} (r : Res A) : M A := fun s => (s, r).

(** [try: c  except Exception as e: h e] *)
Definition try_except {A : Type} (c : M A) (h : Exn -> M A) : M A :=
  fun s =>
    match c s with
    | (s', inl e) => h e s'
    | (s', inr a) => (s', inr a)
    end.

Definition is_ValueError (e : Exn) : bool :=
  match e with
  | ValueError _ => true
  | _ => false
  end.

Definition logger (lvl : Level) (msg : string) : M unit :=
  fun s =>
    (mkStore (collection_name s) (collection_properties s)
             (updated_properties_flag s) (sent s) (logged s ++ [(lvl, msg)]),
     inr tt).

Definition get_collection_name : M string := fun s => (s, inr (collection_name s)).
Definition get_collection_properties : M (list string) :=
  fun s => (s, inr (collection_properties s)).
Definition get_updated_properties_flag : M bool :=
  fun s => (s, inr (updated_properties_flag s)).

Definition set_collection_properties (l : list string) : M unit :=
  fun s =>
    (mkStore (collection_name s) l (updated_properties_flag s) (sent s) (logged s),
     inr tt).

Definition set_updated_properties_flag (b : bool) : M unit :=
  fun s =>
    (mkStore (collection_name s) (collection_properties s) b (sent s) (logged s),
     inr tt).

Declare Scope m_scope.
Delimit Scope m_scope with m.
Notation "x <- c ;; k" := (bind c (fun x => k))
  (at level 61, c at next level, right associativity) : m_scope.
Notation "' p <- c ;; k" := (bind c (fun p => k))
  (at level 61, p pattern, c at next level, right associativity) : m_scope.
Notation "c ;; k" := (bind c (fun _ => k))
  (at level 61, right associativity) : m_scope.

Open Scope m_scope.

(** A loop that carries its local variables in an accumulator. *)
Fixpoint for_fold {A B : Type} (l : list A) (acc : B) (body : B -> A -> M B) : M B :=
  match l with
  | [] => ret acc
  | x :: rest => acc' <- body acc x ;; for_fold rest acc' body
  end.

(** [VDMS.results2documents_and_scores] *)
Definition results2documents_and_scores (results : list SearchResult)
  : M (list (Document * Float)) :=
  match parse_results results with
  | (final_res, None) => ret final_res
  | (final_res, Some e) =>
      logger WARNING "No results returned. Error while parsing results" ;;
      ret final_res
  end.

(** [VDMS.results2documents] *)
Definition results2documents (results : list SearchResult) : M (list Document) :=
  l <- results2documents_and_scores results ;;
  ret (map fst l).

(** ** Equality and order of values, as [==] and [>] compute them *)

Definition float_of_bool (b : bool) : Float := if b then Fin 1 else Fin 0.

Fixpoint value_eqb (a b : Value) {struct a} : bool :=
  match a, b with
  | VNone, VNone => true
  | VBool x, VBool y => Bool.eqb x y
  | VBool x, VInt y => float_eqb (float_of_bool x) (Fin (inject_Z y))
  | VBool x, VNum y => float_eqb (float_of_bool x) y
  | VInt x, VBool y => float_eqb (Fin (inject_Z x)) (float_of_bool y)
  | VInt x, VInt y => Z.eqb x y
  | VInt x, VNum y => float_eqb (Fin (inject_Z x)) y
  | VNum x, VBool y => float_eqb x (float_of_bool y)
  | VNum x, VInt y => float_eqb x (Fin (inject_Z y))
  | VNum x, VNum y => float_eqb x y
  | VStr x, VStr y => String.eqb x y
  | VList l1, VList l2 =>
      (fix go (l1 l2 : list Value) : bool :=
         match l1, l2 with
         | [], [] => true
         | x :: xs, y :: ys => value_eqb x y && go xs ys
         | _, _ => false
         end) l1 l2
  | VDict d1, VDict d2 =>
      Nat.eqb (List.length d1) (List.length d2)
      && (fix go (d : list (string * Value)) : bool :=
            match d with
            | [] => true
            | (k, v) :: rest =>
                match dict_lookup k d2 with
                | Some v2 => value_eqb v v2
                | None => false
                end && go rest
            end) d1
  | _, _ => false
  end.

(** [x in l] on a list of values *)
Definition value_in (x : Value) (l : list Value) : bool :=
  existsb (value_eqb x) l.

(** [a > b] *)
Definition py_gt (a b : Value) : Res bool :=
  match a, b with
  | VStr x, VStr y => inr (String.ltb y x)
  | _, _ =>
      x <-? py_float a ;;
      y <-? py_float b ;;
      inr (float_ltb y x)
  end.

(** [a - b] *)
Definition py_sub (a b : Value) : Res Float :=
  x <-? py_float a ;;
  y <-? py_float b ;;
  inr (float_sub x y).

(** [max(l)] *)
Fixpoint py_max_from (cur : Value) (l : list Value) : Res Value :=
  match l with
  | [] => inr cur
  | x :: rest =>
      b <-? py_gt x cur ;;
      py_max_from (if b then x else cur) rest
  end.

Definition py_max (l : list Value) : Res Value :=
  match l with
  | [] => inl (ValueError "max() arg is an empty sequence")
  | x :: rest => py_max_from x rest
  end.

(** [v[:n]] on a list value *)
Definition py_slice_to (v : Value) (n : Z) : Res (list Value) :=
  match v with
  | VList l => inr (slice_to l n)
  | _ => inl TypeError
  end.

(** ** VDMS_Utils: building commands *)

Definition is_None (v : Value) : bool :=
  match v with
  | VNone => true
  | _ => false
  end.

(** [VDMS_Utils.add_descriptor] *)
Definition add_descriptor (command_str setname : string)
    (label : option string) (ref : option Z) (props link : Value)
    (k_neighbors : option Z) (constraints results : Value) : Value :=
  let entity : Dict := [("set", VStr setname)] in
  let entity :=
    match label with
    | Some l =>
        if str_contains "Add" command_str && negb (String.eqb l "")
        then dict_set "label" (VStr l) entity else entity
    | None => entity
    end in
  let entity :=
    match ref with
    | Some r => dict_set "_ref" (VInt r) entity
    | None => entity
    end in
  let entity :=
    match props with
    | VList (p0 :: _ :: _) => dict_set "batch_properties" props entity
    | VList [p0] =>
        if negb (in_INVALID_METADATA_VALUE p0)
        then dict_set "properties" p0 entity else entity
    | VDict _ =>
        if negb (in_INVALID_METADATA_VALUE props)
        then dict_set "properties" props entity else entity
    | _ => entity
    end in
  let entity :=
    if str_contains "Add" command_str && negb (is_None link)
    then dict_set "link" link entity else entity in
  let entity :=
    match k_neighbors with
    | Some k =>
        if str_contains "Find" command_str
        then dict_set "k_neighbors" (VInt k) entity else entity
    | None => entity
    end in
  let entity :=
    if str_contains "Find" command_str && negb (in_INVALID_METADATA_VALUE constraints)
    then dict_set "constraints" constraints entity else entity in
  let entity :=
    if str_contains "Find" command_str && negb (in_INVALID_METADATA_VALUE results)
    then dict_set "results" results entity else entity in
  VDict [(command_str, VDict entity)].

(** [VDMS_Utils.add_descriptor_set] *)
Definition add_descriptor_set (command_str name : string) (num_dims : option Z)
    (engine metric : option string) (ref : option Z) (props link : Value)
    (storeIndex : bool) (constraints results : Value) : Res Value :=
  match String.eqb command_str "AddDescriptorSet", num_dims with
  | true, Some dims =>
      let entity : Dict := [("name", VStr name); ("dimensions", VInt dims)] in
      let entity :=
        match engine with
        | Some e => dict_set "engine" (VStr e) entity
        | None => entity
        end in
      let entity :=
        match metric with
        | Some m => dict_set "metric" (VStr m) entity
        | None => entity
        end in
      let entity :=
        match ref with
        | Some r => dict_set "_ref" (VInt r) entity
        | None => entity
        end in
      let entity :=
        match props with
        | VNone | VDict [] => entity
        | _ => dict_set "properties" props entity
        end in
      let entity :=
        if negb (is_None link) then dict_set "link" link entity else entity in
      inr (VDict [(command_str, VDict entity)])
  | _, _ =>
      if String.eqb command_str "FindDescriptorSet" then
        let entity : Dict := [("set", VStr name)] in
        let entity :=
          if storeIndex then dict_set "storeIndex" (VBool storeIndex) entity
          else entity in
        let entity :=
          match constraints with
          | VNone | VDict [] => entity
          | _ => dict_set "constraints" constraints entity
          end in
        let entity :=
          if negb (is_None results) then dict_set "results" results entity
          else entity in
        inr (VDict [(command_str, VDict entity)])
      else inl (ValueError ("Unknown command: " ++ command_str))
  end.

(** [VDMS_Utils.find_property_entity] *)
Definition find_property_entity (collection_name : string)
    (unique_entity deletion : bool) : Value :=
  let entity : Dict := [("class", VStr "properties")] in
  let entity :=
    if unique_entity then dict_set "unique" (VBool unique_entity) entity else entity in
  let results : Dict :=
    [("blob", VBool true); ("count", VStr ""); ("list", VList [VStr TEXT_PROPERTY])] in
  let entity := dict_set "results" (VDict results) entity in
  let constraints : Dict :=
    if deletion then [("_deletion", VList [VStr "=="; VInt 1])] else [] in
  let constraints :=
    dict_set "name" (VList [VStr "=="; VStr collection_name]) constraints in
  let entity := dict_set "constraints" (VDict constraints) entity in
  VDict [("FindEntity", VDict entity)].

Definition str2bytes (in_str : string) : Blob := BytesOfStr in_str.

(** [bytes.decode()] of a payload that is not text raises
    [UnicodeDecodeError], a [ValueError]. *)
Definition bytes2str (in_bytes : Blob) : Res string :=
  match in_bytes with
  | BytesOfStr s => inr s
  | BytesOfEmb _ => inl (ValueError "UnicodeDecodeError")
  | ListOfBlobs _ => inl AttributeError
  end.

Definition embedding2bytes (embedding : option (list Float)) : option Blob :=
  match embedding with
  | Some e => Some (BytesOfEmb e)
  | None => None
  end.

(** The bytes of [str.encode()], for a text of code points below 256 *)
Fixpoint utf8_bytes (s : string) : list Z :=
  match s with
  | EmptyString => []
  | String c s' =>
      let n := Z.of_nat (nat_of_ascii c) in
      if (n <? 128)%Z then n :: utf8_bytes s'
      else (192 + n / 64)%Z :: (128 + n mod 64)%Z :: utf8_bytes s'
  end.

(** The [float32] that four bytes spell, the least significant first *)
Definition float32_of_bits (bits : Z) : Float :=
  let negative := Z.testbit bits 31 in
  let e := Z.land (Z.shiftr bits 23) 255 in
  let f := Z.land bits 8388607 in
  if (e =? 255)%Z then
    if (f =? 0)%Z then (if negative then NInf else PInf) else NaN
  else
    let '(vn, vd) :=
      binary_value (if (e =? 0)%Z then (f, (-149)%Z) else ((f + 8388608)%Z, (e - 150)%Z)) in
    fin (Qmake (if negative then - vn else vn) (Z.to_pos vd)).

Fixpoint floats_of_bytes (bytes : list Z) : list Float :=
  match bytes with
  | b0 :: b1 :: b2 :: b3 :: rest =>
      float32_of_bits (b0 + 256 * b1 + 65536 * b2 + 16777216 * b3)%Z
      :: floats_of_bytes rest
  | _ => []
  end.

(** [np.frombuffer(blob, dtype="float32")]: an embedding comes back as the
    [float32] numbers it was stored as, and any other bytes are read four
    by four. *)
Definition bytes2embedding (blob : Blob) : Res (list Float) :=
  match blob with
  | BytesOfEmb e => inr (map (float_to_format binary32) (map (float_to_format binary64) e))
  | BytesOfStr s =>
      if (Z.of_nat (List.length (utf8_bytes s)) mod 4 =? 0)%Z
      then inr (floats_of_bytes (utf8_bytes s))
      else inl (ValueError "buffer size must be a multiple of element size")
  | ListOfBlobs _ => inl TypeError
  end.

(** [VDMS_Utils.add_entity_with_blob] *)
Definition add_entity_with_blob (collection_name : string)
    (all_properties : list string) : Value * Blob :=
  let all_properties_str :=
    if (0 <? List.length all_properties)%nat then str_join "," all_properties else "" in
  let props : Dict :=
    [("name", VStr collection_name);
     ("type", VStr "queryable properties");
     (TEXT_PROPERTY, VStr all_properties_str)] in
  let entity : Dict :=
    [("class", VStr "properties"); ("blob", VBool true); ("properties", VDict props)] in
  (VDict [("AddEntity", VDict entity)], str2bytes all_properties_str).

Inductive CommandType : Type := Find | Add | Update.

(** [VDMS_Utils.build_property_query], for the three accepted command types *)
Definition build_property_query (collection_name : string)
    (command_type : CommandType) (all_properties : list string)
  : list Value * list Blob :=
  match command_type with
  | Find => ([find_property_entity collection_name true false], [])
  | Add =>
      let '(query, byte_data) := add_entity_with_blob collection_name all_properties in
      ([query], [byte_data])
  | Update =>
      let found := find_property_entity collection_name false true in
      let '(query, byte_data) := add_entity_with_blob collection_name all_properties in
      ([found; query], [byte_data])
  end.

(** ** VDMS_Utils: reading replies *)

Fixpoint dedup (l : list string) : list string :=
  match l with
  | [] => []
  | x :: rest => x :: filter (fun y => negb (String.eqb x y)) (dedup rest)
  end.

Fixpoint res_map {A B : Type} (f : A -> Res B) (l : list A) : Res (list B) :=
  match l with
  | [] => inr []
  | x :: rest =>
      y <-? f x ;;
      ys <-? res_map f rest ;;
      inr (y :: ys)
  end.

Fixpoint res_filter {A : Type} (f : A -> Res bool) (l : list A) : Res (list A) :=
  match l with
  | [] => inr []
  | x :: rest =>
      b <-? f x ;;
      ys <-? res_filter f rest ;;
      inr (if b then x :: ys else ys)
  end.

(** [VDMS_Utils.get_cmds_from_query]: the keys of the queries without
    repetition (a Python set has no fixed order; first occurrence is used). *)
Definition get_cmds_from_query (all_queries : list Value) : Res (list string) :=
  ks <-? res_map (fun q => d <-? py_items q ;; inr (dict_keys d)) all_queries ;;
  inr (dedup (List.concat ks)).

(** The generator inside [any(...)] of [check_valid_response] *)
Fixpoint any_returned (response : list Value) (cmd_list : list string) : Res bool :=
  match cmd_list with
  | [] => inr false
  | cmd :: rest =>
      r0 <-? py_first response ;;
      has_cmd <-? py_contains cmd r0 ;;
      if has_cmd then
        body <-? py_getitem r0 cmd ;;
        has_returned <-? py_contains "returned" body ;;
        if has_returned then
          returned <-? py_getitem body "returned" ;;
          positive <-? py_gt_zero returned ;;
          if positive then inr true else any_returned response rest
        else any_returned response rest
      else any_returned response rest
  end.

(** The "ID required" loop body of [check_valid_response] *)
Definition keep_entities_with_id (res : Value) : Res Value :=
  has_find <-? py_contains "FindDescriptor" res ;;
  if has_find then
    body <-? py_getitem res "FindDescriptor" ;;
    ent <-? py_get body "entities" (VList []) ;;
    items <-? py_iter ent ;;
    kept <-? res_filter (py_contains LANGCHAIN_ID_PROPERTY) items ;;
    body <-? py_setitem body "entities" (VList kept) ;;
    body <-? py_setitem body "returned" (VNat (List.length kept)) ;;
    py_setitem res "FindDescriptor" body
  else inr res.

(** [VDMS_Utils.check_valid_response] *)
Definition check_valid_response (all_queries : list Value) (response : list Value)
  : Res (list Value * bool) :=
  cmd_list <-? get_cmds_from_query all_queries ;;
  valid_res <-? any_returned response cmd_list ;;
  response <-? res_map keep_entities_with_id response ;;
  inr (response, valid_res).

(** ** Sorting property names: [list.sort()] on strings *)

Module StringOrder <: Orders.TotalLeBool.
Definition t : Type := string.
Definition leb : t -> t -> bool := String.leb.
Definition leb_total : forall a1 a2, leb a1 a2 = true \/ leb a2 a1 = true :=
  String.leb_total.
End StringOrder.

Module StringSort := Mergesort.Sort StringOrder.

Definition sort_strings (l : list string) : list string := StringSort.sort l.

(** ** Distance normalisation and the id intersection, the pure parts of
    [get_descriptor_response] *)

Definition min_dist : Value := VNum (Fin 0).

(** The list handed to [max]: the distances that are not [np.inf]. *)
Definition finite_distances (entities : list Value) : Res (list Value) :=
  dists <-? res_map (fun ent => py_getitem ent "_distance") entities ;;
  inr (filter (fun d => negb (value_eqb d (VNum PInf))) dists).

(** The body of the [try] inside the normalisation loop *)
Definition normalized_distance (max_dist ent : Value) : Res Float :=
  d <-? py_getitem ent "_distance" ;;
  num <-? py_sub d min_dist ;;
  den <-? py_sub max_dist min_dist ;;
  py_div num den.

(** The value assigned in the [except] branch *)
Definition fallback_distance (max_dist : Value) : Float :=
  if value_eqb max_dist min_dist then Fin 0 else Fin 1.

(** The loop at step (3): keep the neighbours whose id is of interest, leave
    once [k_neighbors] of them are held. *)
Fixpoint intersect_loop (entities ids_of_interest : list Value) (k_neighbors : Z)
    (new_entities : list Value) : Res (list Value) :=
  match entities with
  | [] => inr new_entities
  | ent :: rest =>
      i <-? py_getitem ent LANGCHAIN_ID_PROPERTY ;;
      let new_entities :=
        if value_in i ids_of_interest then new_entities ++ [ent] else new_entities in
      if (Z.of_nat (List.length new_entities) =? k_neighbors)%Z then inr new_entities
      else intersect_loop rest ids_of_interest k_neighbors new_entities
  end.

(** [response[0][command_str][field]] *)
Definition response_field (response : list Value) (command_str field : string)
  : Res Value :=
  r0 <-? py_first response ;;
  body <-? py_getitem r0 command_str ;;
  py_getitem body field.

(** [response[0][command_str]["entities"] = new_entities] followed by
    [response[0][command_str]["returned"] = len(new_entities)] *)
Definition set_entities (response : list Value) (command_str : string)
    (new_entities : list Value) : Res (list Value) :=
  match response with
  | [] => inl IndexError
  | r0 :: rest =>
      body <-? py_getitem r0 command_str ;;
      body <-? py_setitem body "entities" (VList new_entities) ;;
      body <-? py_setitem body "returned" (VNat (List.length new_entities)) ;;
      r0 <-? py_setitem r0 command_str body ;;
      inr (r0 :: rest)
  end.

(** [response[0][command_str]["entities"] = entities], alone *)
Definition set_entities_only (response : list Value) (command_str : string)
    (entities : list Value) : Res (list Value) :=
  match response with
  | [] => inl IndexError
  | r0 :: rest =>
      body <-? py_getitem r0 command_str ;;
      body <-? py_setitem body "entities" (VList entities) ;;
      r0 <-? py_setitem r0 command_str body ;;
      inr (r0 :: rest)
  end.

(** The three-way update of [results] on the constrained path; the boolean
    says whether [results["list"].append] ran. *)
Definition results_with_id (results : Value) : Res (Value * bool) :=
  if is_None results then
    inr (VDict [("list", VList [VStr LANGCHAIN_ID_PROPERTY])], false)
  else
    has_list <-? py_contains "list" results ;;
    if negb has_list then
      results <-? py_setitem results "list" (VList [VStr LANGCHAIN_ID_PROPERTY]) ;;
      inr (results, false)
    else
      l <-? py_getitem results "list" ;;
      has_id <-? py_contains LANGCHAIN_ID_PROPERTY l ;;
      if negb has_id then
        match l with
        | VList items =>
            results <-? py_setitem results "list"
                          (VList (items ++ [VStr LANGCHAIN_ID_PROPERTY])) ;;
            inr (results, true)
        | _ => inl AttributeError
        end
      else inr (results, false).

Section Client.

(** The transport: what [client.query(all_queries, all_blobs)] answers, given
    the calls sent before it. *)
Variable client_query : list Call -> list Value -> list Blob -> Reply.

(** [VDMS_Utils.run_vdms_query] *)
Definition run_vdms_query (all_queries : list Value) (all_blobs : list Blob)
  : M Reply :=
  fun s =>
    let '(response, response_array) := client_query (sent s) all_queries all_blobs in
    let s' := mkStore (collection_name s) (collection_properties s)
                      (updated_properties_flag s)
                      (sent s ++ [(all_queries, all_blobs)]) (logged s) in
    match check_valid_response all_queries response with
    | inl e => (s', inl e)
    | inr (response, _) => (s', inr (response, response_array))
    end.

(** [VDMS_Utils.get_k_candidates] *)
Definition get_k_candidates (setname : string) (k : option Z) (results : Value)
    (all_blobs : list Blob) : M Reply :=
  let command_str := "FindDescriptor" in
  let query := add_descriptor command_str setname None None VNone VNone k VNone results in
  '(response, response_array) <- run_vdms_query [query] all_blobs ;;
  r0 <- lift (py_first response) ;;
  failed <- lift (py_contains "FailedCommand" r0) ;;
  if failed then ret ([], []) else ret (response, response_array).

(** [VDMS_Utils.get_properties] *)
Definition get_properties (collection_name : string) (unique_entity deletion : bool)
  : M (list string) :=
  let find_query := find_property_entity collection_name unique_entity deletion in
  '(response, response_blob) <- run_vdms_query [find_query] [] ;;
  collection_properties <-
    match response_blob with
    | blob :: _ => s <- lift (bytes2str blob) ;; ret (str_split_comma s)
    | [] => ret DEFAULT_PROPERTIES
    end ;;
  ret (sort_strings collection_properties).

(** The [if constraints is None] branch of [get_descriptor_response] *)
Definition nearest_unconstrained (command_str setname : string)
    (k_neighbors fetch_k : Z) (results : Value) (all_blobs : list Blob) : M Reply :=
  '(response, response_array) <- get_k_candidates setname (Some fetch_k) results all_blobs ;;
  match response with
  | [] => ret (response, response_array)
  | r0 :: _ =>
      has_cmd <- lift (py_contains command_str r0) ;;
      if has_cmd then
        body <- lift (py_getitem r0 command_str) ;;
        has_entities <- lift (py_contains "entities" body) ;;
        if has_entities then
          entities <- lift (py_getitem body "entities") ;;
          new_entities <- lift (py_slice_to entities k_neighbors) ;;
          response <- lift (set_entities response command_str new_entities) ;;
          ret (response, slice_to response_array (Z.of_nat (List.length new_entities)))
        else ret (response, response_array)
      else ret (response, response_array)
  end.

(** The [else] branch, from step (1) on: [None] stands for the early
    [return [], []]. *)
Definition nearest_constrained (command_str setname : string)
    (k_neighbors fetch_k : Z) (constraints results : Value) (all_blobs : list Blob)
  : M (option Reply) :=
  (* (1) Find docs satisfy constraints *)
  let query :=
    add_descriptor command_str setname None None VNone VNone None constraints results in
  '(response, response_array) <- run_vdms_query [query] [] ;;
  r0 <- lift (py_first response) ;;
  has_cmd <- lift (py_contains command_str r0) ;;
  some_returned <-
    (if has_cmd then
       returned <- lift (response_field response command_str "returned") ;;
       lift (py_gt_zero returned)
     else ret false) ;;
  if negb some_returned then ret None else
  found <- lift (response_field response command_str "entities") ;;
  found <- lift (py_iter found) ;;
  ids_of_interest <-
    lift (res_map (fun ent => py_getitem ent LANGCHAIN_ID_PROPERTY) found) ;;
  (* (2) Find top fetch_k results *)
  '(response, response_array) <- get_k_candidates setname (Some fetch_k) results all_blobs ;;
  r0 <- lift (py_first response) ;;
  has_cmd <- lift (py_contains command_str r0) ;;
  none_returned <-
    (if negb has_cmd then ret true
     else
       returned <- lift (response_field response command_str "returned") ;;
       ret (value_eqb returned (VInt 0))) ;;
  if none_returned then ret None else
  (* (3) Intersection of (1) & (2) using ids *)
  entities <- lift (response_field response command_str "entities") ;;
  entities <- lift (py_iter entities) ;;
  new_entities <- lift (intersect_loop entities ids_of_interest k_neighbors []) ;;
  response <- lift (set_entities response command_str new_entities) ;;
  let response_array := slice_to response_array (Z.of_nat (List.length new_entities)) in
  (if (Z.of_nat (List.length new_entities) <? k_neighbors)%Z
   then logger WARNING "Returned items < k_neighbors; Try increasing fetch_k"
   else ret tt) ;;
  ret (Some (response, response_array)).

(** One turn of the normalisation loop *)
Definition normalize_entity (max_dist ent : Value) : M Value :=
  d <- try_except
         (lift (normalized_distance max_dist ent))
         (fun e =>
            logger INFO "Exception[in get_descriptor_response]" ;;
            logger INFO "Normalizing to" ;;
            ret (fallback_distance max_dist)) ;;
  lift (py_setitem ent "_distance" (VNum d)).

Fixpoint normalize_entities (max_dist : Value) (entities : list Value)
  : M (list Value) :=
  match entities with
  | [] => ret []
  | ent :: rest =>
      ent' <- normalize_entity max_dist ent ;;
      rest' <- normalize_entities max_dist rest ;;
      ret (ent' :: rest')
  end.

(** The [if normalize_distance] block *)
Definition normalize_response (command_str : string) (response : list Value)
  : M (list Value) :=
  entities <- lift (response_field response command_str "entities") ;;
  entities <- lift (py_iter entities) ;;
  finite <- lift (finite_distances entities) ;;
  max_dist <- lift (py_max finite) ;;
  entities <- normalize_entities max_dist entities ;;
  lift (set_entities_only response command_str entities).

(** [VDMS_Utils.get_descriptor_response].  The source receives [results] by
    reference and may change it in place on the constrained path; the second
    component of the outcome is that object as the caller sees it afterwards.
    The flag says that [results["list"]] is the very list object
    [self.collection_properties], which the append then reaches too. *)
Definition get_descriptor_response (command_str setname : string)
    (k_neighbors fetch_k : Z) (constraints results : Value)
    (query_embedding : option (list Float)) (normalize_distance : bool)
    (results_list_is_collection_properties : bool) : M (Reply * Value) :=
  if (k_neighbors >=? fetch_k)%Z then
    raise (ValueError ("Provide fetch_k > k; Currently set at " ++ str_of_Z fetch_k))
  else
    let all_blobs :=
      match embedding2bytes query_embedding with
      | Some blob => [blob]
      | None => []
      end in
    '(found, seen_results) <-
      (if is_None constraints then
         r <- nearest_unconstrained command_str setname k_neighbors fetch_k
                results all_blobs ;;
         ret (Some r, results)
       else
         '(local_results, appended) <- lift (results_with_id results) ;;
         (if appended && results_list_is_collection_properties then
            props <- get_collection_properties ;;
            set_collection_properties (props ++ [LANGCHAIN_ID_PROPERTY])
          else ret tt) ;;
         r <- nearest_constrained command_str setname k_neighbors fetch_k constraints
                local_results all_blobs ;;
         ret (r, if is_None results then results else local_results)) ;;
    match found with
    | None => ret (([], []), seen_results)
    | Some (response, response_array) =>
        if normalize_distance then
          response <- normalize_response command_str response ;;
          ret ((response, response_array), seen_results)
        else ret ((response, response_array), seen_results)
    end.

(** ** VDMS: the known properties *)

(** [VDMS.check_and_update_properties] *)
Definition check_and_update_properties : M unit :=
  flag <- get_updated_properties_flag ;;
  if flag then
    name <- get_collection_name ;;
    pushed_props <- get_properties name false false ;;
    props <- get_collection_properties ;;
    set_collection_properties (sort_strings props) ;;
    let pushed_props := sort_strings pushed_props in
    props <- get_collection_properties ;;
    (if list_eq_dec string_dec props pushed_props
     then ret tt else set_collection_properties pushed_props) ;;
    set_updated_properties_flag false
  else ret tt.

(** The dictionary [props] that [get_props_from_metadata] builds *)
Definition props_of (document : string) (metadata : option Dict) (id : option string)
  : Dict :=
  let props : Dict :=
    match id with
    | None => []
    | Some i => [(LANGCHAIN_ID_PROPERTY, VStr i)]
    end in
  let props :=
    match metadata with
    | None | Some [] => props
    | Some md =>
        let props :=
          fold_left
            (fun props kv =>
               if negb (dict_has (fst kv) props)
               then dict_set (fst kv) (snd kv) props else props)
            md props in
        match dict_lookup "id" md with
        | Some v =>
            if negb (dict_has LANGCHAIN_ID_PROPERTY props)
            then dict_set LANGCHAIN_ID_PROPERTY (VStr (py_str v)) props else props
        | None => props
        end
    end in
  if negb (String.eqb document "") then dict_set "content" (VStr document) props
  else props.

(** The loop [for k in props.keys(): if k not in known: known.append(k)] *)
Definition append_unseen (known keys : list string) : list string :=
  fold_left (fun known k => if str_in k known then known else known ++ [k]) keys known.

(** [VDMS.get_props_from_metadata] *)
Definition get_props_from_metadata (document : string) (metadata : option Dict)
    (id : option string) : M Dict :=
  let props := props_of document metadata id in
  known <- get_collection_properties ;;
  set_collection_properties (sort_strings (append_unseen known (dict_keys props))) ;;
  ret props.

(** [list(set(a) - set(b))], in the order of [a] *)
Definition set_difference (a b : list string) : list string :=
  dedup (filter (fun x => negb (str_in x b)) a).

(** [VDMS.push_update_properties].  The source wraps the blob list in one
    more list when it calls [run_vdms_query]. *)
Definition push_update_properties (collection_name : string) : M unit :=
  pushed_props <- get_properties collection_name false false ;;
  known <- get_collection_properties ;;
  let missing_elements := set_difference known pushed_props in
  if (0 <? List.length missing_elements)%nat then
    let pushed_props := sort_strings (pushed_props ++ missing_elements) in
    let '(all_queries, blob_arr) :=
      build_property_query collection_name Update pushed_props in
    _ <- run_vdms_query all_queries [ListOfBlobs blob_arr] ;;
    set_updated_properties_flag true
  else ret tt.

(** ** VDMS: search *)

(** The keyword arguments that the search methods hand on to
    [query_by_embeddings] *)
Record SearchKwargs : Type := mkSearchKwargs {
  kw_collection_name : option string;
  kw_results : Value;
  kw_normalize_distance : bool;
  kw_include : option (list string)
}.

Definition no_kwargs : SearchKwargs := mkSearchKwargs None VNone false None.

(** [{k: v for k, v in ent.items() if v not in INVALID_METADATA_VALUE}] *)
Definition strip_invalid (ent : Value) : Res Value :=
  items <-? py_items ent ;;
  inr (VDict (fold_left
                (fun d kv =>
                   if negb (in_INVALID_METADATA_VALUE (snd kv))
                   then dict_set (fst kv) (snd kv) d else d)
                items [])).

(** The [try] block of [query_by_embeddings] *)
Definition count_returned (response : list Value) (k : Z) : M Value :=
  r0 <- lift (py_first response) ;;
  has_find <- lift (py_contains "FindDescriptor" r0) ;;
  num_returned <-
    (if has_find then
       body <- lift (py_getitem r0 "FindDescriptor") ;;
       entities <- lift (py_get body "entities" (VList [])) ;;
       lift (py_len entities)
     else ret O) ;;
  (if negb (Z.of_nat num_returned =? k)%Z
   then logger INFO "Only num_returned returned. Provide fetch_k > k"
   else ret tt) ;;
  body <- lift (py_getitem r0 "FindDescriptor") ;;
  lift (py_get body "entities" (VList [])).

(** One turn of [for qemb in query_embeddings] *)
Definition query_one (collection_name : string) (k fetch_k : Z)
    (filter results : Value) (normalize_distance shared : bool) (qemb : list Float)
  : M (SearchResult * Value) :=
  '((response, response_array), results) <-
    (if (fetch_k >=? k)%Z then
       get_descriptor_response "FindDescriptor" collection_name k fetch_k filter
         results (Some qemb) normalize_distance shared
     else ret (([], []), results)) ;;
  result_entities <-
    try_except (count_returned response k)
      (fun e =>
         logger INFO "Exception[in query_by_embeddings]" ;;
         logger INFO "Returning 0 results" ;;
         ret (VList [])) ;;
  entities <- lift (py_iter result_entities) ;;
  cleaned <- lift (res_map strip_invalid entities) ;;
  response <-
    match entities with
    | [] => ret response
    | _ => lift (set_entities_only response "FindDescriptor" cleaned)
    end ;;
  ret ((response, response_array), results).

(** [VDMS.query_by_embeddings] *)
Definition query_by_embeddings (query_embeddings : option (list (list Float)))
    (collection_name : option string) (k fetch_k : Z) (filter results : Value)
    (normalize_distance : bool) (include : option (list string))
  : M (list SearchResult) :=
  check_and_update_properties ;;
  collection_name <-
    match collection_name with
    | Some n => ret n
    | None => get_collection_name
    end ;;
  match query_embeddings with
  | None => ret []
  | Some query_embeddings =>
      let include :=
        match include with
        | Some l => l
        | None => ["metadatas"]
        end in
      let shared := is_None results && str_in "metadatas" include in
      props <- get_collection_properties ;;
      let results :=
        if shared
        then VDict [("list", VList (map VStr props));
                    ("blob", VBool (str_in "embeddings" include))]
        else results in
      '(all_responses, _) <-
        for_fold query_embeddings ([], results)
          (fun '(all_responses, results) qemb =>
             '(one, results) <-
               query_one collection_name k fetch_k filter results
                 normalize_distance shared qemb ;;
             ret (all_responses ++ [one], results)) ;;
      ret all_responses
  end.

(** The embedding collaborator behind [get_embedding_from_query] *)
Variable get_embedding_from_query : string -> Res (list Float).

(** The body of the loop of [similarity_search_by_vector]: only a
    [ValueError] is caught around the lookup of the entities. *)
Definition documents_of_result (this_result : SearchResult) : M (list Document) :=
  let '(resp, _) := this_result in
  descriptor_entities <-
    try_except
      (r0 <- lift (py_first resp) ;;
       body <- lift (py_getitem r0 "FindDescriptor") ;;
       lift (py_get body "entities" (VList [])))
      (fun e => if is_ValueError e then ret (VList []) else raise e) ;;
  match descriptor_entities with
  | VDict _ =>
      doc <- lift (descriptor2document descriptor_entities) ;;
      ret [doc]
  | VList l => lift (res_map descriptor2document l)
  | _ => ret []
  end.

(** [VDMS.similarity_search_by_vector] *)
Definition similarity_search_by_vector (embedding : list Float) (k fetch_k : Z)
    (filter : Value) (kwargs : SearchKwargs) : M (list Document) :=
  results <- query_by_embeddings (Some [embedding]) (kw_collection_name kwargs)
               k fetch_k filter (kw_results kwargs) (kw_normalize_distance kwargs)
               (kw_include kwargs) ;;
  logger INFO "VDMS similarity search took" ;;
  for_fold results []
    (fun final_docs this_result =>
       docs <- documents_of_result this_result ;;
       ret (final_docs ++ docs)).

(** [VDMS.similarity_search] *)
Definition similarity_search (query : string) (k fetch_k : Z) (filter : Value)
    (kwargs : SearchKwargs) : M (list Document) :=
  query_embedding <- lift (get_embedding_from_query query) ;;
  similarity_search_by_vector query_embedding k fetch_k filter kwargs.

(** [VDMS.similarity_search_with_score] *)
Definition similarity_search_with_score (query : string) (k fetch_k : Z)
    (filter : Value) (kwargs : SearchKwargs) : M (list (Document * Float)) :=
  query_embedding <- lift (get_embedding_from_query query) ;;
  results <- query_by_embeddings (Some [query_embedding]) (kw_collection_name kwargs)
               k fetch_k filter (kw_results kwargs) (kw_normalize_distance kwargs)
               (kw_include kwargs) ;;
  results2documents_and_scores results.

(** [VDMS.similarity_search_with_score_by_vector]: the source passes
    [n_results=k], which [query_by_embeddings] does not read, so the default
    [k] applies. *)
Definition similarity_search_with_score_by_vector (embedding : list Float)
    (k fetch_k : Z) (filter : Value) (kwargs : SearchKwargs)
  : M (list (Document * Float)) :=
  results <- query_by_embeddings (Some [embedding]) (kw_collection_name kwargs)
               DEFAULT_K fetch_k filter (kw_results kwargs)
               (kw_normalize_distance kwargs) (kw_include kwargs) ;;
  results2documents_and_scores results.

(** ** VDMS: diversity reranking *)

(** [langchain_vdms.utils.maximal_marginal_relevance], a function of the
    repository that the methods below call: the indices of the chosen
    candidates, in the order in which they were chosen. *)
Variable maximal_marginal_relevance :
  list Float -> list (list Float) -> Z -> Float -> list nat.

(** [[r for i, r in enumerate(candidates) if i in mmr_selected]] *)
Definition keep_selected {A : Type} (candidates : list A) (mmr_selected : list nat)
  : list A :=
  map snd
    (filter (fun ir => existsb (Nat.eqb (fst ir)) mmr_selected)
       (combine (seq 0 (List.length candidates)) candidates)).

Definition mmr_include : list string :=
  ["metadatas"; "documents"; "distances"; "embeddings"].

(** What both MMR methods do up to the choice of the indices: [None] is the
    early [return []] when no blob came back. *)
Definition mmr_select (embedding : list Float) (k fetch_k : Z) (lambda_mult : Float)
    (filter : Value) : M (list SearchResult * option (list nat)) :=
  results <- query_by_embeddings (Some [embedding]) None k fetch_k filter VNone
               false (Some mmr_include) ;;
  '(_, blobs) <- lift (py_first results) ;;
  match blobs with
  | [] => ret (results, None)
  | _ =>
      embedding_list <- lift (res_map bytes2embedding blobs) ;;
      let mmr_selected :=
        maximal_marginal_relevance embedding embedding_list k lambda_mult in
      logger INFO "VDMS similarity search mmr took" ;;
      ret (results, Some mmr_selected)
  end.

(** [VDMS.max_marginal_relevance_search_by_vector] *)
Definition max_marginal_relevance_search_by_vector (embedding : list Float)
    (k fetch_k : Z) (lambda_mult : Float) (filter : Value) : M (list Document) :=
  '(results, selected) <- mmr_select embedding k fetch_k lambda_mult filter ;;
  match selected with
  | None => ret []
  | Some mmr_selected =>
      candidates <- results2documents results ;;
      ret (keep_selected candidates mmr_selected)
  end.

(** [VDMS.max_marginal_relevance_search_by_vector_with_score] *)
Definition max_marginal_relevance_search_by_vector_with_score
    (embedding : list Float) (k fetch_k : Z) (lambda_mult : Float) (filter : Value)
  : M (list (Document * Float)) :=
  '(results, selected) <- mmr_select embedding k fetch_k lambda_mult filter ;;
  match selected with
  | None => ret []
  | Some mmr_selected =>
      candidates <- results2documents_and_scores results ;;
      ret (keep_selected candidates mmr_selected)
  end.

(** ** VDMS: writes *)

(** [VDMS._len_check_if_sized] *)
Definition _len_check_if_sized {A B : Type} (x : list A) (y : list B)
    (x_name y_name : string) : M unit :=
  if negb (List.length x =? List.length y)%nat then
    raise (ValueError (x_name ++ " and " ++ y_name
                       ++ " expected to be equal length but len(" ++ x_name ++ ")="
                       ++ str_of_nat (List.length x) ++ " and len(" ++ y_name ++ ")="
                       ++ str_of_nat (List.length y)))
  else ret tt.

(** [zip] of four lists *)
Fixpoint zip4 {A B C D : Type} (a : list A) (b : list B) (c : list C) (d : list D)
  : list (A * B * C * D) :=
  match a, b, c, d with
  | x :: a', y :: b', z :: c', w :: d' => (x, y, z, w) :: zip4 a' b' c' d'
  | _, _, _, _ => []
  end.

(** [ids if response[0]["AddDescriptor"]["status"] == 0 else []] *)
Definition ids_if_added (response : list Value) (ids : list string)
  : Res (list string) :=
  r0 <-? py_first response ;;
  body <-? py_getitem r0 "AddDescriptor" ;;
  status <-? py_getitem body "status" ;;
  inr (if py_eq_zero status then ids else []).

(** The recovery loop of [add_batch]: the last [response] it received. *)
Definition resend_in_halves (all_queries : list Value) (all_blobs : list Blob)
    (emb : option (list Float)) (response : list Value) : M (list Value) :=
  logger INFO "OutOfJournalSpace: Splitting batch in half" ;;
  let old_batch := Z.of_nat (List.length all_queries) in
  let new_batch_size := (old_batch / 2)%Z in
  emb_len <-
    match emb with
    | Some e => ret (Z.of_nat (List.length e))
    | None => raise (NameError "emb")
    end ;;
  starts <- lift (py_range 0 old_batch new_batch_size) ;;
  for_fold starts response
    (fun _ start_idx =>
       let end_idx_blob :=
         Z.min (start_idx * emb_len + new_batch_size - 1)
               (Z.of_nat (List.length all_blobs)) in
       let blobs := slice all_blobs (start_idx * emb_len) end_idx_blob in
       let end_idx := Z.min (start_idx + new_batch_size - 1) old_batch in
       let queries := slice all_queries start_idx end_idx in
       '(response, _) <- run_vdms_query queries blobs ;;
       ret response).

(** [VDMS.add_batch].  [add_from], its caller, always passes [ids]; the
    random default is left out. *)
Definition add_batch (collection_name : string) (texts : list string)
    (embeddings : list (list Float)) (metadatas : option (list Dict))
    (ids : list string) : M (list string) :=
  _len_check_if_sized texts embeddings "texts" "embeddings" ;;
  let metadatas :=
    match metadatas with
    | Some m => m
    | None => map (fun _ => []) texts
    end in
  _len_check_if_sized texts metadatas "texts" "metadatas" ;;
  _len_check_if_sized texts ids "texts" "ids" ;;
  '(extended_emb, batch_properties, emb) <-
    for_fold (zip4 metadatas embeddings texts ids) ([], [], None)
      (fun '(extended_emb, batch_properties, _) '(meta, emb, doc, id) =>
         props <- get_props_from_metadata doc (Some meta) (Some id) ;;
         ret (extended_emb ++ emb, batch_properties ++ [VDict props], Some emb)) ;;
  let all_blobs :=
    match embedding2bytes (Some extended_emb) with
    | Some b => [b]
    | None => []
    end in
  let all_queries :=
    [add_descriptor "AddDescriptor" collection_name None None
       (VList batch_properties) VNone None VNone VNone] in
  '(response, _) <- run_vdms_query all_queries all_blobs ;;
  try_except (lift (ids_if_added response ids))
    (fun e =>
       r0 <- lift (py_first response) ;;
       info <- lift (py_getitem r0 "info") ;;
       out_of_space <- lift (py_contains "OutOfJournalSpace" info) ;;
       if out_of_space then
         response <-
           try_except (resend_in_halves all_queries all_blobs emb response)
             (fun _ =>
                raise (ValueError ("Lower batch_size to < "
                                   ++ str_of_nat (List.length all_queries)
                                   ++ " and rerun"))) ;;
         lift (ids_if_added response ids)
       else
         logger INFO "Exception[in add_batch]" ;;
         logger INFO "Returning []" ;;
         ret []).

(** ** VDMS: deletion *)

(** The loop [for res in response] of [batch_delete]: the entities list of
    [new_response] after it. *)
Definition extend_with_found (entities : list Value) (response : list Value)
  : Res (list Value) :=
  fold_left
    (fun acc res =>
       entities <-? acc ;;
       has_find <-? py_contains "FindDescriptor" res ;;
       if has_find then
         body <-? py_getitem res "FindDescriptor" ;;
         found <-? py_getitem body "entities" ;;
         found <-? py_iter found ;;
         inr (entities ++ found)
       else inr entities)
    response (inr entities).

Definition new_response_with (entities : list Value) (returned : nat) : list Value :=
  [VDict [("FindDescriptor",
           VDict [("entities", VList entities);
                  ("returned", VNat returned);
                  ("status", VInt 0)])]].

Definition properties_result (props : list string) : Value :=
  VDict [("list", VList (map VStr props))].

(** The queries of one window of ids *)
Definition id_queries (collection_name : string) (constraints : Value)
    (props : list string) (batch_ids : list string) : Res (list Value) :=
  res_map
    (fun i =>
       let tmp_ : Dict := [(LANGCHAIN_ID_PROPERTY, VList [VStr "=="; VStr i])] in
       tmp_ <-? (if negb (is_None constraints) then
                   other <-? py_items constraints ;;
                   inr (dict_update tmp_ other)
                 else inr tmp_) ;;
       inr (add_descriptor "FindDescriptor" collection_name None None VNone VNone
              None (VDict tmp_) (properties_result props)))
    batch_ids.

(** The windows loop of [batch_delete]: [inl] is the early
    [return new_response], [inr] the entities gathered when the loop ends. *)
Fixpoint delete_windows (collection_name : string) (constraints : Value)
    (ids : list string) (batch_size : Z) (starts : list Z) (entities : list Value)
  : M (list Value + list Value) :=
  match starts with
  | [] => ret (inr entities)
  | start_idx :: rest =>
      let end_idx := Z.min (start_idx + batch_size) (Z.of_nat (List.length ids)) in
      let batch_ids := slice ids start_idx end_idx in
      props <- get_collection_properties ;;
      all_queries <- lift (id_queries collection_name constraints props batch_ids) ;;
      match all_queries with
      | [] => ret (inl (new_response_with entities 0))
      | _ =>
          '(response, _) <- run_vdms_query all_queries [] ;;
          entities <- lift (extend_with_found entities response) ;;
          delete_windows collection_name constraints ids batch_size rest entities
      end
  end.

(** [VDMS.batch_delete] *)
Definition batch_delete (collection_name : string) (constraints : Value)
    (ids : option (list string)) (batch_size : Z) : M (list Value) :=
  match ids with
  | None =>
      props <- get_collection_properties ;;
      let query :=
        add_descriptor "FindDescriptor" collection_name None None VNone VNone None
          constraints (properties_result props) in
      '(response, _) <- run_vdms_query [query] [] ;;
      entities <- lift (extend_with_found [] response) ;;
      ret (new_response_with entities (List.length entities))
  | Some ids =>
      starts <- lift (py_range 0 (Z.of_nat (List.length ids)) batch_size) ;;
      out <- delete_windows collection_name constraints ids batch_size starts [] ;;
      match out with
      | inl new_response => ret new_response
      | inr entities => ret (new_response_with entities (List.length entities))
      end
  end.

(** The keyword arguments of [delete] *)
Record DeleteKwargs : Type := mkDeleteKwargs {
  del_collection_name : option string;
  del_constraints : option Value;
  del_batch_size : option Z
}.

(** [VDMS.delete] *)
Definition delete (ids : option (list string)) (kwargs : DeleteKwargs) : M bool :=
  collection_name <-
    match del_collection_name kwargs with
    | Some n => ret n
    | None => get_collection_name
    end ;;
  let constraints :=
    match del_constraints kwargs with
    | Some (VDict d) => VDict (dict_set "_deletion" (VList [VStr "=="; VInt 1]) d)
    | _ => VDict [("_deletion", VList [VStr "=="; VInt 1])]
    end in
  response <- batch_delete collection_name constraints ids
                match del_batch_size kwargs with
                | Some b => b
                | None => DEFAULT_INSERT_BATCH_SIZE
                end ;;
  (* Update/store indices after deletion *)
  query <- lift (add_descriptor_set "FindDescriptorSet" collection_name None None
                   None None VNone VNone true VNone VNone) ;;
  _ <- run_vdms_query [query] [] ;;
  r0 <- lift (py_first response) ;;
  lift (py_contains "FindDescriptor" r0).

End Client.

(** * The vocabulary of the statements *)

(** The list a method hands back, empty when it raised. *)
Definition returned {A : Type} (out : Store * Res (list A)) : list A :=
  match snd out with
  | inr l => l
  | inl _ => []
  end.

(** The store after one more log record. *)
Definition with_log (s : Store) (lvl : Level) (msg : string) : Store :=
  fst (logger lvl msg s).

(** ** Result projection *)

(** No reserved key, no sentinel value, no identity property. *)
Definition clean_metadata (md : Dict) : Prop :=
  Forall
    (fun kv =>
       str_in (fst kv) INVALID_DOC_METADATA_KEYS = false
       /\ in_INVALID_METADATA_VALUE (snd kv) = false
       /\ fst kv <> LANGCHAIN_ID_PROPERTY)
    md.

(** The id that a document shows for an identity: a text as it is, a
    number as the text that Python prints for it. *)
Definition shown_id (identity : Value) : Value :=
  match identity with
  | VInt z => VStr (str_of_Z z)
  | VNum x => VStr (float_repr x)
  | other => other
  end.

(** The identity that a raw record carries is the id of its document. *)
Definition exposes_identity (ent : Value) (doc : Document) : Prop :=
  forall items v,
    ent = VDict items ->
    NoDup (dict_keys items) ->
    dict_lookup LANGCHAIN_ID_PROPERTY items = Some v ->
    in_INVALID_METADATA_VALUE v = false ->
    doc_id doc = shown_id v.

(** [doc] is what one of the two projections made of the raw record [ent]. *)
Inductive projection_of : Value -> Document -> Prop :=
| projected_by_descriptor2document (ent : Value) (doc : Document) :
    descriptor2document ent = inr doc ->
    projection_of ent doc
| projected_by_results2documents_and_scores
    (results : list SearchResult) (s : Store) (ents : list Value) (i : nat)
    (ent : Value) (doc : Document) (score : Float) :
    entities_of_results results = inr ents ->
    nth_error ents i = Some ent ->
    nth_error (returned (results2documents_and_scores results s)) i
      = Some (doc, score) ->
    projection_of ent doc.

(** A raw record without the content key. *)
Definition lacks_content (ent : Value) : Prop :=
  exists d, ent = VDict d /\ dict_has TEXT_PROPERTY d = false.

(** A search result that lists the given raw records. *)
Definition results_listing (ents : list Value) : list SearchResult :=
  [([VDict [("FindDescriptor", VDict [("entities", VList ents)])]], [])].

(** The reading of "malformed records are dropped and the remaining
    well-formed records are still returned": whatever record of the list
    projects on its own has its document in the output. *)
Definition well_formed_records_survive : Prop :=
  forall (ents : list Value) (s : Store) (ent : Value)
         (item : Document * Float) (d : option Value),
    In ent ents ->
    project_entity ent None = inr (item, d) ->
    In item (returned (results2documents_and_scores (results_listing ents) s)).

(** ** Sample data *)

Definition sample_store : Store :=
  mkStore DEFAULT_COLLECTION_NAME (sort_strings DEFAULT_PROPERTIES) false [] [].

Definition raw_record (i : string) (txt : option string) (distance : Q) : Value :=
  VDict
    (match txt with
     | Some t =>
         [("_distance", VNum (Fin distance)); (LANGCHAIN_ID_PROPERTY, VStr i);
          (TEXT_PROPERTY, VStr t)]
     | None =>
         [("_distance", VNum (Fin distance)); (LANGCHAIN_ID_PROPERTY, VStr i)]
     end).

(** A record as the store returns it, with reserved keys and sentinels. *)
Definition record_with_sentinels : Value :=
  VDict [("_distance", VNum (Fin (1 # 4)));
         (LANGCHAIN_ID_PROPERTY, VStr "1");
         (TEXT_PROPERTY, VStr "foo");
         ("baz", VStr "bar");
         ("blob", VStr "AAAA");
         ("source", VStr "Missing property");
         ("page", VNone);
         ("tags", VDict [])].

Definition record_foo : Value := raw_record "1" (Some "foo") (1 # 10).
Definition record_without_content : Value := raw_record "2" None (2 # 10).
Definition record_thud : Value := raw_record "3" (Some "thud") (3 # 10).

(** A client that answers the n-th call with the n-th reply of a script. *)
Definition scripted (script : list Reply) : list Call -> list Value -> list Blob -> Reply :=
  fun history _ _ => nth (List.length history) script ([], []).

(** A [FindDescriptor] result that lists the given entities. *)
Definition find_descriptor_result (ents : list Value) : Value :=
  VDict [("FindDescriptor",
          VDict [("entities", VList ents);
                 ("returned", VNat (List.length ents));
                 ("status", VInt 0)])].

(** ** Diversity reranking *)

Definition float_mul (x y : Float) : Float :=
  match x, y with
  | NaN, _ | _, NaN => NaN
  | Fin a, Fin b => fin (a * b)
  | Fin a, inf | inf, Fin a =>
      match Qsign a, inf with
      | Eq, _ => NaN
      | Gt, _ => inf
      | Lt, PInf => NInf
      | Lt, _ => PInf
      end
  | PInf, PInf | NInf, NInf => PInf
  | _, _ => NInf
  end.

Definition inner_product (u v : list Float) : Float :=
  fold_left float_add (map (fun ab => float_mul (fst ab) (snd ab)) (combine u v)) (Fin 0).

Definition float_max_list (l : list Float) : Float :=
  match l with
  | [] => Fin 0
  | x :: rest => fold_left (fun m y => if float_ltb m y then y else m) rest x
  end.

(** The objective of §4.5 for one candidate:
    [lambda * sim(query, c) - (1 - lambda) * max over selected of sim(c, s)],
    the second term being 0 while nothing is selected. *)
Definition mmr_score (query : list Float) (embedding_list : list (list Float))
    (lambda_mult : Float) (selected : list nat) (c : list Float) : Float :=
  let redundancy :=
    float_max_list
      (map (fun i => inner_product c (nth i embedding_list [])) selected) in
  float_sub (float_mul lambda_mult (inner_product query c))
            (float_mul (float_sub (Fin 1) lambda_mult) redundancy).

(** The unselected candidate of greatest score; on a tie the earlier one. *)
Definition mmr_best (query : list Float) (embedding_list : list (list Float))
    (lambda_mult : Float) (selected : list nat) : option nat :=
  option_map fst
    (fold_left
       (fun best i =>
          if existsb (Nat.eqb i) selected then best
          else
            let score :=
              mmr_score query embedding_list lambda_mult selected
                (nth i embedding_list []) in
            match best with
            | None => Some (i, score)
            | Some (j, top) => if float_ltb top score then Some (i, score) else best
            end)
       (seq 0 (List.length embedding_list)) None).

Fixpoint mmr_steps (steps : nat) (query : list Float)
    (embedding_list : list (list Float)) (lambda_mult : Float)
    (selected : list nat) : list nat :=
  match steps with
  | O => selected
  | S steps' =>
      match mmr_best query embedding_list lambda_mult selected with
      | Some i =>
          mmr_steps steps' query embedding_list lambda_mult (selected ++ [i])
      | None => selected
      end
  end.

(** Modelled from the spec: [maximal_marginal_relevance] of
    [langchain_vdms/utils.py], which is not among the sources.  §4.5: a
    greedy selection of [k] steps, each taking the unselected candidate that
    maximises the objective, similarity being the inner product, ties going
    to the earlier candidate; the outcome lists the chosen indices in the
    order of choice. *)
Definition maximal_marginal_relevance_of_spec (query : list Float)
    (embedding_list : list (list Float)) (k : Z) (lambda_mult : Float) : list nat :=
  mmr_steps (Z.to_nat k) query embedding_list lambda_mult [].

(** The candidates at the given positions, in the order of the positions. *)
Definition pick {A : Type} (candidates : list A) (i : nat) : list A :=
  match nth_error candidates i with
  | Some c => [c]
  | None => []
  end.

Definition at_positions {A : Type} (candidates : list A) (positions : list nat)
  : list A :=
  flat_map (pick candidates) positions.

(** The claim as the spec words it: the documents come out in the order in
    which MMR selected them. *)
Definition mmr_output_in_selection_order : Prop :=
  forall client mmr embedding k fetch_k lambda_mult filter s s1 results mmr_selected,
    mmr_select client mmr embedding k fetch_k lambda_mult filter s
    = (s1, inr (results, Some mmr_selected)) ->
    returned (max_marginal_relevance_search_by_vector client mmr embedding
                k fetch_k lambda_mult filter s)
    = at_positions (returned (results2documents results s1)) mmr_selected.

(** Two stored vectors on one line with the query: the first is the nearer
    one, the second has the larger inner product with the query. *)
Definition mmr_client : list Call -> list Value -> list Blob -> Reply :=
  scripted
    [([find_descriptor_result
         [raw_record "near" (Some "near") 0; raw_record "far" (Some "far") 4]],
      [BytesOfEmb [Fin 1; Fin 0]; BytesOfEmb [Fin 3; Fin 0]])].

(** ** Distance normalisation *)

(** The entity [ent] is a dictionary whose [_distance] is the number [x]. *)
Definition has_distance (ent : Value) (x : Float) : Prop :=
  exists d, ent = VDict d /\ dict_lookup "_distance" d = Some (VNum x).

(** A returned distance: a rational, or the [+infinity] sentinel. *)
Definition finite_or_inf (x : Float) : Prop :=
  x = PInf \/ exists q, x = Fin q.

Definition finite_part (xs : list Float) : list Q :=
  flat_map (fun x => match x with Fin q => [q] | _ => [] end) xs.

Fixpoint Qmax_from (cur : Q) (l : list Q) : Q :=
  match l with
  | [] => cur
  | q :: rest => Qmax_from (if Qle_bool q cur then cur else q) rest
  end.

(** The greatest element of a list of rationals. *)
Definition Qlist_max (l : list Q) : option Q :=
  match l with
  | [] => None
  | q :: rest => Some (Qmax_from q rest)
  end.

Fixpoint Qmin_from (cur : Q) (l : list Q) : Q :=
  match l with
  | [] => cur
  | q :: rest => Qmin_from (if Qle_bool cur q then cur else q) rest
  end.

(** The [_distance] of every entity of [response[0]["FindDescriptor"]]. *)
Definition distances_of_response (response : list Value) : Res (list Value) :=
  (entities <-? response_field response "FindDescriptor" "entities" ;;
   entities <-? py_iter entities ;;
   res_map (fun ent => py_getitem ent "_distance") entities)%res.

(** The response of a normalised, unfiltered search over a store that
    answers with the given distances. *)
Definition normalized_search (distances : list Q) : Res (list Value) :=
  match
    snd (get_descriptor_response
           (scripted
              [([find_descriptor_result
                   (map (fun q => raw_record "id" (Some "text") q) distances)], [])])
           "FindDescriptor" DEFAULT_COLLECTION_NAME
           (Z.of_nat (List.length distances)) (Z.of_nat (List.length distances) + 1)
           VNone VNone (Some [Fin 0]) true false sample_store)
  with
  | inr ((response, _), _) => distances_of_response response
  | inl e => inl e
  end.

(** The claim as the spec words it: each distance [d] becomes
    [(d - min) / (max - min)], [min] and [max] taken over the returned
    distances. *)
Definition min_max_normalization : Prop :=
  forall (d0 : Q) (rest : list Q),
    let lo := Qmin_from d0 rest in
    let hi := Qmax_from d0 rest in
    ~ hi == lo ->
    normalized_search (d0 :: rest)
    = inr (map (fun d => VNum (fin ((d - lo) / (hi - lo)))) (d0 :: rest)).

(** What the normalisation makes of a distance [x] when the greatest finite
    distance is [m]: a rational [q] becomes [q / m], the sentinel stays
    infinite. *)
Definition normalized_to (m : Q) (x : Float) (ent' : Value) : Prop :=
  match x with
  | Fin q => exists q', has_distance ent' (Fin q') /\ q' == q / m
  | _ => has_distance ent' PInf \/ has_distance ent' NInf
  end.

(** ** Filtered search *)

(** The store after one more call to the client. *)
Definition with_call (s : Store) (all_queries : list Value) (all_blobs : list Blob)
  : Store :=
  mkStore (collection_name s) (collection_properties s) (updated_properties_flag s)
          (sent s ++ [(all_queries, all_blobs)]) (logged s).

(** The entity is a dictionary that carries the identity property. *)
Definition has_identity (ent : Value) : Prop :=
  exists d v, ent = VDict d /\ dict_lookup LANGCHAIN_ID_PROPERTY d = Some v.









Definition query_blobs (query_embedding : option (list Float)) : list Blob :=
  match embedding2bytes query_embedding with
  | Some blob => [blob]
  | None => []
  end.

(** ** The known properties *)

Definition str_le (a b : string) : Prop := String.leb a b = true.

(** The property names that an added item brings. *)
Definition property_set (document : string) (metadata : option Dict)
    (id : option string) : list string :=
  dict_keys (props_of document metadata id).

(** The first half of the claim as the spec words it: after registering
    [P1] and then [P2] the known properties are sorted([P1] ∪ [P2]), the
    sorted list whose members are the names of [P1] and of [P2]. *)
Definition known_properties_are_the_registered_sets : Prop :=
  forall (s : Store) (doc1 : string) (meta1 : option Dict) (id1 : option string)
         (doc2 : string) (meta2 : option Dict) (id2 : option string),
    let s2 :=
      fst (get_props_from_metadata doc2 meta2 id2
             (fst (get_props_from_metadata doc1 meta1 id1 s))) in
    StronglySorted str_le (collection_properties s2)
    /\ forall x,
         In x (collection_properties s2)
         <-> In x (property_set doc1 meta1 id1) \/ In x (property_set doc2 meta2 id2).

(** Append-only as the spec words it: a property that is known stays known,
    here through [check_and_update_properties]. *)
Definition known_properties_are_append_only : Prop :=
  forall (client : list Call -> list Value -> list Blob -> Reply) (s : Store)
         (x : string),
    In x (collection_properties s) ->
    In x (collection_properties (fst (check_and_update_properties client s))).

(** ** Deletion *)

(** The reply passes the two stages of [check_valid_response] without an
    exception, whatever commands were asked. *)
Definition response_validates (response : list Value) : Prop :=
  (forall cmd_list, exists b, any_returned response cmd_list = inr b)
  /\ exists response', res_map keep_entities_with_id response = inr response'.

Definition replies_validate (client : list Call -> list Value -> list Blob -> Reply)
  : Prop :=
  forall history all_queries all_blobs,
    response_validates (fst (client history all_queries all_blobs)).

(** The store answers what [delete] sends: its reply to any list of
    [FindDescriptor] or [FindDescriptorSet] commands passes
    [check_valid_response] without an exception. *)
Definition answers_deletion (client : list Call -> list Value -> list Blob -> Reply)
  : Prop :=
  forall history all_queries all_blobs cmd_list,
    get_cmds_from_query all_queries = inr cmd_list ->
    incl cmd_list ["FindDescriptor"; "FindDescriptorSet"] ->
    exists out,
      check_valid_response all_queries (fst (client history all_queries all_blobs))
      = inr out.

(** What [check_valid_response] leaves under ["FindDescriptor"]: a
    dictionary whose ["entities"] is a list. *)
Definition listing_ok (res : Value) : Prop :=
  py_contains "FindDescriptor" res = inr false
  \/ exists body kept,
       py_contains "FindDescriptor" res = inr true
       /\ py_getitem res "FindDescriptor" = inr body
       /\ py_getitem body "entities" = inr (VList kept).

(** A store that finds nothing, whatever it is asked. *)
Definition empty_store_client : list Call -> list Value -> list Blob -> Reply :=
  fun _ _ _ => ([find_descriptor_result []], []).

(** A store whose reply is an empty list. *)
Definition silent_client : list Call -> list Value -> list Blob -> Reply :=
  fun _ _ _ => ([], []).

(** ** Writes *)

(** The result object by which the store reports that its journal is
    full. *)
Definition out_of_journal_space : Value :=
  VDict [("FailedCommand", VStr "AddDescriptor");
         ("info", VStr "OutOfJournalSpace");
         ("status", VInt (-1))].

(** A store that answers every call with that result. *)
Definition journal_full_client : list Call -> list Value -> list Blob -> Reply :=
  fun _ _ _ => ([out_of_journal_space], []).

(** A store that fails every command. *)
Definition failed_command : Value :=
  VDict [("FailedCommand", VStr "FindDescriptor");
         ("info", VStr "Set not found");
         ("status", VInt (-1))].

Definition failing_client : list Call -> list Value -> list Blob -> Reply :=
  fun _ _ _ => ([failed_command], []).

(** The claim as the spec words it, for the calls in [scope]: [delete]
    returns [True]. *)
Definition delete_always_returns_true
    (scope : (list Call -> list Value -> list Blob -> Reply) ->
             option (list string) -> DeleteKwargs -> Prop) : Prop :=
  forall client ids kwargs s,
    scope client ids kwargs ->
    exists s', delete client ids kwargs s = (s', inr true).

(** The result object reports a failed command and nothing else. *)
Definition reports_failure (res : Value) : Prop :=
  exists d,
    res = VDict d
    /\ dict_has "FailedCommand" d = true
    /\ dict_has "FindDescriptor" d = false.

(** * More of the engine: counting, lookups, bulk writes, collection set-up *)

Open Scope m_scope.

(** [isinstance(value, list)] *)
Definition is_list (v : Value) : bool :=
  match v with
  | VList _ => true
  | _ => false
  end.

(** [VDMS_Utils.validate_vdms_properties] *)
Definition validate_vdms_properties (metadata : Dict) : Dict :=
  fold_left
    (fun new_metadata kv =>
       if negb (is_list (snd kv))
       then dict_set (fst kv) (snd kv) new_metadata else new_metadata)
    metadata [].

Section Collection.

Variable client_query : list Call -> list Value -> list Blob -> Reply.

(** [VDMS.count] *)
Definition count (collection_name : option string) : M Value :=
  collection_name <-
    match collection_name with
    | Some n => ret n
    | None => get_collection_name
    end ;;
  props <- get_collection_properties ;;
  let results := VDict [("count", VStr ""); ("list", VList (map VStr props))] in
  let query :=
    add_descriptor "FindDescriptor" collection_name None None VNone VNone None VNone
      results in
  '(response, _) <- run_vdms_query client_query [query] [] ;;
  try_except
    (lift (response_field response "FindDescriptor" "returned"))
    (fun e =>
       logger INFO "Exception[in count]" ;;
       logger INFO "Count returning 0" ;;
       ret (VInt 0)).

(** The [try] block shared by [get_by_constraints] and, without the
    embeddings, by the loop of [get_by_ids]:
    [[self.descriptor2document(doc) for doc in
      response[0]["FindDescriptor"].get("entities", [])]] *)
Definition documents_found (response : list Value) : Res (list Document) :=
  (r0 <-? py_first response ;;
   body <-? py_getitem r0 "FindDescriptor" ;;
   entities <-? py_get body "entities" (VList []) ;;
   docs <-? py_iter entities ;;
   res_map descriptor2document docs)%res.

(** [VDMS.get_by_constraints] *)
Definition get_by_constraints (collection_name : string) (constraints : Value)
    (limit : option Z) (include : list string)
  : M (list Document * list (list Float)) :=
  let results : Dict := [("count", VStr "")] in
  let results :=
    match limit with
    | Some l => dict_set "limit" (VInt l) results
    | None => results
    end in
  results <-
    (if str_in "metadata" include then
       props <- get_properties client_query collection_name false false ;;
       ret (dict_set "list" (VList (map VStr props)) results)
     else ret results) ;;
  let results :=
    if str_in "embeddings" include then dict_set "blob" (VBool true) results
    else results in
  let query :=
    add_descriptor "FindDescriptor" collection_name None None VNone VNone None
      constraints (VDict results) in
  '(response, resp_arr_bytes) <- run_vdms_query client_query [query] [] ;;
  try_except
    (this_docs <- lift (documents_found response) ;;
     embedding_list <- lift (res_map bytes2embedding resp_arr_bytes) ;;
     ret (this_docs, embedding_list))
    (fun e =>
       logger INFO "Exception[in get_by_constraints]" ;;
       logger INFO "Returning []" ;;
       ret ([], [])).

(** The constraint that [get_by_ids] builds for one id *)
Definition id_constraint (id : string) : Value :=
  VDict [(LANGCHAIN_ID_PROPERTY, VList [VStr "=="; VStr id])].

(** [VDMS.get_by_ids] *)
Definition get_by_ids (ids : list string) : M (list Document) :=
  collection_name <- get_collection_name ;;
  let all_constraints := map id_constraint ids in
  props <- get_properties client_query collection_name false false ;;
  let results := VDict [("list", VList (map VStr props))] in
  for_fold all_constraints []
    (fun docs constraint =>
       let query :=
         add_descriptor "FindDescriptor" collection_name None None VNone VNone None
           constraint results in
       '(response, _) <- run_vdms_query client_query [query] [] ;;
       r0 <- lift (py_first response) ;;
       has_find <- lift (py_contains "FindDescriptor" r0) ;;
       if has_find then
         this_docs <- lift (documents_found response) ;;
         ret (docs ++ this_docs)
       else ret docs).

(** [VDMS._create_collection]; the dimension, the engine and the metric are
    attributes of the object that no other method changes. *)
Definition _create_collection (embedding_dimension : option Z)
    (engine metric : option string) : M unit :=
  collection_name <- get_collection_name ;;
  query <- lift (add_descriptor_set "AddDescriptorSet" collection_name
                   embedding_dimension engine metric None VNone VNone false
                   VNone VNone) ;;
  '(response, _) <- run_vdms_query client_query [query] [] ;;
  r0 <- lift (py_first response) ;;
  failed <- lift (py_contains "FailedCommand" r0) ;;
  if failed then raise (ValueError ("Failed to add collection " ++ collection_name))
  else
    body <- lift (py_getitem r0 "AddDescriptorSet") ;;
    status <- lift (py_getitem body "status") ;;
    logger INFO ("Descriptor set " ++ collection_name ++ " "
                 ++ (if py_eq_zero status then "created" else "exists")).

(** One turn of [for start_idx in range(0, total_count, batch_size)] of
    [add_from].  The local [batch_metadatas] is assigned only when
    [metadatas] is truthy, so it is carried from turn to turn: [None] is the
    unbound local. *)
Definition add_window (texts : list string) (embeddings : list (list Float))
    (ids : list string) (metadatas : option (list Dict)) (batch_size : Z)
    (acc : list string * option (list Dict)) (start_idx : Z)
  : M (list string * option (list Dict)) :=
  let '(inserted_ids, batch_metadatas) := acc in
  let total_count := Z.of_nat (List.length texts) in
  let end_idx := Z.min (start_idx + batch_size) total_count in
  let batch_texts := slice texts start_idx end_idx in
  let batch_embedding_vectors := slice embeddings start_idx end_idx in
  let batch_ids := slice ids start_idx end_idx in
  let batch_metadatas :=
    match metadatas with
    | Some (m :: ms) => Some (slice (m :: ms) start_idx end_idx)
    | _ => batch_metadatas
    end in
  result_ids <-
    try_except
      (name <- get_collection_name ;;
       match batch_metadatas with
       | Some bm =>
           add_batch client_query name batch_texts batch_embedding_vectors (Some bm)
             batch_ids
       | None => raise (NameError "batch_metadatas")
       end)
      (fun e =>
         logger ERROR ("Failed to insert batch starting at entity: "
                       ++ str_of_Z start_idx ++ "-" ++ str_of_Z (end_idx - 1)) ;;
         raise e) ;;
  ret (inserted_ids ++ result_ids, batch_metadatas).

(** [VDMS.add_from] *)
Definition add_from (texts : list string) (embeddings : list (list Float))
    (ids : list string) (metadatas : option (list Dict)) (batch_size : Z)
  : M (list string) :=
  let total_count := Z.of_nat (List.length texts) in
  starts <- lift (py_range 0 total_count batch_size) ;;
  '(inserted_ids, _) <-
    for_fold starts ([], None) (add_window texts embeddings ids metadatas batch_size) ;;
  name <- get_collection_name ;;
  push_update_properties client_query name ;;
  ret inserted_ids.

End Collection.

(** ** More vocabulary of the statements *)

(** A raw record whose identity property is absent or holds a sentinel. *)
Definition lacks_identity (ent : Value) : Prop :=
  exists d,
    ent = VDict d
    /\ NoDup (dict_keys d)
    /\ match dict_lookup LANGCHAIN_ID_PROPERTY d with
       | Some v => in_INVALID_METADATA_VALUE v = true
       | None => True
       end.

(** A record as the store keeps it for an added text: a dictionary with
    distinct keys that holds the identity and a content, both of them texts
    (as [get_props_from_metadata] writes them) and neither of them a
    sentinel. *)
Definition stored_record (ent : Value) : Prop :=
  exists d i t,
    ent = VDict d
    /\ NoDup (dict_keys d)
    /\ dict_lookup LANGCHAIN_ID_PROPERTY d = Some (VStr i)
    /\ in_INVALID_METADATA_VALUE (VStr i) = false
    /\ dict_lookup TEXT_PROPERTY d = Some (VStr t)
    /\ in_INVALID_METADATA_VALUE (VStr t) = false.

(** The record [count_returned] logs when the result is not of size [k]. *)
Definition fewer_than_k_record : LogRecord :=
  (INFO, "Only num_returned returned. Provide fetch_k > k").

(** The [results] that [query_by_embeddings] asks for. *)
Definition results_asked (results : Value) (include : option (list string))
    (known : list string) : Value :=
  let include :=
    match include with
    | Some l => l
    | None => ["metadatas"]
    end in
  if is_None results && str_in "metadatas" include
  then VDict [("list", VList (map VStr known));
              ("blob", VBool (str_in "embeddings" include))]
  else results.

(** The name holds no comma. *)
Definition comma_free (s : string) : Prop :=
  ~ In ","%char (list_ascii_of_string s).

(** What the store answers when an [AddDescriptor] command went through with
    the given status. *)
Definition add_descriptor_result (status : Z) : Value :=
  VDict [("AddDescriptor", VDict [("status", VInt status)])].

(** ** Writes *)

(** The properties of the items of a batch, item by item. *)
Fixpoint batch_properties_of (texts : list string) (metadatas : list Dict)
    (ids : list string) : list Value :=
  match texts, metadatas, ids with
  | doc :: texts', meta :: metadatas', id :: ids' =>
      VDict (props_of doc (Some meta) (Some id))
      :: batch_properties_of texts' metadatas' ids'
  | _, _, _ => []
  end.

(** The one command by which [add_batch] adds a batch. *)
Definition add_query (collection_name : string) (texts : list string)
    (metadatas : list Dict) (ids : list string) : Value :=
  add_descriptor "AddDescriptor" collection_name None None
    (VList (batch_properties_of texts metadatas ids)) VNone None VNone VNone.

(** The store accepts every batch that is added to the collection. *)
Definition accepts_additions (client : list Call -> list Value -> list Blob -> Reply)
    (collection_name : string) : Prop :=
  forall history props all_blobs,
  exists blobs,
    client history
      [add_descriptor "AddDescriptor" collection_name None None props VNone None
         VNone VNone]
      all_blobs
    = ([add_descriptor_result 0], blobs).

(** The blob by which the store answers a registry lookup, when there is
    one, is text. *)
Definition registry_readable (client : list Call -> list Value -> list Blob -> Reply)
    (collection_name : string) : Prop :=
  forall history,
    match snd (client history [find_property_entity collection_name false false] []) with
    | [] => True
    | blob :: _ => exists txt, bytes2str blob = inr txt
    end.

(** A store that accepts whatever it is sent. *)
Definition accepting_client : list Call -> list Value -> list Blob -> Reply :=
  fun _ _ _ => ([add_descriptor_result 0], []).

(** ** Counting and lookups *)

(** [LANGCHAIN_ID_PROPERTY in ent] for an entity that is a dictionary. *)
Definition carries_identity (ent : Value) : bool :=
  match ent with
  | VDict d => dict_has LANGCHAIN_ID_PROPERTY d
  | _ => false
  end.

Definition is_record (ent : Value) : Prop := exists d, ent = VDict d.

(** The query of [count]. *)
Definition count_query (collection_name : string) (known : list string) : Value :=
  add_descriptor "FindDescriptor" collection_name None None VNone VNone None VNone
    (VDict [("count", VStr ""); ("list", VList (map VStr known))]).

(** The two records of the [except] branch of [count]. *)
Definition count_failure_records : list LogRecord :=
  [(INFO, "Exception[in count]"); (INFO, "Count returning 0")].

(** The two records of the [except] branch of [get_by_constraints]. *)
Definition get_by_constraints_failure_records : list LogRecord :=
  [(INFO, "Exception[in get_by_constraints]"); (INFO, "Returning []")].

(** A store that answers every call by listing the same entities. *)
Definition listing_client (ents : list Value)
  : list Call -> list Value -> list Blob -> Reply :=
  fun _ _ _ => ([find_descriptor_result ents], []).

(** A store that keeps one record per id and answers a lookup by id
    with the records of that id. *)
Definition answers_by_id (client : list Call -> list Value -> list Blob -> Reply)
    (collection_name : string) (found : string -> list Value) : Prop :=
  forall history id results,
  exists blobs,
    client history
      [add_descriptor "FindDescriptor" collection_name None None VNone VNone None
         (id_constraint id) results] []
    = ([find_descriptor_result (found id)], blobs).

(** The command by which [delete] has the store write its indices. *)
Definition store_index_query (collection_name : string) : Value :=
  VDict [("FindDescriptorSet",
          VDict [("set", VStr collection_name); ("storeIndex", VBool true)])].

(** A list of distinct literal keys has no duplicates. *)
Ltac solve_NoDup :=
  repeat (apply NoDup_cons; [simpl; intuition discriminate |]); apply NoDup_nil.


Open Scope nat_scope.

(** * Facts about dictionaries *)

Lemma dict_lookup_set_same k v d : dict_lookup k (dict_set k v d) = Some v.
Proof.
  induction d as [|[k' v'] d IH]; simpl.
  - now rewrite String.eqb_refl.
  - destruct (String.eqb k k') eqn:E; simpl; rewrite E; auto.
Qed.

Lemma dict_lookup_set_other k k' v d :
  k <> k' -> dict_lookup k (dict_set k' v d) = dict_lookup k d.
Proof.
  intros Hne. induction d as [|[k0 v0] d IH]; simpl.
  - apply String.eqb_neq in Hne. now rewrite Hne.
  - destruct (String.eqb k' k0) eqn:E; simpl.
    + apply String.eqb_eq in E. subst k0.
      apply String.eqb_neq in Hne. now rewrite Hne.
    + now rewrite IH.
Qed.

Lemma dict_set_Forall (P : string * Value -> Prop) k v d :
  P (k, v) -> Forall P d -> Forall P (dict_set k v d).
Proof.
  intros Hk. induction 1 as [|[k' v'] d Hx Hd IH]; simpl.
  - auto.
  - destruct (String.eqb k k') eqn:E.
    + apply String.eqb_eq in E. subst k'. auto.
    + auto.
Qed.

Lemma dict_remove_Forall (P : string * Value -> Prop) k d :
  Forall P d -> Forall (fun kv => P kv /\ fst kv <> k) (dict_remove k d).
Proof.
  unfold dict_remove. induction 1 as [|[k' v'] d Hx Hd IH]; simpl; auto.
  destruct (String.eqb k k') eqn:E; simpl; auto.
  constructor; auto. split; auto. simpl.
  apply String.eqb_neq in E. congruence.
Qed.

Lemma dict_lookup_not_in k d :
  ~ In k (dict_keys d) -> dict_lookup k d = None.
Proof.
  induction d as [|[k' v'] d IH]; simpl; auto.
  intros H. destruct (String.eqb k k') eqn:E.
  - apply String.eqb_eq in E. subst. tauto.
  - apply IH. tauto.
Qed.

(** * Result projection *)

Lemma metadata_fold_Forall items : forall acc,
  Forall (fun kv => kept_entry kv = true) acc ->
  Forall (fun kv => kept_entry kv = true) (fold_left metadata_step items acc).
Proof.
  induction items as [|[k v] items IH]; simpl; intros acc Hacc; auto.
  apply IH. unfold metadata_step.
  destruct (kept_entry (k, v)) eqn:E; auto.
  simpl. apply dict_set_Forall; auto.
Qed.

Lemma metadata_fold_lookup items : forall acc k,
  NoDup (dict_keys items) ->
  (forall k', In k' (dict_keys items) -> dict_lookup k' acc = None) ->
  dict_lookup k (fold_left metadata_step items acc) =
  match dict_lookup k acc with
  | Some v => Some v
  | None =>
      match dict_lookup k items with
      | Some v => if kept_entry (k, v) then Some v else None
      | None => None
      end
  end.
Proof.
  induction items as [|[k0 v0] items IH]; simpl; intros acc k Hnd Hacc.
  - destruct (dict_lookup k acc); auto.
  - inversion Hnd as [|? ? Hnotin Hnd']; subst.
    rewrite IH; auto.
    + unfold metadata_step at 1. simpl fst. simpl snd.
      destruct (String.eqb k k0) eqn:E.
      * apply String.eqb_eq in E. subst k0.
        rewrite (Hacc k) by auto.
        destruct (kept_entry (k, v0)) eqn:Ek.
        -- now rewrite dict_lookup_set_same.
        -- rewrite (Hacc k) by auto.
           now rewrite (dict_lookup_not_in k items).
      * apply String.eqb_neq in E.
        destruct (kept_entry (k0, v0)); auto.
        now rewrite dict_lookup_set_other.
    + intros k' Hin. unfold metadata_step. simpl fst. simpl snd.
      destruct (kept_entry (k0, v0)); auto.
      rewrite dict_lookup_set_other; auto.
      intros ->. tauto.
Qed.

Lemma valid_metadata_without_id_clean items :
  clean_metadata (dict_remove LANGCHAIN_ID_PROPERTY (valid_metadata items)).
Proof.
  unfold clean_metadata, valid_metadata.
  eapply Forall_impl;
    [| apply dict_remove_Forall, (metadata_fold_Forall items []); constructor].
  intros [k v] [Hkept Hne]. unfold kept_entry in Hkept.
  apply andb_true_iff in Hkept. destruct Hkept as [Hk Hv].
  apply negb_true_iff in Hk. apply negb_true_iff in Hv. auto.
Qed.

Lemma valid_metadata_identity items v :
  NoDup (dict_keys items) ->
  dict_lookup LANGCHAIN_ID_PROPERTY items = Some v ->
  in_INVALID_METADATA_VALUE v = false ->
  dict_lookup LANGCHAIN_ID_PROPERTY (valid_metadata items) = Some v.
Proof.
  intros Hnd Hl Hv. unfold valid_metadata.
  rewrite metadata_fold_lookup by auto. simpl. rewrite Hl.
  unfold kept_entry. simpl snd. rewrite Hv. reflexivity.
Qed.

Lemma new_Document_spec page_content md i doc :
  new_Document page_content md i = inr doc ->
  (exists t, page_content = VStr t)
  /\ (i = VNone \/ (exists t, i = VStr t) \/ (exists z, i = VInt z)
      \/ exists x, i = VNum x)
  /\ doc = mkDocument page_content md (shown_id i).
Proof.
  unfold new_Document. destruct page_content; try discriminate.
  destruct i; try discriminate; intros H; injection H as <-;
    (split; [eauto|split; [|reflexivity]]); eauto 6.
Qed.

Lemma descriptor2document_clean ent doc :
  descriptor2document ent = inr doc ->
  clean_metadata (metadata doc) /\ exposes_identity ent doc.
Proof.
  unfold descriptor2document. destruct ent; simpl; try discriminate.
  destruct (dict_lookup TEXT_PROPERTY d) as [txt|] eqn:Etxt; simpl; try discriminate.
  intros H. apply new_Document_spec in H. destruct H as (_ & _ & ->). simpl. split.
  - apply valid_metadata_without_id_clean.
  - intros items v Heq Hnd Hl Hv. injection Heq as <-.
    now rewrite (valid_metadata_identity d v).
Qed.

Lemma project_entity_clean ent d0 doc score d1 :
  project_entity ent d0 = inr ((doc, score), d1) ->
  clean_metadata (metadata doc) /\ exposes_identity ent doc.
Proof.
  unfold project_entity. destruct ent; simpl; try discriminate.
  destruct (dict_lookup "_distance" d) as [raw|]; simpl; try discriminate.
  destruct (py_float raw) as [e|x]; simpl; try discriminate.
  destruct (dict_lookup TEXT_PROPERTY d) as [txt|]; simpl; try discriminate.
  destruct (dict_lookup LANGCHAIN_ID_PROPERTY (valid_metadata d)) as [i|] eqn:Ei.
  - destruct (new_Document txt (dict_remove LANGCHAIN_ID_PROPERTY (valid_metadata d)) i)
      as [e|doc'] eqn:Edoc; simpl; try discriminate.
    intros H. injection H as <- _ _.
    apply new_Document_spec in Edoc. destruct Edoc as (_ & _ & ->). simpl. split.
    + apply valid_metadata_without_id_clean.
    + intros items v Heq Hnd Hl Hv. injection Heq as <-.
      rewrite (valid_metadata_identity d v) in Ei by auto.
      injection Ei as ->. reflexivity.
  - destruct d0 as [i|]; try discriminate.
    destruct (new_Document txt (dict_remove LANGCHAIN_ID_PROPERTY (valid_metadata d)) i)
      as [e|doc'] eqn:Edoc; simpl; try discriminate.
    intros H. injection H as <- _ _.
    apply new_Document_spec in Edoc. destruct Edoc as (_ & _ & ->). simpl. split.
    + apply valid_metadata_without_id_clean.
    + intros items v Heq Hnd Hl Hv. injection Heq as <-.
      rewrite (valid_metadata_identity d v) in Ei by auto. discriminate.
Qed.

(** Every element of [final_res] beyond the initial ones is the projection
    of the record at the same position. *)
Lemma project_entities_nth ents : forall acc d i item,
  nth_error (fst (project_entities ents acc d)) (List.length acc + i) = Some item ->
  exists ent d0 d1,
    nth_error ents i = Some ent /\ project_entity ent d0 = inr (item, d1).
Proof.
  induction ents as [|ent ents IH]; simpl; intros acc d i item H.
  - assert (List.length acc + i < List.length acc)
      by (apply nth_error_Some; congruence).
    lia.
  - destruct (project_entity ent d) as [e|[item' d']] eqn:E; simpl in H.
    + assert (List.length acc + i < List.length acc)
        by (apply nth_error_Some; congruence).
      lia.
    + destruct i as [|i].
      * assert (Hacc : forall l a dd,
                   nth_error (fst (project_entities l (acc ++ [item'] ++ a) dd))
                             (List.length acc) = Some item').
        { induction l as [|x l IHl]; simpl; intros a dd.
          - rewrite nth_error_app2 by lia.
            now rewrite Nat.sub_diag.
          - destruct (project_entity x dd) as [e|[it dd']]; simpl.
            + rewrite nth_error_app2 by lia. now rewrite Nat.sub_diag.
            + rewrite <- !app_assoc. apply (IHl (a ++ [it])). }
        specialize (Hacc ents [] d'). simpl in Hacc.
        rewrite Nat.add_0_r in H.
        rewrite Hacc in H. injection H as <-.
        exists ent, d, d'. auto.
      * specialize (IH (acc ++ [item']) d' i item).
        rewrite length_app in IH. simpl in IH.
        replace (List.length acc + 1 + i) with (List.length acc + S i) in IH by lia.
        destruct (IH H) as (ent0 & da & db & Hn & Hp).
        exists ent0, da, db. auto.
Qed.

Lemma results2documents_and_scores_returned results s :
  returned (results2documents_and_scores results s) = fst (parse_results results).
Proof.
  unfold results2documents_and_scores, returned.
  destruct (parse_results results) as [final_res [e|]]; reflexivity.
Qed.

(** C8. For every document made by result projection
    ([descriptor2document], or an element of the output of
    [results2documents_and_scores]) the metadata holds none of the reserved
    keys [_distance], [content], [blob], none of the sentinel values
    ["Missing property"], [None], [{}], and not the identity property, whose
    value is the id of the document: as it is when it is a text, and as the
    text that Python prints for it when it is a number, which is what
    [Document] makes of a numeric id. *)
Theorem projected_document_is_clean (ent : Value) (doc : Document) :
  projection_of ent doc ->
  clean_metadata (metadata doc) /\ exposes_identity ent doc.
Proof.
  intros [ent' doc' H | results s ents i ent' doc' score Hents Hent Hout].
  - now apply descriptor2document_clean.
  - rewrite results2documents_and_scores_returned in Hout.
    unfold parse_results in Hout. rewrite Hents in Hout.
    destruct (project_entities_nth ents [] None i (doc', score) Hout)
      as (ent0 & d0 & d1 & Hn & Hp).
    assert (ent0 = ent') by congruence. subst ent0.
    eapply project_entity_clean; eauto.
Qed.

(** The output of [results2documents_and_scores] never has more elements
    than there are records, so every document of the output falls under
    [projected_document_is_clean]. *)
Lemma results2documents_and_scores_indexed results s ents i item :
  entities_of_results results = inr ents ->
  nth_error (returned (results2documents_and_scores results s)) i = Some item ->
  exists ent, nth_error ents i = Some ent.
Proof.
  intros Hents Hout.
  rewrite results2documents_and_scores_returned in Hout.
  unfold parse_results in Hout. rewrite Hents in Hout.
  destruct (project_entities_nth ents [] None i item Hout) as (ent & _ & _ & Hn & _).
  eauto.
Qed.

(** ** Records without content *)

Lemma project_entity_lacks_content ent d :
  lacks_content ent -> exists e, project_entity ent d = inl e.
Proof.
  intros (items & -> & Hno). unfold project_entity. simpl.
  destruct (dict_lookup "_distance" items) as [raw|]; simpl; eauto.
  destruct (py_float raw) as [e|x]; simpl; eauto.
  unfold dict_has in Hno.
  destruct (dict_lookup TEXT_PROPERTY items); try discriminate.
  simpl. eauto.
Qed.

Lemma project_entities_app l1 : forall acc d items,
  project_entities l1 acc d = (items, None) ->
  exists d', forall l2,
    project_entities (l1 ++ l2) acc d = project_entities l2 items d'.
Proof.
  induction l1 as [|ent l1 IH]; simpl; intros acc d items H.
  - injection H as <-. exists d. auto.
  - destruct (project_entity ent d) as [e|[item d1]]; try discriminate.
    apply IH in H. exact H.
Qed.

(** C7, the counterexample.  Of the three records [foo], one without
    content, [thud], the third projects on its own, yet the output of
    [results2documents_and_scores] holds the document of the first only. *)
Lemma well_formed_record_after_malformed_is_lost : ~ well_formed_records_survive.
Proof.
  intros H.
  specialize
    (H [record_foo; record_without_content; record_thud] sample_store record_thud
       (mkDocument (VStr "thud") [] (VStr "3"), Fin (3 # 10)) (Some (VStr "3"))).
  assert (Hin : In record_thud [record_foo; record_without_content; record_thud])
    by (simpl; auto).
  specialize (H Hin eq_refl).
  vm_compute in H. destruct H as [H|[]]. discriminate H.
Qed.

(** C7, as amended.  When the record [bad] has no content key and the
    records [good] before it project to [items], then
    [results2documents_and_scores] raises nothing, logs one warning, and
    returns exactly [items]: no document for [bad], and none for the records
    [rest] that follow it. *)
Theorem malformed_record_ends_projection
    (results : list SearchResult) (good rest : list Value) (bad : Value)
    (items : list (Document * Float)) (s : Store) :
  entities_of_results results = inr (good ++ bad :: rest) ->
  project_entities good [] None = (items, None) ->
  lacks_content bad ->
  results2documents_and_scores results s
  = (with_log s WARNING "No results returned. Error while parsing results",
     inr items).
Proof.
  intros Hents Hgood Hbad.
  unfold results2documents_and_scores, parse_results. rewrite Hents.
  destruct (project_entities_app good [] None items Hgood) as [d' Happ].
  rewrite Happ. simpl.
  destruct (project_entity_lacks_content bad d' Hbad) as [e He].
  rewrite He. reflexivity.
Qed.

Lemma malformed_record_ends_projection_witness :
  results2documents_and_scores
    (results_listing [record_foo; record_without_content; record_thud]) sample_store
  = (with_log sample_store WARNING "No results returned. Error while parsing results",
     inr [(mkDocument (VStr "foo") [] (VStr "1"), Fin (1 # 10))]).
Proof.
  apply (malformed_record_ends_projection
           (results_listing [record_foo; record_without_content; record_thud])
           [record_foo] [record_thud] record_without_content).
  - reflexivity.
  - reflexivity.
  - exists [("_distance", VNum (Fin (2 # 10))); (LANGCHAIN_ID_PROPERTY, VStr "2")].
    split; reflexivity.
Defined.

Lemma projected_document_is_clean_witness :
  clean_metadata (metadata (mkDocument (VStr "foo") [("baz", VStr "bar")] (VStr "1")))
  /\ exposes_identity record_with_sentinels
       (mkDocument (VStr "foo") [("baz", VStr "bar")] (VStr "1")).
Proof.
  apply (projected_document_is_clean record_with_sentinels).
  apply projected_by_descriptor2document. reflexivity.
Defined.

(** ** Diversity reranking *)

Lemma results2documents_and_scores_total results s :
  exists s' l, results2documents_and_scores results s = (s', inr l).
Proof.
  unfold results2documents_and_scores.
  destruct (parse_results results) as [final_res [e|]];
    unfold bind, logger, ret; simpl; do 2 eexists; reflexivity.
Qed.

Lemma results2documents_total results s :
  exists s' l, results2documents results s = (s', inr l).
Proof.
  unfold results2documents, bind.
  destruct (results2documents_and_scores_total results s) as (s' & l & ->).
  unfold ret. eauto.
Qed.

(** The comprehension [[r for i, r in enumerate(candidates) if i in
    mmr_selected]] reads the candidates at the selected positions, taken in
    ascending order. *)
Lemma keep_selected_from {A : Type} (p : nat -> bool) (cands : list A) :
  forall pre : list A,
    map snd
      (filter (fun ir => p (fst ir))
         (combine (seq (List.length pre) (List.length cands)) cands))
    = at_positions (pre ++ cands)
        (filter p (seq (List.length pre) (List.length cands))).
Proof.
  induction cands as [|c cands IH]; intros pre; simpl; auto.
  specialize (IH (pre ++ [c])).
  rewrite length_app in IH. simpl in IH.
  rewrite Nat.add_1_r in IH. rewrite <- app_assoc in IH. simpl in IH.
  destruct (p (List.length pre)); simpl; rewrite IH; auto.
  unfold pick at 1.
  rewrite nth_error_app2 by lia. rewrite Nat.sub_diag. reflexivity.
Qed.

Lemma keep_selected_positions {A : Type} (candidates : list A) (sel : list nat) :
  keep_selected candidates sel
  = at_positions candidates
      (filter (fun i => existsb (Nat.eqb i) sel) (seq 0 (List.length candidates))).
Proof.
  unfold keep_selected.
  exact (keep_selected_from (fun i => existsb (Nat.eqb i) sel) candidates []).
Qed.

Lemma filter_seq_ascending (p : nat -> bool) n : forall a,
  StronglySorted lt (filter p (seq a n)).
Proof.
  induction n as [|n IH]; intros a; simpl.
  - constructor.
  - destruct (p a); auto.
    constructor; auto.
    apply Forall_forall. intros x Hx.
    apply filter_In in Hx. destruct Hx as [Hx _].
    apply in_seq in Hx. lia.
Qed.

Lemma selected_positions_spec n (sel : list nat) i :
  In i (filter (fun i => existsb (Nat.eqb i) sel) (seq 0 n))
  <-> i < n /\ In i sel.
Proof.
  rewrite filter_In, in_seq, existsb_exists. split.
  - intros [Hi (x & Hx & Heq)]. apply Nat.eqb_eq in Heq. subst. split; auto; lia.
  - intros [Hi Hs]. split; [lia|]. exists i. split; auto. apply Nat.eqb_refl.
Qed.

(** C6, the counterexample.  With the inner product as similarity the
    farther of the two stored vectors is selected first, so the selection
    order is [1; 0]; the method returns the two documents in the order of
    the candidates, nearest first. *)
Lemma mmr_output_not_in_selection_order : ~ mmr_output_in_selection_order.
Proof.
  intros H.
  pose (s1 := fst (mmr_select mmr_client maximal_marginal_relevance_of_spec
                     [Fin 1; Fin 0] 2 5 (Fin (1 # 2)) VNone sample_store)).
  pose (results :=
          [([find_descriptor_result
               [raw_record "near" (Some "near") 0; raw_record "far" (Some "far") 4]],
            [BytesOfEmb [Fin 1; Fin 0]; BytesOfEmb [Fin 3; Fin 0]])] : list SearchResult).
  specialize
    (H mmr_client maximal_marginal_relevance_of_spec [Fin 1; Fin 0] 2%Z 5%Z
       (Fin (1 # 2)) VNone sample_store s1 results [1; 0]).
  assert (Hsel :
            mmr_select mmr_client maximal_marginal_relevance_of_spec
              [Fin 1; Fin 0] 2 5 (Fin (1 # 2)) VNone sample_store
            = (s1, inr (results, Some [1; 0]))) by (vm_compute; reflexivity).
  specialize (H Hsel). vm_compute in H. discriminate H.
Qed.

(** C6, as amended.  The documents of an MMR search are the candidates that
    MMR selected, in the order of the candidates (the order of the
    neighbour list), whatever the order of selection: they sit at the
    ascending positions that occur among the selected indices.  The same
    holds for the variant with scores. *)
Theorem mmr_output_in_candidate_order
    (client : list Call -> list Value -> list Blob -> Reply)
    (mmr : list Float -> list (list Float) -> Z -> Float -> list nat)
    (embedding : list Float) (k fetch_k : Z) (lambda_mult : Float)
    (filter : Value) (s s1 : Store) (results : list SearchResult)
    (mmr_selected : list nat) :
  mmr_select client mmr embedding k fetch_k lambda_mult filter s
  = (s1, inr (results, Some mmr_selected)) ->
  exists positions,
    StronglySorted lt positions
    /\ (forall i,
          In i positions
          <-> i < List.length (returned (results2documents_and_scores results s1))
              /\ In i mmr_selected)
    /\ returned (max_marginal_relevance_search_by_vector client mmr embedding
                   k fetch_k lambda_mult filter s)
       = at_positions (returned (results2documents results s1)) positions
    /\ returned (max_marginal_relevance_search_by_vector_with_score client mmr
                   embedding k fetch_k lambda_mult filter s)
       = at_positions (returned (results2documents_and_scores results s1)) positions.
Proof.
  intros Hsel.
  destruct (results2documents_and_scores_total results s1) as (s2 & l & Hl).
  exists (List.filter (fun i => existsb (Nat.eqb i) mmr_selected)
            (seq 0 (List.length l))).
  assert (Hdocs : results2documents results s1 = (s2, inr (map fst l))).
  { unfold results2documents, bind. rewrite Hl. reflexivity. }
  split; [apply filter_seq_ascending|].
  split.
  - intros i. rewrite Hl. unfold returned. simpl.
    apply selected_positions_spec.
  - split.
    + unfold max_marginal_relevance_search_by_vector, bind.
      rewrite Hsel, Hdocs. unfold ret, returned. simpl.
      rewrite keep_selected_positions. now rewrite length_map.
    + unfold max_marginal_relevance_search_by_vector_with_score, bind.
      rewrite Hsel, Hl. unfold ret, returned. simpl.
      apply keep_selected_positions.
Qed.

Lemma mmr_output_in_candidate_order_witness :
  exists positions,
    StronglySorted lt positions
    /\ (forall i, In i positions <-> i < 2 /\ In i [1; 0])
    /\ returned (max_marginal_relevance_search_by_vector mmr_client
                   maximal_marginal_relevance_of_spec [Fin 1; Fin 0] 2 5
                   (Fin (1 # 2)) VNone sample_store)
       = at_positions
           [mkDocument (VStr "near") [] (VStr "near");
            mkDocument (VStr "far") [] (VStr "far")] positions
    /\ returned (max_marginal_relevance_search_by_vector_with_score mmr_client
                   maximal_marginal_relevance_of_spec [Fin 1; Fin 0] 2 5
                   (Fin (1 # 2)) VNone sample_store)
       = at_positions
           [(mkDocument (VStr "near") [] (VStr "near"), Fin 0);
            (mkDocument (VStr "far") [] (VStr "far"), Fin 4)] positions.
Proof.
  exact (mmr_output_in_candidate_order mmr_client maximal_marginal_relevance_of_spec
           [Fin 1; Fin 0] 2 5 (Fin (1 # 2)) VNone sample_store _ _ [1; 0] eq_refl).
Defined.

(** ** Distance normalisation *)

Lemma Qmax_from_spec l : forall cur,
  In (Qmax_from cur l) (cur :: l)
  /\ Forall (fun q => (q <= Qmax_from cur l)%Q) (cur :: l).
Proof.
  induction l as [|q l IH]; intros cur; simpl.
  - split; auto. constructor; auto. apply Qle_refl.
  - destruct (IH (if Qle_bool q cur then cur else q)) as [Hin Hall].
    inversion Hall as [|? ? Hhd Htl]; subst.
    destruct (Qle_bool q cur) eqn:E.
    + apply Qle_bool_iff in E. split.
      * simpl in Hin. tauto.
      * constructor; auto. constructor; auto.
        eapply Qle_trans; eauto.
    + assert (Hlt : (cur <= q)%Q).
      { destruct (Qlt_le_dec cur q) as [H|H]; [now apply Qlt_le_weak|].
        apply Qle_bool_iff in H. congruence. }
      split.
      * simpl in Hin. tauto.
      * constructor; [eapply Qle_trans; eauto|]. constructor; auto.
Qed.

Lemma py_max_from_finite l : forall cur,
  py_max_from (VNum (Fin cur)) (map (fun q => VNum (Fin q)) l)
  = inr (VNum (Fin (Qmax_from cur l))).
Proof.
  induction l as [|q l IH]; intros cur; simpl; auto.
  destruct (Qle_bool q cur); simpl; apply IH.
Qed.

Lemma py_max_finite l m :
  Qlist_max l = Some m ->
  py_max (map (fun q => VNum (Fin q)) l) = inr (VNum (Fin m)).
Proof.
  destruct l as [|q l]; simpl; try discriminate.
  intros H. injection H as <-. apply py_max_from_finite.
Qed.

Lemma distances_read entities xs :
  Forall2 has_distance entities xs ->
  res_map (fun ent => py_getitem ent "_distance") entities = inr (map VNum xs).
Proof.
  induction 1 as [|ent x entities xs (d & -> & Hd) _ IH]; simpl; auto.
  rewrite Hd. simpl. rewrite IH. reflexivity.
Qed.

Lemma finite_distances_spec entities xs :
  Forall2 has_distance entities xs ->
  Forall finite_or_inf xs ->
  finite_distances entities = inr (map (fun q => VNum (Fin q)) (finite_part xs)).
Proof.
  intros Hd Hf. unfold finite_distances.
  rewrite (distances_read entities xs Hd). simpl. f_equal.
  clear Hd. induction Hf as [|x xs [->|[q ->]] _ IH]; simpl; auto.
  now rewrite IH.
Qed.

Lemma float_sub_zero_fin q : float_sub (Fin q) (Fin 0) = Fin (Qred (q + 0)).
Proof. reflexivity. Qed.

Lemma float_sub_zero_inf : float_sub PInf (Fin 0) = PInf.
Proof. reflexivity. Qed.

Lemma normalized_distance_spec m d x :
  dict_lookup "_distance" d = Some (VNum x) ->
  ~ m == 0 ->
  normalized_distance (VNum (Fin m)) (VDict d)
  = inr (float_div_nz (float_sub x (Fin 0)) (Fin (Qred (m + 0)))).
Proof.
  intros Hd Hm.
  assert (Hnz : Qeq_bool (Qred (m + 0)) 0 = false).
  { destruct (Qeq_bool (Qred (m + 0)) 0) eqn:E; auto.
    apply Qeq_bool_iff in E. rewrite Qred_correct in E.
    exfalso. apply Hm. rewrite <- E. ring. }
  unfold normalized_distance, py_sub, min_dist.
  cbn [py_getitem]. rewrite Hd. cbn [res_bind py_float].
  rewrite float_sub_zero_fin. unfold py_div. cbn [float_is_zero].
  rewrite Hnz. reflexivity.
Qed.

Lemma normalize_entity_spec m ent x s :
  has_distance ent x ->
  finite_or_inf x ->
  ~ m == 0 ->
  exists ent',
    normalize_entity (VNum (Fin m)) ent s = (s, inr ent') /\ normalized_to m x ent'.
Proof.
  intros (d & -> & Hd) Hx Hm.
  unfold normalize_entity, bind, try_except, lift.
  rewrite (normalized_distance_spec m d x Hd Hm).
  cbn [py_setitem].
  eexists. split; [reflexivity|].
  destruct Hx as [->|[q ->]].
  - rewrite float_sub_zero_inf. cbn [normalized_to float_div_nz].
    destruct (Qsign (Qred (m + 0))); [right|right|left];
      eexists; (split; [reflexivity|]); apply dict_lookup_set_same.
  - rewrite float_sub_zero_fin. cbn [normalized_to float_div_nz fin].
    eexists. split.
    + eexists. split; [reflexivity|]. apply dict_lookup_set_same.
    + rewrite !Qred_correct. unfold Qdiv. now rewrite !Qplus_0_r.
Qed.

Lemma normalize_entities_spec m entities xs s :
  Forall2 has_distance entities xs ->
  Forall finite_or_inf xs ->
  ~ m == 0 ->
  exists entities',
    normalize_entities (VNum (Fin m)) entities s = (s, inr entities')
    /\ Forall2 (normalized_to m) xs entities'.
Proof.
  intros Hd Hf Hm. revert Hf.
  induction Hd as [|ent x entities xs Hent _ IH]; intros Hf; simpl.
  - exists []. split; auto.
  - inversion Hf as [|? ? Hx Hxs]; subst.
    destruct (normalize_entity_spec m ent x s Hent Hx Hm) as (ent' & He & Hn).
    destruct (IH Hxs) as (entities' & Hes & Hns).
    exists (ent' :: entities'). split; auto.
    unfold bind. rewrite He, Hes. reflexivity.
Qed.

Lemma set_entities_only_spec response command_str entities entities' :
  response_field response command_str "entities" = inr (VList entities) ->
  exists response',
    set_entities_only response command_str entities' = inr response'
    /\ response_field response' command_str "entities" = inr (VList entities').
Proof.
  unfold response_field, set_entities_only.
  destruct response as [|r0 rest]; simpl; try discriminate.
  destruct r0 as [| | | | | |d0]; simpl; try discriminate.
  destruct (dict_lookup command_str d0) as [body|] eqn:E0; simpl; try discriminate.
  destruct body as [| | | | | |b]; simpl; try discriminate.
  intros _. eexists. split; [reflexivity|]. simpl.
  rewrite dict_lookup_set_same. simpl.
  now rewrite dict_lookup_set_same.
Qed.

(** C2, the counterexample.  For the distances 0.1, 0.3, 0.5 the
    normalised search returns 0.2, 0.6, 1.0, not 0.0, 0.5, 1.0: the minimum
    is the constant 0.0 of the source, not the least returned distance. *)
Lemma normalization_is_not_min_max : ~ min_max_normalization.
Proof.
  intros H. specialize (H (1 # 10) [3 # 10; 5 # 10]).
  assert (Hne : ~ Qmax_from (1 # 10) [3 # 10; 5 # 10]
                  == Qmin_from (1 # 10) [3 # 10; 5 # 10])
    by (vm_compute; discriminate).
  specialize (H Hne). vm_compute in H. discriminate H.
Qed.

(** C2, as amended.  With normalisation enabled each returned distance [q]
    becomes [q / m], where [m] is the greatest of the returned distances
    other than [+infinity] and is not zero (the minimum is fixed at 0); the
    sentinel stays infinite, nothing is logged and nothing is raised. *)
Theorem normalization_divides_by_max
    (response entities : list Value) (xs : list Float) (m : Q) (s : Store) :
  response_field response "FindDescriptor" "entities" = inr (VList entities) ->
  Forall2 has_distance entities xs ->
  Forall finite_or_inf xs ->
  Qlist_max (finite_part xs) = Some m ->
  ~ m == 0 ->
  exists response' entities',
    normalize_response "FindDescriptor" response s = (s, inr response')
    /\ response_field response' "FindDescriptor" "entities" = inr (VList entities')
    /\ Forall2 (normalized_to m) xs entities'.
Proof.
  intros Hresp Hd Hf Hmax Hm.
  destruct (normalize_entities_spec m entities xs s Hd Hf Hm) as (entities' & Hn & Hall).
  destruct (set_entities_only_spec response "FindDescriptor" entities entities' Hresp)
    as (response' & Hset & Hget).
  exists response', entities'. split; [|split]; auto.
  unfold normalize_response, bind, lift.
  rewrite Hresp. simpl.
  rewrite (finite_distances_spec entities xs Hd Hf).
  rewrite (py_max_finite _ m Hmax).
  rewrite Hn. rewrite Hset. reflexivity.
Qed.

Lemma normalization_divides_by_max_witness :
  exists response' entities',
    normalize_response "FindDescriptor"
      [find_descriptor_result [record_foo; record_without_content; record_thud]]
      sample_store
    = (sample_store, inr response')
    /\ response_field response' "FindDescriptor" "entities" = inr (VList entities')
    /\ Forall2 (normalized_to (3 # 10))
         [Fin (1 # 10); Fin (2 # 10); Fin (3 # 10)] entities'.
Proof.
  apply (normalization_divides_by_max
           [find_descriptor_result [record_foo; record_without_content; record_thud]]
           [record_foo; record_without_content; record_thud]).
  - reflexivity.
  - repeat (apply Forall2_cons; [eexists; split; reflexivity|]).
    apply Forall2_nil.
  - repeat (apply Forall_cons; [right; eexists; reflexivity|]).
    apply Forall_nil.
  - reflexivity.
  - unfold Qeq. simpl. lia.
Defined.

(** ** Filtered search *)

Lemma has_identity_contains ent :
  has_identity ent -> py_contains LANGCHAIN_ID_PROPERTY ent = inr true.
Proof.
  intros (d & v & -> & Hv). unfold py_contains, dict_has. now rewrite Hv.
Qed.


Lemma res_filter_all_identified ents :
  Forall has_identity ents ->
  res_filter (py_contains LANGCHAIN_ID_PROPERTY) ents = inr ents.
Proof.
  induction 1 as [|ent ents Hent _ IH]; simpl; auto.
  rewrite (has_identity_contains ent Hent). simpl. rewrite IH. reflexivity.
Qed.


(** A listing of identified entities passes [check_valid_response]
    unchanged. *)
Lemma any_returned_found ents cmd_list :
  exists b, any_returned [find_descriptor_result ents] cmd_list = inr b.
Proof.
  induction cmd_list as [|cmd cmd_list [b IH]]; simpl; eauto.
  unfold dict_has. simpl.
  destruct (String.eqb cmd "FindDescriptor"); simpl; eauto.
  unfold dict_has. simpl. unfold py_gt_zero. simpl.
  destruct (negb (Qle_bool (inject_Z (Z.of_nat (List.length ents))) 0)); eauto.
Qed.

Lemma keep_entities_with_id_found ents :
  Forall has_identity ents ->
  keep_entities_with_id (find_descriptor_result ents) = inr (find_descriptor_result ents).
Proof.
  intros H. unfold keep_entities_with_id, find_descriptor_result.
  cbn [py_contains dict_has dict_lookup String.eqb Ascii.eqb Bool.eqb res_bind
       py_getitem py_get py_iter].
  rewrite (res_filter_all_identified ents H).
  reflexivity.
Qed.

Lemma check_valid_response_found all_queries cmd_list ents :
  get_cmds_from_query all_queries = inr cmd_list ->
  Forall has_identity ents ->
  exists b,
    check_valid_response all_queries [find_descriptor_result ents]
    = inr ([find_descriptor_result ents], b).
Proof.
  intros Hq H. unfold check_valid_response. rewrite Hq. simpl res_bind.
  destruct (any_returned_found ents cmd_list) as [b ->]. simpl res_bind.
  cbn [res_map]. rewrite (keep_entities_with_id_found ents H).
  exists b. reflexivity.
Qed.

Lemma run_vdms_query_found client all_queries all_blobs cmd_list ents blobs s :
  get_cmds_from_query all_queries = inr cmd_list ->
  client (sent s) all_queries all_blobs = ([find_descriptor_result ents], blobs) ->
  Forall has_identity ents ->
  run_vdms_query client all_queries all_blobs s
  = (with_call s all_queries all_blobs, inr ([find_descriptor_result ents], blobs)).
Proof.
  intros Hq Hc H. unfold run_vdms_query. rewrite Hc.
  destruct (check_valid_response_found all_queries cmd_list ents Hq H) as [b ->].
  reflexivity.
Qed.

Lemma add_descriptor_cmds command_str setname label ref props link k constraints results :
  get_cmds_from_query
    [add_descriptor command_str setname label ref props link k constraints results]
  = inr [command_str].
Proof. reflexivity. Qed.

Lemma get_k_candidates_found client setname k results all_blobs ents blobs s :
  let query :=
    add_descriptor "FindDescriptor" setname None None VNone VNone k VNone results in
  client (sent s) [query] all_blobs = ([find_descriptor_result ents], blobs) ->
  Forall has_identity ents ->
  get_k_candidates client setname k results all_blobs s
  = (with_call s [query] all_blobs, inr ([find_descriptor_result ents], blobs)).
Proof.
  intros query Hc H. unfold get_k_candidates, bind.
  fold query.
  rewrite (run_vdms_query_found client [query] all_blobs ["FindDescriptor"] ents blobs s
             (add_descriptor_cmds _ _ _ _ _ _ _ _ _) Hc H).
  reflexivity.
Qed.












(** ** The known properties *)

Lemma string_compare_OT s1 : forall s2,
  String.compare s1 s2 = String_as_OT.compare s1 s2.
Proof.
  induction s1 as [|a s1 IH]; destruct s2 as [|b s2]; simpl; auto.
Qed.

Lemma str_le_spec a b : str_le a b <-> a = b \/ String_as_OT.lt a b.
Proof.
  unfold str_le, String.leb. rewrite string_compare_OT.
  destruct (String_as_OT.compare_spec a b) as [H|H|H]; split; auto; try discriminate.
  intros [->|H']; exfalso.
  - exact (irreflexivity H).
  - apply (irreflexivity (R := String_as_OT.lt) (x := a)). etransitivity; eauto.
Qed.

Lemma str_le_trans a b c : str_le a b -> str_le b c -> str_le a c.
Proof.
  rewrite !str_le_spec. intros [->|Hab] [->|Hbc]; auto.
  right. etransitivity; eauto.
Qed.

Lemma str_le_antisym a b : str_le a b -> str_le b a -> a = b.
Proof. apply String.leb_antisym. Qed.

Lemma sort_strings_sorted l : StronglySorted str_le (sort_strings l).
Proof.
  apply StringSort.StronglySorted_sort.
  intros a b c. exact (str_le_trans a b c).
Qed.

Lemma sort_strings_perm l : Permutation l (sort_strings l).
Proof. apply StringSort.Permuted_sort. Qed.

(** Two sorted lists with the same elements are the same list. *)
Lemma sorted_perm_unique l1 : forall l2,
  StronglySorted str_le l1 -> StronglySorted str_le l2 ->
  Permutation l1 l2 -> l1 = l2.
Proof.
  induction l1 as [|a l1 IH]; intros l2 H1 H2 Hp.
  - apply Permutation_nil in Hp. now subst.
  - destruct l2 as [|b l2].
    + apply Permutation_sym, Permutation_nil in Hp. discriminate.
    + inversion H1 as [|? ? Hs1 Ha]; subst.
      inversion H2 as [|? ? Hs2 Hb]; subst.
      assert (a = b).
      { assert (Hina : In a (b :: l2))
          by (eapply Permutation_in; [exact Hp | left; reflexivity]).
        assert (Hinb : In b (a :: l1))
          by (eapply Permutation_in;
              [apply Permutation_sym; exact Hp | left; reflexivity]).
        destruct Hina as [->|Hina]; auto.
        destruct Hinb as [->|Hinb]; auto.
        rewrite Forall_forall in Ha, Hb.
        apply str_le_antisym; auto. }
      subst b. f_equal. apply IH; auto.
      eapply Permutation_cons_inv; eauto.
Qed.

Lemma sort_strings_congr l1 l2 :
  Permutation l1 l2 -> sort_strings l1 = sort_strings l2.
Proof.
  intros Hp. apply sorted_perm_unique; try apply sort_strings_sorted.
  eapply Permutation_trans; [apply Permutation_sym, sort_strings_perm|].
  eapply Permutation_trans; [exact Hp | apply sort_strings_perm].
Qed.

Lemma sort_strings_sorted_id l :
  StronglySorted str_le l -> sort_strings l = l.
Proof.
  intros Hs. apply sorted_perm_unique; auto using sort_strings_sorted.
  apply Permutation_sym, sort_strings_perm.
Qed.

Lemma str_in_iff k l : str_in k l = true <-> In k l.
Proof.
  unfold str_in. rewrite existsb_exists. split.
  - intros (x & Hx & E). apply String.eqb_eq in E. now subst.
  - intros H. exists k. split; auto. apply String.eqb_refl.
Qed.

Lemma append_unseen_In keys : forall known x,
  In x (append_unseen known keys) <-> In x known \/ In x keys.
Proof.
  unfold append_unseen.
  induction keys as [|k keys IH]; intros known x; simpl.
  - tauto.
  - rewrite IH. destruct (str_in k known) eqn:E.
    + apply str_in_iff in E. split; [tauto|].
      intros [H|[<-|H]]; auto.
    + rewrite in_app_iff. simpl. tauto.
Qed.

Lemma append_unseen_NoDup keys : forall known,
  NoDup known -> NoDup (append_unseen known keys).
Proof.
  unfold append_unseen.
  induction keys as [|k keys IH]; intros known Hnd; simpl; auto.
  apply IH. destruct (str_in k known) eqn:E; auto.
  apply NoDup_app; auto.
  - repeat constructor. simpl. tauto.
  - intros x Hx [<-|[]].
    apply str_in_iff in Hx. congruence.
Qed.

Lemma append_unseen_known keys : forall known,
  incl keys known -> append_unseen known keys = known.
Proof.
  unfold append_unseen.
  induction keys as [|k keys IH]; intros known Hincl; simpl; auto.
  assert (Hk : str_in k known = true)
    by (apply str_in_iff, Hincl; left; reflexivity).
  rewrite Hk. apply IH. intros x Hx. apply Hincl. now right.
Qed.

Lemma filter_neq_In (x : string) l y :
  In y (filter (fun z => negb (String.eqb x z)) l) <-> In y l /\ x <> y.
Proof.
  rewrite filter_In. rewrite negb_true_iff, String.eqb_neq. tauto.
Qed.

Lemma dedup_In l : forall x, In x (dedup l) <-> In x l.
Proof.
  induction l as [|a l IH]; intros x; simpl; [tauto|].
  rewrite filter_neq_In, IH.
  destruct (string_dec a x); subst; tauto.
Qed.

Lemma dedup_NoDup l : NoDup (dedup l).
Proof.
  induction l as [|a l IH]; simpl; constructor.
  - rewrite filter_neq_In. tauto.
  - now apply NoDup_filter.
Qed.

Lemma get_props_from_metadata_run document metadata id s :
  get_props_from_metadata document metadata id s
  = (mkStore (collection_name s)
       (sort_strings
          (append_unseen (collection_properties s) (property_set document metadata id)))
       (updated_properties_flag s) (sent s) (logged s),
     inr (props_of document metadata id)).
Proof. reflexivity. Qed.

Lemma get_properties_store client name unique_entity deletion s :
  fst (get_properties client name unique_entity deletion s)
  = with_call s [find_property_entity name unique_entity deletion] [].
Proof.
  unfold get_properties, bind, run_vdms_query.
  destruct (client (sent s) [find_property_entity name unique_entity deletion] [])
    as [response response_blob].
  destruct (check_valid_response _ response) as [e|[response' b]]; simpl; auto.
  destruct response_blob as [|blob rest]; simpl; auto.
  unfold lift. destruct (bytes2str blob); simpl; auto.
Qed.

Lemma set_difference_nil known pushed :
  incl known pushed -> set_difference known pushed = [].
Proof.
  intros Hincl. unfold set_difference.
  replace (filter (fun x => negb (str_in x pushed)) known) with (@nil string); auto.
  symmetry. induction known as [|k known IH]; simpl; auto.
  assert (Hk : str_in k pushed = true)
    by (apply str_in_iff, Hincl; left; reflexivity).
  rewrite Hk. simpl. apply IH. intros x Hx. apply Hincl. now right.
Qed.

(** C9, the counterexample.  A new collection knows the three default
    properties, so after two items with a text, an id and the entry [baz]
    were registered, [_distance] is known although neither item brought it:
    the known properties are not sorted([P1] ∪ [P2]).  And the list is not
    append-only: after a push, [check_and_update_properties] replaces it by
    the list of the store, which drops the known property [baz]. *)
Lemma fresh_collection_knows_more_than_was_registered :
  ~ known_properties_are_the_registered_sets
  /\ ~ known_properties_are_append_only.
Proof.
  split; intros H.
  - destruct (H sample_store "foo" (Some [("baz", VStr "bar")]) (Some "1")
                "thud" (Some [("baz", VStr "qux")]) (Some "2")) as [_ Hmem].
    destruct (proj1 (Hmem "_distance")) as [Hin|Hin].
    + vm_compute. left. reflexivity.
    + vm_compute in Hin. intuition discriminate.
    + vm_compute in Hin. intuition discriminate.
  - specialize
      (H empty_store_client
         (mkStore DEFAULT_COLLECTION_NAME ["_distance"; "baz"; "content"; "langchain_id"]
            true [] [])
         "baz").
    assert (Hin : In "baz" ["_distance"; "content"; "langchain_id"]).
    { apply H. right. left. reflexivity. }
    simpl in Hin. intuition discriminate.
Qed.

(** C9, as amended.  Registration through [get_props_from_metadata] only
    adds to the known properties and keeps them sorted: after registering
    the property sets [P1] and then [P2] on a collection whose known
    properties are [K], the list of known properties is in ascending order
    and its members are exactly the names of [K], [P1] and [P2] (each once
    when [K] has no repetition); registering afterwards a set whose
    properties are all known changes nothing; and when the backend registry
    already lists every known property, [push_update_properties] sends the
    find query only: no replace is issued and the flag is left alone. *)
Theorem known_properties_are_the_sorted_union
    (client : list Call -> list Value -> list Blob -> Reply) (s : Store)
    (doc1 : string) (meta1 : option Dict) (id1 : option string)
    (doc2 : string) (meta2 : option Dict) (id2 : option string)
    (doc : string) (meta : option Dict) (id : option string) (name : string) :
  let P1 := property_set doc1 meta1 id1 in
  let P2 := property_set doc2 meta2 id2 in
  let s2 :=
    fst (get_props_from_metadata doc2 meta2 id2
           (fst (get_props_from_metadata doc1 meta1 id1 s))) in
  incl (property_set doc meta id) (collection_properties s2) ->
  StronglySorted str_le (collection_properties s2)
  /\ (forall x,
        In x (collection_properties s2)
        <-> In x (collection_properties s) \/ In x P1 \/ In x P2)
  /\ (NoDup (collection_properties s) -> NoDup (collection_properties s2))
  /\ get_props_from_metadata doc meta id s2 = (s2, inr (props_of doc meta id))
  /\ forall s3 pushed,
       get_properties client name false false s2 = (s3, inr pushed) ->
       incl (collection_properties s2) pushed ->
       push_update_properties client name s2 = (s3, inr tt)
       /\ s3 = with_call s2 [find_property_entity name false false] [].
Proof.
  intros P1 P2 s2 Hsub.
  assert (Hs2 :
            collection_properties s2
            = sort_strings
                (append_unseen
                   (sort_strings (append_unseen (collection_properties s) P1)) P2))
    by reflexivity.
  assert (Hsorted : StronglySorted str_le (collection_properties s2))
    by (rewrite Hs2; apply sort_strings_sorted).
  split; [exact Hsorted|]. split; [|split; [|split]].
  - intros x. rewrite Hs2.
    rewrite <- (Permutation_in' (eq_refl x) (sort_strings_perm _)).
    rewrite append_unseen_In.
    rewrite <- (Permutation_in' (eq_refl x) (sort_strings_perm _)).
    rewrite append_unseen_In. tauto.
  - intros Hnd. rewrite Hs2.
    eapply Permutation_NoDup; [apply sort_strings_perm|].
    apply append_unseen_NoDup.
    eapply Permutation_NoDup; [apply sort_strings_perm|].
    apply append_unseen_NoDup. exact Hnd.
  - rewrite get_props_from_metadata_run.
    rewrite (append_unseen_known _ _ Hsub).
    rewrite (sort_strings_sorted_id _ Hsorted).
    reflexivity.
  - intros s3 pushed Hget Hincl.
    split.
    + unfold push_update_properties, bind. rewrite Hget.
      unfold get_collection_properties.
      assert (Hs3 : collection_properties s3 = collection_properties s2).
      { replace s3 with (fst (get_properties client name false false s2))
          by (rewrite Hget; reflexivity).
        rewrite get_properties_store. reflexivity. }
      rewrite Hs3, (set_difference_nil _ _ Hincl). reflexivity.
    + replace s3 with (fst (get_properties client name false false s2))
        by (rewrite Hget; reflexivity).
      apply get_properties_store.
Qed.

Lemma known_properties_are_the_sorted_union_witness :
  let s2 :=
    fst (get_props_from_metadata "thud" (Some [("bar", VStr "baz")]) (Some "2")
           (fst (get_props_from_metadata "foo" (Some [("baz", VStr "bar")]) (Some "1")
                   sample_store))) in
  collection_properties s2 = ["_distance"; "bar"; "baz"; "content"; "langchain_id"]
  /\ StronglySorted str_le (collection_properties s2)
  /\ get_props_from_metadata "foo" (Some [("bar", VStr "qux")]) None s2
     = (s2, inr (props_of "foo" (Some [("bar", VStr "qux")]) None)).
Proof.
  intros s2. split; [reflexivity|].
  assert (Hsub : incl (property_set "foo" (Some [("bar", VStr "qux")]) None)
                   (collection_properties s2)).
  { vm_compute. intros x H. intuition. }
  destruct (known_properties_are_the_sorted_union
              (scripted []) sample_store
              "foo" (Some [("baz", VStr "bar")]) (Some "1")
              "thud" (Some [("bar", VStr "baz")]) (Some "2")
              "foo" (Some [("bar", VStr "qux")]) None
              DEFAULT_COLLECTION_NAME Hsub) as (Hsorted & _ & _ & Hnoop & _).
  split; [exact Hsorted | exact Hnoop].
Defined.

(** ** Deletion *)

Lemma res_map_Forall2 {A B : Type} (f : A -> Res B) l : forall l',
  res_map f l = inr l' -> Forall2 (fun x y => f x = inr y) l l'.
Proof.
  induction l as [|x l IH]; simpl; intros l' H.
  - injection H as <-. constructor.
  - destruct (f x) as [e|y] eqn:Ex; simpl in H; try discriminate.
    destruct (res_map f l) as [e|ys]; simpl in H; try discriminate.
    injection H as <-. constructor; auto.
Qed.

Lemma py_get_dict d key default : exists v, py_get (VDict d) key default = inr v.
Proof. unfold py_get. destruct (dict_lookup key d); eauto. Qed.

Lemma keep_entities_with_id_listing res res' :
  keep_entities_with_id res = inr res' -> listing_ok res'.
Proof.
  unfold keep_entities_with_id.
  destruct (py_contains "FindDescriptor" res) as [e|[|]] eqn:Ec;
    cbn [res_bind]; try discriminate.
  - destruct res as [| | | | | |d]; cbn [py_getitem]; try discriminate.
    destruct (dict_lookup "FindDescriptor" d) as [body|]; cbn [res_bind];
      try discriminate.
    destruct body as [| | | | | |bd]; try discriminate.
    destruct (py_get_dict bd "entities" (VList [])) as [ent ->]. cbn [res_bind].
    destruct (py_iter ent) as [e|items]; cbn [res_bind]; try discriminate.
    destruct (res_filter (py_contains LANGCHAIN_ID_PROPERTY) items) as [e|kept];
      cbn [res_bind py_setitem]; try discriminate.
    intros H. injection H as <-. right.
    eexists. exists kept. cbn [py_contains py_getitem]. unfold dict_has.
    rewrite !dict_lookup_set_same. split; [reflexivity|]. split; [reflexivity|].
    cbn [py_getitem].
    rewrite dict_lookup_set_other by discriminate.
    now rewrite dict_lookup_set_same.
  - intros H. injection H as <-. now left.
Qed.

Lemma run_vdms_query_validated client all_queries all_blobs cmd_list s :
  replies_validate client ->
  get_cmds_from_query all_queries = inr cmd_list ->
  exists response response_array,
    run_vdms_query client all_queries all_blobs s
    = (with_call s all_queries all_blobs, inr (response, response_array))
    /\ Forall listing_ok response.
Proof.
  intros Hv Hq. unfold run_vdms_query.
  specialize (Hv (sent s) all_queries all_blobs).
  destruct (client (sent s) all_queries all_blobs) as [response response_array].
  destruct Hv as [Hany [response' Hmap]]. simpl in Hany, Hmap.
  destruct (Hany cmd_list) as [b Hb].
  unfold check_valid_response. rewrite Hq. simpl. rewrite Hb. simpl.
  rewrite Hmap. simpl.
  exists response', response_array. split; [reflexivity|].
  apply res_map_Forall2 in Hmap.
  clear -Hmap.
  induction Hmap as [|x y l l' Hxy _ IH]; constructor.
  - eapply keep_entities_with_id_listing; eauto.
  - exact IH.
Qed.

Lemma extend_with_found_ok response : forall entities,
  Forall listing_ok response ->
  exists out, extend_with_found entities response = inr out.
Proof.
  unfold extend_with_found.
  induction response as [|res response IH]; intros entities Hall; simpl; eauto.
  inversion Hall as [|? ? Hres Hrest]; subst.
  destruct Hres as [Hno | (body & kept & Hyes & Hbody & Hent)].
  - rewrite Hno. simpl. apply IH; auto.
  - rewrite Hyes. simpl. rewrite Hbody. simpl. rewrite Hent. simpl.
    apply IH; auto.
Qed.

Lemma res_map_total {A B : Type} (f : A -> Res B) (g : A -> B) l :
  (forall x, f x = inr (g x)) -> res_map f l = inr (map g l).
Proof.
  intros Hf. induction l as [|x l IH]; cbn [res_map map]; auto.
  rewrite Hf, IH. reflexivity.
Qed.

Lemma res_map_map {A B C : Type} (f : B -> Res C) (g : A -> B) l :
  res_map f (map g l) = res_map (fun x => f (g x)) l.
Proof.
  induction l as [|x l IH]; cbn [res_map map]; auto.
  now rewrite IH.
Qed.

Lemma check_valid_response_listing all_queries response out :
  check_valid_response all_queries response = inr out ->
  Forall listing_ok (fst out).
Proof.
  unfold check_valid_response.
  destruct (get_cmds_from_query all_queries) as [e|cmd_list]; [discriminate|].
  cbn [res_bind].
  destruct (any_returned response cmd_list) as [e|b]; [discriminate|].
  cbn [res_bind].
  destruct (res_map keep_entities_with_id response) as [e|response'] eqn:Hmap;
    [discriminate|].
  cbn [res_bind]. intros H. injection H as <-. cbn [fst].
  apply res_map_Forall2 in Hmap.
  induction Hmap as [|x y l l' Hxy _ IH]; constructor.
  - eapply keep_entities_with_id_listing; eauto.
  - exact IH.
Qed.

Lemma run_vdms_query_answered client all_queries all_blobs cmd_list s :
  answers_deletion client ->
  get_cmds_from_query all_queries = inr cmd_list ->
  incl cmd_list ["FindDescriptor"; "FindDescriptorSet"] ->
  exists response response_array,
    run_vdms_query client all_queries all_blobs s
    = (with_call s all_queries all_blobs, inr (response, response_array))
    /\ Forall listing_ok response.
Proof.
  intros Hv Hq Hincl. unfold run_vdms_query.
  destruct (Hv (sent s) all_queries all_blobs cmd_list Hq Hincl) as [[response' b] Hout].
  destruct (client (sent s) all_queries all_blobs) as [response response_array].
  cbn [fst] in Hout. rewrite Hout.
  exists response', response_array. split; [reflexivity|].
  exact (check_valid_response_listing _ _ _ Hout).
Qed.

Lemma replies_validate_answers_deletion client :
  replies_validate client -> answers_deletion client.
Proof.
  intros Hv history all_queries all_blobs cmd_list Hq _.
  destruct (Hv history all_queries all_blobs) as [Hany [response' Hmap]].
  destruct (Hany cmd_list) as [b Hb].
  unfold check_valid_response. rewrite Hq. cbn [res_bind]. rewrite Hb.
  cbn [res_bind]. rewrite Hmap. cbn [res_bind]. eauto.
Qed.

Lemma id_queries_ok collection_name c props batch_ids :
  exists all_queries cmd_list,
    id_queries collection_name (VDict c) props batch_ids = inr all_queries
    /\ get_cmds_from_query all_queries = inr cmd_list
    /\ incl cmd_list ["FindDescriptor"; "FindDescriptorSet"].
Proof.
  pose (g := fun i : string =>
               add_descriptor "FindDescriptor" collection_name None None VNone VNone
                 None
                 (VDict (dict_update
                           [(LANGCHAIN_ID_PROPERTY, VList [VStr "=="; VStr i])] c))
                 (properties_result props)).
  exists (map g batch_ids), (dedup (List.concat (map (fun _ => ["FindDescriptor"]) batch_ids))).
  split; [|split].
  - unfold id_queries. apply res_map_total. intros i. reflexivity.
  - unfold get_cmds_from_query. rewrite res_map_map.
    rewrite (res_map_total _ (fun _ => ["FindDescriptor"]) batch_ids)
      by (intros i; reflexivity).
    reflexivity.
  - intros x Hx. apply (proj1 (dedup_In _ x)) in Hx.
    induction batch_ids as [|i batch_ids IH]; [destruct Hx|].
    cbn [map List.concat app] in Hx. destruct Hx as [<-|Hx].
    + left. reflexivity.
    + exact (IH Hx).
Qed.

Lemma delete_windows_ok client collection_name c ids batch_size starts :
  answers_deletion client ->
  forall entities s,
  exists s' out,
    delete_windows client collection_name (VDict c) ids batch_size starts entities s
    = (s', inr out)
    /\ match out with
       | inl new_response =>
           exists found returned, new_response = new_response_with found returned
       | inr _ => True
       end.
Proof.
  intros Hv. induction starts as [|start_idx starts IH]; intros entities s; simpl.
  - unfold ret. eexists. exists (inr entities). split; [reflexivity | exact I].
  - unfold bind at 1. unfold get_collection_properties at 1.
    unfold bind at 1. unfold lift at 1.
    destruct (id_queries_ok collection_name c (collection_properties s)
                (slice ids start_idx
                   (Z.min (start_idx + batch_size) (Z.of_nat (List.length ids)))))
      as (qs & cmds & Hq & Hc & Hincl).
    rewrite Hq.
    destruct qs as [|q qs].
    + unfold ret. eexists. exists (inl (new_response_with entities 0)).
      split; [reflexivity|]. exists entities, 0. reflexivity.
    + unfold bind at 1.
      destruct (run_vdms_query_answered client (q :: qs) [] cmds s Hv Hc Hincl)
        as (response & response_array & Hrun & Hok).
      rewrite Hrun.
      unfold bind at 1. unfold lift at 1.
      destruct (extend_with_found_ok response entities Hok) as [out Hout].
      rewrite Hout. apply IH.
Qed.

Lemma py_range_ok start stop step :
  step <> 0%Z -> exists l, py_range start stop step = inr l.
Proof.
  intros H. unfold py_range.
  destruct (Z.eqb_spec step 0); [contradiction|].
  destruct (step <? 0)%Z; eauto.
Qed.

Lemma batch_delete_ok client collection_name c ids batch_size s :
  answers_deletion client ->
  ids = None \/ batch_size <> 0%Z ->
  exists s' entities returned,
    batch_delete client collection_name (VDict c) ids batch_size s
    = (s', inr (new_response_with entities returned)).
Proof.
  intros Hv Hb. unfold batch_delete.
  destruct ids as [ids|].
  - destruct Hb as [Hb|Hb]; [discriminate|].
    unfold bind at 1. unfold lift at 1.
    destruct (py_range_ok 0 (Z.of_nat (List.length ids)) batch_size Hb) as [starts ->].
    unfold bind at 1.
    destruct (delete_windows_ok client collection_name c ids batch_size starts Hv [] s)
      as (s' & out & -> & Hshape).
    destruct out as [new_response|entities]; unfold ret.
    + destruct Hshape as (found & returned & ->). eauto.
    + eauto.
  - unfold bind at 1. unfold get_collection_properties at 1.
    unfold bind at 1.
    destruct (run_vdms_query_answered client
                [add_descriptor "FindDescriptor" collection_name None None VNone VNone
                   None (VDict c) (properties_result (collection_properties s))]
                [] ["FindDescriptor"] s Hv (add_descriptor_cmds _ _ _ _ _ _ _ _ _))
      as (response & response_array & Hrun & Hok).
    { intros x [<-|[]]. left. reflexivity. }
    rewrite Hrun.
    unfold bind at 1. unfold lift at 1.
    destruct (extend_with_found_ok response [] Hok) as [out ->].
    unfold ret. eauto.
Qed.

Lemma empty_store_client_validates : replies_validate empty_store_client.
Proof.
  intros history all_queries all_blobs. split.
  - intros cmd_list. apply any_returned_found.
  - exists [find_descriptor_result []]. reflexivity.
Qed.

(** C10, the counterexample.  The claim as worded fails, and it fails in
    each of two ways.  With a list of ids and the window size 0, [delete]
    raises [ValueError] out of [range] although the store answers every
    command.  And with a store whose reply is an empty list, [delete] raises
    [IndexError] out of [check_valid_response], whatever the ids. *)
Lemma delete_with_zero_batch_size_raises :
  ~ delete_always_returns_true (fun _ _ _ => True)
  /\ ~ delete_always_returns_true (fun client _ _ => answers_deletion client)
  /\ ~ delete_always_returns_true
         (fun _ ids kwargs => ids = None \/ del_batch_size kwargs <> Some 0%Z).
Proof.
  assert (Hzero :
            delete empty_store_client (Some ["3"]) (mkDeleteKwargs None None (Some 0%Z))
              sample_store
            = (sample_store, inl (ValueError "range() arg 3 must not be zero")))
    by reflexivity.
  assert (Hsilent :
            snd (delete silent_client None (mkDeleteKwargs None None None) sample_store)
            = inl IndexError)
    by reflexivity.
  split; [|split]; intros H.
  - destruct (H empty_store_client (Some ["3"]) (mkDeleteKwargs None None (Some 0%Z))
                sample_store I) as [s' Hs'].
    rewrite Hzero in Hs'. discriminate.
  - destruct (H empty_store_client (Some ["3"]) (mkDeleteKwargs None None (Some 0%Z))
                sample_store
                (replies_validate_answers_deletion _ empty_store_client_validates))
      as [s' Hs'].
    rewrite Hzero in Hs'. discriminate.
  - destruct (H silent_client None (mkDeleteKwargs None None None) sample_store
                (or_introl eq_refl)) as [s' Hs'].
    rewrite Hs' in Hsilent. discriminate.
Qed.

(** C10, as amended.  Whatever ids and constraints are given, or none,
    [delete] returns [True] when the window size is not 0 (it is 500 when
    not given; without ids it is not used) and the store's replies to the
    [FindDescriptor] and [FindDescriptorSet] commands pass
    [check_valid_response]: the response it inspects is the one
    [batch_delete] seeds with a [FindDescriptor] entry, so the outcome does
    not depend on what the store found, nor on whether it failed the
    commands. *)
Theorem delete_returns_true
    (client : list Call -> list Value -> list Blob -> Reply)
    (ids : option (list string)) (kwargs : DeleteKwargs) (s : Store) :
  ids = None \/ del_batch_size kwargs <> Some 0%Z ->
  answers_deletion client ->
  exists s', delete client ids kwargs s = (s', inr true).
Proof.
  intros Hb Hv. unfold delete.
  set (batch_size := match del_batch_size kwargs with
                     | Some b => b
                     | None => DEFAULT_INSERT_BATCH_SIZE
                     end).
  assert (Hbs : ids = None \/ batch_size <> 0%Z).
  { destruct Hb as [Hb|Hb]; [left; exact Hb|right].
    unfold batch_size. destruct (del_batch_size kwargs) as [b|].
    - congruence.
    - discriminate. }
  set (constraints := match del_constraints kwargs with
                      | Some (VDict d) =>
                          VDict (dict_set "_deletion" (VList [VStr "=="; VInt 1]) d)
                      | _ => VDict [("_deletion", VList [VStr "=="; VInt 1])]
                      end).
  assert (Hc : exists c, constraints = VDict c).
  { unfold constraints. destruct (del_constraints kwargs) as [[| | | | | |d]|]; eauto. }
  destruct Hc as [c ->].
  unfold bind at 1.
  assert (Hname : exists name,
             match del_collection_name kwargs with
             | Some n => ret n
             | None => get_collection_name
             end s = (s, inr name)).
  { destruct (del_collection_name kwargs); unfold ret, get_collection_name; eauto. }
  destruct Hname as [name ->].
  unfold bind at 1.
  destruct (batch_delete_ok client name c ids batch_size s Hv Hbs)
    as (s1 & entities & returned & ->).
  unfold bind at 1. unfold lift at 1.
  change (add_descriptor_set "FindDescriptorSet" name None None None None VNone
            VNone true VNone VNone)
    with (@inr Exn Value
            (VDict [("FindDescriptorSet",
                     VDict [("set", VStr name); ("storeIndex", VBool true)])])).
  unfold bind at 1.
  destruct (run_vdms_query_answered client
              [VDict [("FindDescriptorSet",
                       VDict [("set", VStr name); ("storeIndex", VBool true)])]]
              [] ["FindDescriptorSet"] s1 Hv eq_refl)
    as (response & response_array & -> & _).
  { intros x [<-|[]]. right. left. reflexivity. }
  eexists. reflexivity.
Qed.

Lemma failing_client_answers_deletion : answers_deletion failing_client.
Proof.
  intros history all_queries all_blobs cmd_list Hq Hincl.
  unfold check_valid_response. rewrite Hq. cbn [res_bind fst failing_client].
  assert (Hany : any_returned [failed_command] cmd_list = inr false).
  { clear Hq. induction cmd_list as [|cmd cmd_list IH]; [reflexivity|].
    assert (Hcmd : In cmd ["FindDescriptor"; "FindDescriptorSet"])
      by (apply Hincl; left; reflexivity).
    assert (Hrest : incl cmd_list ["FindDescriptor"; "FindDescriptorSet"])
      by (intros x Hx; apply Hincl; right; exact Hx).
    destruct Hcmd as [<-|[<-|[]]]; cbn; exact (IH Hrest). }
  rewrite Hany. cbn [res_bind]. eexists. reflexivity.
Qed.

Lemma delete_returns_true_witness :
  exists s',
    delete failing_client (Some ["3"]) (mkDeleteKwargs None None None) sample_store
    = (s', inr true).
Proof.
  apply (delete_returns_true failing_client (Some ["3"])
           (mkDeleteKwargs None None None) sample_store).
  - right. discriminate.
  - exact failing_client_answers_deletion.
Defined.

(** ** The precondition on [fetch_k] *)

Lemma check_and_update_properties_idle client s :
  updated_properties_flag s = false ->
  check_and_update_properties client s = (s, inr tt).
Proof.
  intros Hf. unfold check_and_update_properties, bind, get_updated_properties_flag.
  rewrite Hf. reflexivity.
Qed.

(** C1, at the failing input [fetch_k = k].  [query_by_embeddings] lets the
    call through its gate [fetch_k >= k], and [get_descriptor_response]
    raises [ValueError] on [k_neighbors >= fetch_k] before any query is
    sent: the search does not proceed, and the store is left as it was. *)
Theorem search_with_fetch_k_equal_to_k_raises
    (client : list Call -> list Value -> list Blob -> Reply)
    (qemb : list Float) (more : list (list Float)) (collection_name : option string)
    (k : Z) (filter results : Value) (normalize_distance : bool)
    (include : option (list string)) (s : Store) :
  updated_properties_flag s = false ->
  query_by_embeddings client (Some (qemb :: more)) collection_name k k filter results
    normalize_distance include s
  = (s, inl (ValueError ("Provide fetch_k > k; Currently set at " ++ str_of_Z k))).
Proof.
  intros Hf. unfold query_by_embeddings.
  unfold bind at 1. rewrite (check_and_update_properties_idle client s Hf).
  unfold bind at 1.
  assert (Hname : exists name,
             match collection_name with
             | Some n => ret n
             | None => get_collection_name
             end s = (s, inr name)).
  { destruct collection_name; unfold ret, get_collection_name; eauto. }
  destruct Hname as [name ->].
  unfold bind at 1. unfold get_collection_properties at 1.
  unfold bind at 1. cbn [for_fold].
  unfold bind at 1. unfold bind at 1. unfold query_one. unfold bind at 1.
  destruct (Z.geb_spec k k) as [_|Hlt]; [|lia].
  unfold get_descriptor_response.
  destruct (Z.geb_spec k k) as [_|Hlt]; [|lia].
  reflexivity.
Qed.

Lemma search_with_fetch_k_equal_to_k_raises_witness :
  query_by_embeddings empty_store_client (Some [[Fin 1; Fin 0]]) None 3 3 VNone VNone
    false None sample_store
  = (sample_store, inl (ValueError "Provide fetch_k > k; Currently set at 3")).
Proof.
  apply (search_with_fetch_k_equal_to_k_raises empty_store_client [Fin 1; Fin 0] []
           None 3 VNone VNone false None sample_store).
  reflexivity.
Defined.

(** Below the gate, [fetch_k < k], no query is sent and the search returns
    one empty result. *)
Lemma search_with_fetch_k_below_k_is_empty client qemb collection_name k fetch_k
    filter results normalize_distance include s :
  updated_properties_flag s = false ->
  (fetch_k < k)%Z ->
  exists s',
    query_by_embeddings client (Some [qemb]) collection_name k fetch_k filter results
      normalize_distance include s
    = (s', inr [([], [])])
    /\ sent s' = sent s
    /\ logged s'
       = logged s ++ [(INFO, "Exception[in query_by_embeddings]");
                      (INFO, "Returning 0 results")].
Proof.
  intros Hf Hlt. unfold query_by_embeddings.
  unfold bind at 1. rewrite (check_and_update_properties_idle client s Hf).
  unfold bind at 1.
  assert (Hname : exists name,
             match collection_name with
             | Some n => ret n
             | None => get_collection_name
             end s = (s, inr name)).
  { destruct collection_name; unfold ret, get_collection_name; eauto. }
  destruct Hname as [name ->].
  unfold bind at 1. unfold get_collection_properties at 1.
  unfold bind at 1. cbn [for_fold].
  unfold bind at 1. unfold bind at 1. unfold query_one. unfold bind at 1.
  destruct (Z.geb_spec fetch_k k) as [Hge|_]; [lia|].
  eexists. split; [reflexivity|]. simpl. split; [reflexivity|].
  now rewrite <- app_assoc.
Qed.

(** ** Overflow recovery *)

(** [all_queries] always holds one command, so the halved window is 0 and
    the recovery loop raises before it sends anything. *)
Lemma resend_in_halves_never_sends client query all_blobs emb response s :
  exists e,
    resend_in_halves client [query] all_blobs emb response s
    = (with_log s INFO "OutOfJournalSpace: Splitting batch in half", inl e).
Proof.
  unfold resend_in_halves, bind, logger. simpl.
  destruct emb as [e|]; simpl; eauto.
Qed.

Lemma properties_loop_keeps_calls
    (items : list (Dict * list Float * string * string)) :
  forall (acc : list Float * list Value * option (list Float)) s,
  exists s' out,
    for_fold items acc
      (fun '(extended_emb, batch_properties, _) '(meta, emb, doc, id) =>
         props <- get_props_from_metadata doc (Some meta) (Some id) ;;
         ret (extended_emb ++ emb, batch_properties ++ [VDict props], Some emb)) s
    = (s', inr out)
    /\ sent s' = sent s /\ logged s' = logged s.
Proof.
  induction items as [|[[[meta emb] doc] id] items IH]; intros acc s; cbn [for_fold].
  - unfold ret. eauto.
  - destruct acc as [[extended_emb batch_properties] last].
    unfold bind at 1. unfold bind at 1.
    rewrite get_props_from_metadata_run. unfold ret at 1.
    match goal with
    | |- context [for_fold items ?a ?f ?st] =>
        destruct (IH a st) as (s' & out & -> & Hs & Hl)
    end.
    exists s', out. split; [reflexivity|]. simpl in Hs, Hl. auto.
Qed.

Lemma len_check_same {A B : Type} (x : list A) (y : list B) x_name y_name s :
  List.length x = List.length y ->
  _len_check_if_sized x y x_name y_name s = (s, inr tt).
Proof.
  intros H. unfold _len_check_if_sized. rewrite H, Nat.eqb_refl. reflexivity.
Qed.

(** C4, at the failing input.  When the store answers the batched add with
    its storage-capacity error, [add_batch] sends nothing more: the window
    is computed from the number of commands, which is always 1, so its half
    is 0, [range] raises, and the add fails with a message that advises a
    batch size below 1.  No retry with a halved batch takes place. *)
Theorem out_of_journal_space_is_never_retried
    (client : list Call -> list Value -> list Blob -> Reply)
    (collection_name : string) (texts : list string)
    (embeddings : list (list Float)) (metadatas : list Dict) (ids : list string)
    (d : Dict) (info : string) (blobs : list Blob) (s : Store) :
  List.length texts = List.length embeddings ->
  List.length texts = List.length metadatas ->
  List.length texts = List.length ids ->
  (forall all_queries all_blobs,
      client (sent s) all_queries all_blobs = ([VDict d], blobs)) ->
  dict_has "AddDescriptor" d = false ->
  dict_has "FindDescriptor" d = false ->
  dict_lookup "info" d = Some (VStr info) ->
  str_contains "OutOfJournalSpace" info = true ->
  exists s' query blob,
    add_batch client collection_name texts embeddings (Some metadatas) ids s
    = (s', inl (ValueError "Lower batch_size to < 1 and rerun"))
    /\ sent s' = sent s ++ [([query], [blob])].
Proof.
  intros H1 H2 H3 Hc Hadd Hfind Hinfo Hfull.
  unfold add_batch.
  unfold bind at 1. rewrite (len_check_same texts embeddings _ _ s H1).
  unfold bind at 1. rewrite (len_check_same texts metadatas _ _ s H2).
  unfold bind at 1. rewrite (len_check_same texts ids _ _ s H3).
  unfold bind at 1.
  destruct (properties_loop_keeps_calls (zip4 metadatas embeddings texts ids)
              ([], [], None) s)
    as (s1 & [[extended_emb batch_properties] emb] & -> & Hs1 & _).
  cbn [embedding2bytes].
  set (query := add_descriptor "AddDescriptor" collection_name None None
                  (VList batch_properties) VNone None VNone VNone).
  assert (Hrun :
            run_vdms_query client [query] [BytesOfEmb extended_emb] s1
            = (with_call s1 [query] [BytesOfEmb extended_emb],
               inr ([VDict d], blobs))).
  { unfold run_vdms_query.
    specialize (Hc [query] [BytesOfEmb extended_emb]). rewrite <- Hs1 in Hc.
    rewrite Hc. unfold check_valid_response.
    assert (Hq : get_cmds_from_query [query] = inr ["AddDescriptor"]) by reflexivity.
    rewrite Hq.
    cbn [res_bind any_returned py_first py_contains res_map keep_entities_with_id].
    rewrite Hadd, Hfind. reflexivity. }
  unfold bind at 1. rewrite Hrun.
  unfold try_except at 1. unfold lift at 1.
  unfold ids_if_added. cbn [py_first res_bind py_getitem].
  assert (Hnone : dict_lookup "AddDescriptor" d = None).
  { unfold dict_has in Hadd. destruct (dict_lookup "AddDescriptor" d); congruence. }
  rewrite Hnone. cbn [res_bind].
  unfold bind at 1. unfold lift at 1. cbn [py_first].
  unfold bind at 1. unfold lift at 1. cbn [py_getitem]. rewrite Hinfo.
  unfold bind at 1. unfold lift at 1. cbn [py_contains]. rewrite Hfull.
  unfold bind at 1. unfold try_except at 1.
  destruct (resend_in_halves_never_sends client query [BytesOfEmb extended_emb] emb
              [VDict d] (with_call s1 [query] [BytesOfEmb extended_emb]))
    as [e ->].
  unfold raise.
  eexists. exists query, (BytesOfEmb extended_emb).
  split; [reflexivity|]. simpl. now rewrite Hs1.
Qed.

Lemma out_of_journal_space_is_never_retried_witness :
  exists s' query blob,
    add_batch journal_full_client DEFAULT_COLLECTION_NAME ["foo"; "thud"]
      [[Fin 1; Fin 0]; [Fin 0; Fin 1]]
      (Some [[("baz", VStr "bar")]; [("bar", VStr "baz")]]) ["1"; "2"] sample_store
    = (s', inl (ValueError "Lower batch_size to < 1 and rerun"))
    /\ sent s' = sent sample_store ++ [([query], [blob])].
Proof.
  apply (out_of_journal_space_is_never_retried journal_full_client
           DEFAULT_COLLECTION_NAME ["foo"; "thud"] [[Fin 1; Fin 0]; [Fin 0; Fin 1]]
           [[("baz", VStr "bar")]; [("bar", VStr "baz")]] ["1"; "2"]
           [("FailedCommand", VStr "AddDescriptor");
            ("info", VStr "OutOfJournalSpace");
            ("status", VInt (-1))]
           "OutOfJournalSpace" [] sample_store);
    reflexivity.
Defined.

(** ** Failed commands at query time *)

Lemma get_k_candidates_failed client setname k results all_blobs res blobs s :
  (forall all_queries bs, client (sent s) all_queries bs = ([res], blobs)) ->
  reports_failure res ->
  exists query,
    get_k_candidates client setname k results all_blobs s
    = (with_call s [query] all_blobs, inr ([], [])).
Proof.
  intros Hc (d & -> & Hfailed & Hfind).
  unfold get_k_candidates.
  set (query := add_descriptor "FindDescriptor" setname None None VNone VNone k
                  VNone results).
  exists query.
  assert (Hq : get_cmds_from_query [query] = inr ["FindDescriptor"]) by reflexivity.
  unfold bind at 1. unfold run_vdms_query. rewrite Hc.
  unfold check_valid_response. rewrite Hq.
  cbn [res_bind any_returned py_first py_contains res_map keep_entities_with_id].
  rewrite Hfind. cbn [res_bind].
  unfold bind, lift. cbn [py_first py_contains]. rewrite Hfailed.
  reflexivity.
Qed.

(** What [query_by_embeddings] returns for one query vector, without filter
    and without normalisation, when the store fails the command: one empty
    result, after the two records of its [except] branch. *)
Lemma query_by_embeddings_failed client embedding collection_name k fetch_k
    results include res blobs s :
  updated_properties_flag s = false ->
  (k < fetch_k)%Z ->
  (forall all_queries bs, client (sent s) all_queries bs = ([res], blobs)) ->
  reports_failure res ->
  exists s',
    query_by_embeddings client (Some [embedding]) collection_name k fetch_k VNone
      results false include s
    = (s', inr [([], [])])
    /\ logged s'
       = logged s ++ [(INFO, "Exception[in query_by_embeddings]");
                      (INFO, "Returning 0 results")].
Proof.
  intros Hf Hlt Hc Hres. unfold query_by_embeddings.
  unfold bind at 1. rewrite (check_and_update_properties_idle client s Hf).
  unfold bind at 1.
  assert (Hname : exists name,
             match collection_name with
             | Some n => ret n
             | None => get_collection_name
             end s = (s, inr name)).
  { destruct collection_name; unfold ret, get_collection_name; eauto. }
  destruct Hname as [name ->].
  unfold bind at 1. unfold get_collection_properties at 1.
  unfold bind at 1. cbn [for_fold].
  unfold bind at 1. unfold bind at 1. unfold query_one. unfold bind at 1.
  destruct (Z.geb_spec fetch_k k) as [_|Hlt']; [|lia].
  unfold get_descriptor_response.
  destruct (Z.geb_spec k fetch_k) as [Hge|_]; [lia|].
  cbn [is_None]. unfold bind at 1. unfold bind at 1.
  unfold nearest_unconstrained. unfold bind at 1.
  match goal with
  | |- context [get_k_candidates client name (Some fetch_k) ?r ?b s] =>
      destruct (get_k_candidates_failed client name (Some fetch_k) r b res blobs s
                  Hc Hres) as [query ->]
  end.
  eexists. split; [reflexivity|]. simpl. now rewrite <- app_assoc.
Qed.

(** C5, at the failing input.  The store fails the nearest-neighbour
    command.  [query_by_embeddings] turns the failure into one empty result,
    and [similarity_search_with_score] returns the empty list after a
    warning; but [similarity_search_by_vector] indexes the empty response
    under a handler for [ValueError] only, so [IndexError] reaches the
    caller. *)
Theorem failed_query_escapes_similarity_search
    (client : list Call -> list Value -> list Blob -> Reply)
    (embedding : list Float) (k fetch_k : Z) (kwargs : SearchKwargs)
    (res : Value) (blobs : list Blob) (query : string) (s : Store) :
  updated_properties_flag s = false ->
  (k < fetch_k)%Z ->
  kw_normalize_distance kwargs = false ->
  (forall all_queries bs, client (sent s) all_queries bs = ([res], blobs)) ->
  reports_failure res ->
  (exists s',
      similarity_search_by_vector client embedding k fetch_k VNone kwargs s
      = (s', inl IndexError))
  /\ (exists s',
         similarity_search_with_score client (fun _ => inr embedding) query
           k fetch_k VNone kwargs s
         = (s', inr [])
         /\ In (WARNING, "No results returned. Error while parsing results")
              (logged s')).
Proof.
  intros Hf Hlt Hnorm Hc Hres.
  destruct (query_by_embeddings_failed client embedding (kw_collection_name kwargs)
              k fetch_k (kw_results kwargs) (kw_include kwargs) res blobs s
              Hf Hlt Hc Hres) as (s1 & Hq & Hlog).
  split.
  - unfold similarity_search_by_vector. rewrite Hnorm.
    unfold bind at 1. rewrite Hq.
    eexists. reflexivity.
  - unfold similarity_search_with_score. rewrite Hnorm.
    unfold bind at 1. unfold lift at 1.
    unfold bind at 1. rewrite Hq.
    eexists. split; [reflexivity|].
    simpl. apply in_or_app. right. left. reflexivity.
Qed.

Lemma failed_query_escapes_similarity_search_witness :
  (exists s',
      similarity_search_by_vector failing_client [Fin 1; Fin 0] 3 15 VNone no_kwargs
        sample_store
      = (s', inl IndexError))
  /\ (exists s',
         similarity_search_with_score failing_client (fun _ => inr [Fin 1; Fin 0])
           "thud" 3 15 VNone no_kwargs sample_store
         = (s', inr [])
         /\ In (WARNING, "No results returned. Error while parsing results")
              (logged s')).
Proof.
  apply (failed_query_escapes_similarity_search failing_client [Fin 1; Fin 0] 3 15
           no_kwargs failed_command [] "thud" sample_store).
  - reflexivity.
  - lia.
  - reflexivity.
  - reflexivity.
  - eexists. split; [reflexivity|]. split; reflexivity.
Defined.

(** * More properties of the engine *)

(** ** Result projection, entry by entry *)

Lemma dict_lookup_remove k k' d :
  dict_lookup k (dict_remove k' d)
  = if String.eqb k' k then None else dict_lookup k d.
Proof.
  unfold dict_remove. induction d as [|[k0 v0] d IH]; simpl.
  - destruct (String.eqb k' k); reflexivity.
  - destruct (String.eqb k' k0) eqn:E0; simpl.
    + apply String.eqb_eq in E0. subst k0. rewrite IH.
      rewrite (String.eqb_sym k k').
      destruct (String.eqb k' k); reflexivity.
    + rewrite IH. destruct (String.eqb k k0) eqn:E1.
      * apply String.eqb_eq in E1. subst k0. rewrite E0. reflexivity.
      * reflexivity.
Qed.

Lemma valid_metadata_lookup items k :
  NoDup (dict_keys items) ->
  dict_lookup k (valid_metadata items)
  = match dict_lookup k items with
    | Some v => if kept_entry (k, v) then Some v else None
    | None => None
    end.
Proof.
  intros Hnd. unfold valid_metadata.
  rewrite (metadata_fold_lookup items [] k Hnd); [reflexivity|].
  intros; reflexivity.
Qed.

(** X1. [descriptor2document] on a record that it turns into a document:
    the record's content is a text and is the page content; the id is the
    record's identity as a document shows it (a text as it is, a number as
    the text that Python prints for it), or [None] when the identity is
    absent or a sentinel, so that the id is [None] or a text; and the
    metadata holds exactly the record's other entries whose key is not
    reserved and whose value is not a sentinel, each with the value the
    record has. *)
Theorem descriptor2document_keeps_ordinary_entries (d : Dict) (doc : Document) :
  NoDup (dict_keys d) ->
  descriptor2document (VDict d) = inr doc ->
  (exists t,
     dict_lookup TEXT_PROPERTY d = Some (VStr t) /\ page_content doc = VStr t)
  /\ doc_id doc
     = match dict_lookup LANGCHAIN_ID_PROPERTY d with
       | Some v => if in_INVALID_METADATA_VALUE v then VNone else shown_id v
       | None => VNone
       end
  /\ (doc_id doc = VNone \/ exists i, doc_id doc = VStr i)
  /\ forall k,
       dict_lookup k (metadata doc)
       = if String.eqb k LANGCHAIN_ID_PROPERTY || str_in k INVALID_DOC_METADATA_KEYS
         then None
         else match dict_lookup k d with
              | Some v => if in_INVALID_METADATA_VALUE v then None else Some v
              | None => None
              end.
Proof.
  intros Hnd H. unfold descriptor2document in H. cbn [py_items res_bind py_getitem] in H.
  destruct (dict_lookup TEXT_PROPERTY d) as [t|] eqn:Ht; [|discriminate].
  cbn [res_bind] in H.
  apply new_Document_spec in H. destruct H as ((t' & ->) & Hid & ->).
  cbn [page_content doc_id metadata].
  split; [exists t'; split; reflexivity|]. split; [|split].
  - rewrite (valid_metadata_lookup d LANGCHAIN_ID_PROPERTY Hnd).
    destruct (dict_lookup LANGCHAIN_ID_PROPERTY d) as [v|]; [|reflexivity].
    unfold kept_entry. cbn [fst snd].
    change (str_in LANGCHAIN_ID_PROPERTY INVALID_DOC_METADATA_KEYS) with false.
    cbn [negb andb]. destruct (in_INVALID_METADATA_VALUE v); reflexivity.
  - destruct Hid as [->|[(i & ->)|[(z & ->)|(x & ->)]]]; cbn [shown_id]; eauto.
  - intros k. rewrite dict_lookup_remove.
    rewrite (String.eqb_sym LANGCHAIN_ID_PROPERTY k).
    destruct (String.eqb k LANGCHAIN_ID_PROPERTY); [reflexivity|].
    cbn [orb]. rewrite (valid_metadata_lookup d k Hnd).
    destruct (dict_lookup k d) as [v|].
    + unfold kept_entry. cbn [fst snd].
      destruct (str_in k INVALID_DOC_METADATA_KEYS); [reflexivity|].
      cbn [negb andb]. destruct (in_INVALID_METADATA_VALUE v); reflexivity.
    + destruct (str_in k INVALID_DOC_METADATA_KEYS); reflexivity.
Qed.

Lemma descriptor2document_keeps_ordinary_entries_witness :
  let d :=
    [("_distance", VNum (Fin (1 # 4))); (LANGCHAIN_ID_PROPERTY, VInt 5);
     (TEXT_PROPERTY, VStr "foo"); ("baz", VStr "bar"); ("blob", VStr "AAAA");
     ("source", VStr "Missing property"); ("page", VNone); ("tags", VDict [])] in
  let doc := mkDocument (VStr "foo") [("baz", VStr "bar")] (VStr "5") in
  descriptor2document (VDict d) = inr doc
  /\ (exists t,
        dict_lookup TEXT_PROPERTY d = Some (VStr t) /\ page_content doc = VStr t)
  /\ doc_id doc
     = match dict_lookup LANGCHAIN_ID_PROPERTY d with
       | Some v => if in_INVALID_METADATA_VALUE v then VNone else shown_id v
       | None => VNone
       end
  /\ (doc_id doc = VNone \/ exists i, doc_id doc = VStr i)
  /\ forall k,
       dict_lookup k (metadata doc)
       = if String.eqb k LANGCHAIN_ID_PROPERTY || str_in k INVALID_DOC_METADATA_KEYS
         then None
         else match dict_lookup k d with
              | Some v => if in_INVALID_METADATA_VALUE v then None else Some v
              | None => None
              end.
Proof.
  intros d doc. split; [reflexivity|].
  apply (descriptor2document_keeps_ordinary_entries d doc).
  - unfold d. solve_NoDup.
  - reflexivity.
Defined.

(** ** The identity that a projected record gets *)

Lemma lacks_identity_valid_metadata d :
  NoDup (dict_keys d) ->
  match dict_lookup LANGCHAIN_ID_PROPERTY d with
  | Some v => in_INVALID_METADATA_VALUE v = true
  | None => True
  end ->
  dict_lookup LANGCHAIN_ID_PROPERTY (valid_metadata d) = None.
Proof.
  intros Hnd H. rewrite (valid_metadata_lookup d LANGCHAIN_ID_PROPERTY Hnd).
  destruct (dict_lookup LANGCHAIN_ID_PROPERTY d) as [v|]; [|reflexivity].
  unfold kept_entry. cbn [fst snd]. rewrite H.
  rewrite andb_false_r. reflexivity.
Qed.

Lemma project_entity_identity ent d0 doc x d1 :
  project_entity ent d0 = inr ((doc, x), d1) ->
  exists raw,
    d1 = Some raw /\ doc_id doc = shown_id raw
    /\ (lacks_identity ent -> d0 = Some raw).
Proof.
  intros H. unfold project_entity in H.
  destruct ent as [| | | | | |d]; try discriminate.
  cbn [py_getitem py_items res_bind] in H.
  destruct (dict_lookup "_distance" d) as [raw|]; [|discriminate].
  cbn [res_bind] in H.
  destruct (py_float raw) as [e|y]; [discriminate|].
  cbn [res_bind] in H.
  destruct (dict_lookup TEXT_PROPERTY d) as [t|]; [|discriminate].
  cbn [res_bind] in H.
  destruct (dict_lookup LANGCHAIN_ID_PROPERTY (valid_metadata d)) as [v|] eqn:Hid.
  - destruct (new_Document _ _ v) as [e|doc'] eqn:Edoc; [discriminate|].
    cbn [res_bind] in H. injection H as <- <- <-.
    apply new_Document_spec in Edoc. destruct Edoc as (_ & _ & ->).
    exists v. split; [reflexivity|]. split; [reflexivity|].
    intros (d' & Hd' & Hnd & Hl). injection Hd' as <-.
    rewrite (lacks_identity_valid_metadata d Hnd Hl) in Hid. discriminate.
  - destruct d0 as [i|]; [|discriminate].
    destruct (new_Document _ _ i) as [e|doc'] eqn:Edoc; [discriminate|].
    cbn [res_bind] in H. injection H as <- <- <-.
    apply new_Document_spec in Edoc. destruct Edoc as (_ & _ & ->).
    exists i. split; [reflexivity|]. split; intros; reflexivity.
Qed.

Lemma project_entities_chain ents : forall acc d out e,
  project_entities ents acc d = (out, e) ->
  exists new,
    out = acc ++ new
    /\ forall j item,
         nth_error new j = Some item ->
         exists ent d_in d_out,
           nth_error ents j = Some ent
           /\ project_entity ent d_in = inr (item, d_out)
           /\ match j with
              | O => d_in = d
              | S j' =>
                  exists previous raw,
                    nth_error new j' = Some previous
                    /\ doc_id (fst previous) = shown_id raw
                    /\ d_in = Some raw
              end.
Proof.
  induction ents as [|ent rest IH]; intros acc d out e H; simpl in H.
  - injection H as <- <-. exists []. split; [symmetry; apply app_nil_r|].
    intros [|j] item Hn; discriminate.
  - destruct (project_entity ent d) as [err|[item d']] eqn:Hp.
    + injection H as <- <-. exists []. split; [symmetry; apply app_nil_r|].
      intros [|j] it Hn; discriminate.
    + destruct (IH _ _ _ _ H) as (new' & Hout & Hch).
      exists (item :: new'). split.
      * rewrite Hout, <- app_assoc. reflexivity.
      * intros [|j] it Hn.
        -- injection Hn as <-. exists ent, d, d'.
           split; [reflexivity|]. split; [exact Hp|reflexivity].
        -- simpl in Hn. destruct (Hch j it Hn) as (ent' & d_in & d_out & He & Hq & Hj).
           exists ent', d_in, d_out. split; [exact He|]. split; [exact Hq|].
           destruct j as [|j'].
           ++ destruct item as [doc0 x0].
              destruct (project_entity_identity _ _ _ _ _ Hp) as (raw & Hd' & Hshown & _).
              exists (doc0, x0), raw. split; [reflexivity|].
              split; [exact Hshown|]. rewrite Hj. exact Hd'.
           ++ exact Hj.
Qed.

Lemma returned_projection results s :
  returned (results2documents_and_scores results s) = fst (parse_results results).
Proof.
  unfold results2documents_and_scores, returned.
  destruct (parse_results results) as [final [e|]]; reflexivity.
Qed.

(** X2. In [results2documents_and_scores] a record whose identity is
    absent or a sentinel is given the id of the record before it: the local
    [d_id] keeps its value from the turn before. *)
Theorem record_without_identity_takes_previous_id
    (results : list SearchResult) (s : Store) (ents : list Value) (i : nat)
    (ent : Value) (previous doc : Document) (previous_score score : Float) :
  entities_of_results results = inr ents ->
  nth_error ents (S i) = Some ent ->
  lacks_identity ent ->
  nth_error (returned (results2documents_and_scores results s)) i
  = Some (previous, previous_score) ->
  nth_error (returned (results2documents_and_scores results s)) (S i)
  = Some (doc, score) ->
  doc_id doc = doc_id previous.
Proof.
  intros Hents Hent Hlack Hprev Hdoc.
  rewrite returned_projection in Hprev, Hdoc.
  unfold parse_results in Hprev, Hdoc. rewrite Hents in Hprev, Hdoc.
  destruct (project_entities ents [] None) as [out e] eqn:Hp.
  destruct (project_entities_chain _ _ _ _ _ Hp) as (new & Hout & Hch).
  simpl in Hout. subst out. cbn [fst] in Hprev, Hdoc.
  destruct (Hch (S i) (doc, score) Hdoc)
    as (ent' & d_in & d_out & He & Hq & (prev & raw & Hp' & Hshown & ->)).
  rewrite Hent in He. injection He as <-.
  rewrite Hprev in Hp'. injection Hp' as <-. cbn [fst] in Hshown.
  destruct (project_entity_identity _ _ _ _ _ Hq) as (raw' & _ & Hdoc' & Hd0).
  specialize (Hd0 Hlack). injection Hd0 as ->.
  rewrite Hdoc', Hshown. reflexivity.
Qed.

Lemma record_without_identity_takes_previous_id_witness :
  let unidentified :=
    VDict [("_distance", VNum (Fin (1 # 5))); (TEXT_PROPERTY, VStr "thud")] in
  returned (results2documents_and_scores
              (results_listing [record_foo; unidentified]) sample_store)
  = [(mkDocument (VStr "foo") [] (VStr "1"), Fin (1 # 10));
     (mkDocument (VStr "thud") [] (VStr "1"), Fin (1 # 5))]
  /\ doc_id (mkDocument (VStr "thud") [] (VStr "1"))
     = doc_id (mkDocument (VStr "foo") [] (VStr "1")).
Proof.
  intros unidentified. split; [reflexivity|].
  apply (record_without_identity_takes_previous_id
           (results_listing [record_foo; unidentified]) sample_store
           [record_foo; unidentified] 0 unidentified
           (mkDocument (VStr "foo") [] (VStr "1"))
           (mkDocument (VStr "thud") [] (VStr "1"))
           (Fin (1 # 10)) (Fin (1 # 5))).
  - reflexivity.
  - reflexivity.
  - exists [("_distance", VNum (Fin (1 # 5))); (TEXT_PROPERTY, VStr "thud")].
    split; [reflexivity|]. split; [solve_NoDup|exact I].
  - reflexivity.
  - reflexivity.
Defined.

(** X3. When the first record of a result lacks the identity,
    [results2documents_and_scores] returns no document at all, whatever the
    records after it, and logs one warning: the unbound local [d_id] ends
    the loop at its first turn. *)
Theorem first_record_without_identity_empties_result
    (results : list SearchResult) (ent : Value) (rest : list Value) (s : Store) :
  entities_of_results results = inr (ent :: rest) ->
  lacks_identity ent ->
  results2documents_and_scores results s
  = (with_log s WARNING "No results returned. Error while parsing results", inr []).
Proof.
  intros Hents Hlack.
  unfold results2documents_and_scores, parse_results. rewrite Hents.
  cbn [project_entities].
  destruct (project_entity ent None) as [e|[[doc x] d1]] eqn:Hp.
  - reflexivity.
  - destruct (project_entity_identity _ _ _ _ _ Hp) as (raw & _ & _ & Hd0).
    specialize (Hd0 Hlack). discriminate.
Qed.

Lemma first_record_without_identity_empties_result_witness :
  results2documents_and_scores
    (results_listing
       [VDict [("_distance", VNum (Fin (1 # 5)));
               (LANGCHAIN_ID_PROPERTY, VStr "Missing property");
               (TEXT_PROPERTY, VStr "thud")];
        record_foo])
    sample_store
  = (with_log sample_store WARNING "No results returned. Error while parsing results",
     inr []).
Proof.
  apply (first_record_without_identity_empties_result
           (results_listing
              [VDict [("_distance", VNum (Fin (1 # 5)));
                      (LANGCHAIN_ID_PROPERTY, VStr "Missing property");
                      (TEXT_PROPERTY, VStr "thud")];
               record_foo])
           (VDict [("_distance", VNum (Fin (1 # 5)));
                   (LANGCHAIN_ID_PROPERTY, VStr "Missing property");
                   (TEXT_PROPERTY, VStr "thud")])
           [record_foo] sample_store).
  - reflexivity.
  - exists [("_distance", VNum (Fin (1 # 5)));
            (LANGCHAIN_ID_PROPERTY, VStr "Missing property");
            (TEXT_PROPERTY, VStr "thud")].
    split; [reflexivity|]. split; [solve_NoDup|reflexivity].
Defined.

(** ** The properties of an added item *)

Lemma dict_set_keys_In k v d k' :
  In k' (dict_keys (dict_set k v d)) <-> k' = k \/ In k' (dict_keys d).
Proof.
  unfold dict_keys. induction d as [|[k0 v0] d IH]; simpl.
  - intuition.
  - destruct (String.eqb k k0) eqn:E; simpl.
    + apply String.eqb_eq in E. subst k0. intuition.
    + rewrite IH. intuition.
Qed.

Lemma dict_set_keys_NoDup k v d :
  NoDup (dict_keys d) -> NoDup (dict_keys (dict_set k v d)).
Proof.
  induction d as [|[k0 v0] d IH]; simpl; intros Hnd.
  - constructor; [intros []|constructor].
  - destruct (String.eqb k k0) eqn:E; simpl.
    + exact Hnd.
    + inversion Hnd as [|? ? Hnotin Hnd']; subst.
      constructor; [|apply IH; exact Hnd'].
      intros Hin. apply dict_set_keys_In in Hin. destruct Hin as [->|Hin].
      * rewrite String.eqb_refl in E. discriminate.
      * apply Hnotin. exact Hin.
Qed.

Lemma dict_has_lookup k d :
  dict_has k d = match dict_lookup k d with Some _ => true | None => false end.
Proof. reflexivity. Qed.

Lemma props_fold_lookup (md : Dict) : forall (acc : Dict) k,
  dict_lookup k
    (fold_left
       (fun (props : Dict) (kv : string * Value) =>
          if negb (dict_has (fst kv) props)
          then dict_set (fst kv) (snd kv) props else props)
       md acc)
  = match dict_lookup k acc with
    | Some v => Some v
    | None => dict_lookup k md
    end.
Proof.
  induction md as [|[k0 v0] md IH]; intros acc k; simpl.
  - destruct (dict_lookup k acc); reflexivity.
  - rewrite IH. unfold dict_has.
    destruct (dict_lookup k0 acc) as [w|] eqn:E0; cbn [negb].
    + destruct (dict_lookup k acc) as [v|] eqn:E; [reflexivity|].
      destruct (String.eqb k k0) eqn:Ek; [|reflexivity].
      apply String.eqb_eq in Ek. subst k0. rewrite E in E0. discriminate.
    + destruct (String.eqb k k0) eqn:Ek.
      * apply String.eqb_eq in Ek. subst k0.
        rewrite dict_lookup_set_same, E0. reflexivity.
      * rewrite dict_lookup_set_other;
          [reflexivity | intros ->; rewrite String.eqb_refl in Ek; discriminate].
Qed.

Lemma props_fold_NoDup (md : Dict) : forall acc : Dict,
  NoDup (dict_keys acc) ->
  NoDup (dict_keys
           (fold_left
              (fun (props : Dict) (kv : string * Value) =>
                 if negb (dict_has (fst kv) props)
                 then dict_set (fst kv) (snd kv) props else props)
              md acc)).
Proof.
  induction md as [|[k0 v0] md IH]; intros acc Hnd; simpl.
  - exact Hnd.
  - apply IH. destruct (negb (dict_has k0 acc)); [|exact Hnd].
    apply dict_set_keys_NoDup. exact Hnd.
Qed.

Lemma props_of_NoDup document metadata id :
  NoDup (dict_keys (props_of document metadata id)).
Proof.
  assert (H0 : NoDup (dict_keys
                        match id with
                        | None => []
                        | Some i => [(LANGCHAIN_ID_PROPERTY, VStr i)]
                        end)).
  { destruct id; simpl; [constructor; [intros []|]|]; constructor. }
  unfold props_of.
  match goal with
  | |- NoDup (dict_keys (if _ then dict_set _ _ ?p else ?p)) =>
      assert (Hp : NoDup (dict_keys p))
  end.
  { destruct metadata as [[|kv md]|]; try exact H0.
    match goal with
    | |- NoDup (dict_keys match _ with Some _ => if _ then dict_set _ _ ?p else ?p
                                     | None => ?p end) =>
        assert (Hf : NoDup (dict_keys p)) by (apply props_fold_NoDup; exact H0)
    end.
    destruct (dict_lookup "id" (kv :: md)); [|exact Hf].
    match goal with |- context [if ?c then _ else _] => destruct c end;
      [apply dict_set_keys_NoDup|]; exact Hf. }
  destruct (negb (String.eqb document "")); [apply dict_set_keys_NoDup|]; exact Hp.
Qed.

(** X4. The identity that [get_props_from_metadata] gives an item: the
    explicit id when there is one, else the metadata's own [langchain_id]
    entry (as it is), else the text that [str] makes of the metadata's [id]
    entry, else none.  That text is the entry itself when it is a text,
    the digits of an integer, and for instance [7.0], [0.1], [True] and
    [[1, 'a']] for the float 7, the float 1/10, the boolean and the
    list. *)
Theorem identity_comes_from_id_then_metadata
    (document : string) (metadata : option Dict) (id : option string) :
  dict_lookup LANGCHAIN_ID_PROPERTY (props_of document metadata id)
  = match id with
    | Some i => Some (VStr i)
    | None =>
        match metadata with
        | Some md =>
            match dict_lookup LANGCHAIN_ID_PROPERTY md with
            | Some v => Some v
            | None => option_map (fun v => VStr (py_str v)) (dict_lookup "id" md)
            end
        | None => None
        end
    end
  /\ (forall t, py_str (VStr t) = t)
  /\ (forall z, py_str (VInt z) = str_of_Z z)
  /\ map (fun v => dict_lookup LANGCHAIN_ID_PROPERTY
                     (props_of document (Some [("id", v)]) None))
       [VInt 7; VNum (Fin (7 # 1)); VNum (Fin (1 # 10)); VBool true;
        VList [VInt 1; VStr "a"]]
     = map (fun t => Some (VStr t)) ["7"; "7.0"; "0.1"; "True"; "[1, 'a']"].
Proof.
  split; [|split; [reflexivity|split; [reflexivity|]]].
  2: { destruct (String.eqb document "") eqn:E;
         unfold props_of; rewrite E; vm_compute; reflexivity. }
  unfold props_of.
  match goal with
  | |- dict_lookup _ (if ?c then dict_set _ _ ?p else ?p) = _ =>
      transitivity (dict_lookup LANGCHAIN_ID_PROPERTY p);
        [destruct c; [apply dict_lookup_set_other; discriminate | reflexivity]|]
  end.
  destruct metadata as [[|kv md]|].
  - destruct id; reflexivity.
  - set (m := kv :: md).
    match goal with
    | |- dict_lookup _ match _ with Some _ => if _ then dict_set _ _ ?p else ?p
                                  | None => ?p end = _ =>
        assert (Hf : dict_lookup LANGCHAIN_ID_PROPERTY p
                     = match id with
                       | Some i => Some (VStr i)
                       | None => dict_lookup LANGCHAIN_ID_PROPERTY m
                       end)
          by (rewrite props_fold_lookup; destruct id; reflexivity);
        set (folded := p) in *
    end.
    unfold dict_has.
    destruct (dict_lookup "id" m) as [w|].
    + destruct (dict_lookup LANGCHAIN_ID_PROPERTY folded) as [u|] eqn:Hu; cbn [negb].
      * rewrite Hu. destruct id; [exact Hf|].
        rewrite <- Hf. reflexivity.
      * rewrite dict_lookup_set_same.
        destruct id; [discriminate|]. rewrite <- Hf. reflexivity.
    + rewrite Hf. destruct id; [reflexivity|].
      destruct (dict_lookup LANGCHAIN_ID_PROPERTY m); reflexivity.
  - destruct id; reflexivity.
Qed.

Lemma props_of_lookup_explicit_id document metadata i :
  dict_lookup LANGCHAIN_ID_PROPERTY (props_of document metadata (Some i))
  = Some (VStr i).
Proof.
  unfold props_of.
  match goal with
  | |- dict_lookup _ (if ?c then dict_set _ _ ?p else ?p) = _ =>
      transitivity (dict_lookup LANGCHAIN_ID_PROPERTY p);
        [destruct c; [apply dict_lookup_set_other; discriminate | reflexivity]|]
  end.
  destruct metadata as [[|kv md]|]; try reflexivity.
  set (m := kv :: md).
  match goal with
  | |- dict_lookup _ match _ with Some _ => if _ then dict_set _ _ ?p else ?p
                                | None => ?p end = _ =>
      assert (Hf : dict_lookup LANGCHAIN_ID_PROPERTY p = Some (VStr i))
        by (rewrite props_fold_lookup; reflexivity);
      set (folded := p) in *
  end.
  unfold dict_has. rewrite Hf. cbn [negb].
  destruct (dict_lookup "id" m); exact Hf.
Qed.

Lemma props_of_lookup_content document metadata id :
  document <> "" ->
  dict_lookup TEXT_PROPERTY (props_of document metadata id) = Some (VStr document).
Proof.
  intros Hdoc. unfold props_of.
  destruct (String.eqb document "") eqn:E.
  - apply String.eqb_eq in E. contradiction.
  - cbn [negb]. apply dict_lookup_set_same.
Qed.

Lemma props_of_lookup_other document md id k :
  k <> LANGCHAIN_ID_PROPERTY ->
  k <> TEXT_PROPERTY ->
  dict_lookup k (props_of document (Some md) id) = dict_lookup k md.
Proof.
  intros Hid Htxt. unfold props_of.
  match goal with
  | |- dict_lookup _ (if ?c then dict_set _ _ ?p else ?p) = _ =>
      transitivity (dict_lookup k p);
        [destruct c; [apply dict_lookup_set_other; exact Htxt | reflexivity]|]
  end.
  assert (H0 : dict_lookup k
                 match id with
                 | None => []
                 | Some i => [(LANGCHAIN_ID_PROPERTY, VStr i)]
                 end = None).
  { destruct id; [|reflexivity]. simpl.
    destruct (String.eqb k LANGCHAIN_ID_PROPERTY) eqn:E; [|reflexivity].
    apply String.eqb_eq in E. contradiction. }
  destruct md as [|kv md]; [exact H0|].
  set (m := kv :: md).
  match goal with
  | |- dict_lookup _ match _ with Some _ => if _ then dict_set _ _ ?p else ?p
                                | None => ?p end = _ =>
      assert (Hf : dict_lookup k p = dict_lookup k m)
        by (rewrite props_fold_lookup, H0; reflexivity);
      set (folded := p) in *
  end.
  destruct (dict_lookup "id" m); [|exact Hf].
  destruct (negb (dict_has LANGCHAIN_ID_PROPERTY folded)); [|exact Hf].
  rewrite dict_lookup_set_other; [exact Hf|exact Hid].
Qed.

Lemma descriptor2document_on_dict d t :
  dict_lookup TEXT_PROPERTY d = Some t ->
  descriptor2document (VDict d)
  = new_Document t
      (dict_remove LANGCHAIN_ID_PROPERTY (valid_metadata d))
      match dict_lookup LANGCHAIN_ID_PROPERTY (valid_metadata d) with
      | Some v => v
      | None => VNone
      end.
Proof.
  intros Ht. unfold descriptor2document. cbn [py_items res_bind py_getitem].
  rewrite Ht. reflexivity.
Qed.

(** X5. What is written is what is read: the properties that
    [get_props_from_metadata] builds for an item with a text, metadata and
    an explicit id project back, through [descriptor2document], to a
    document with that text and that id, whose metadata holds the entries of
    the given metadata (reserved keys, the identity and sentinel values
    apart). *)
Theorem added_item_reads_back (document : string) (md : Dict) (id : string) :
  document <> "" ->
  id <> "Missing property" ->
  exists doc,
    descriptor2document (VDict (props_of document (Some md) (Some id))) = inr doc
    /\ page_content doc = VStr document
    /\ doc_id doc = VStr id
    /\ forall k,
         k <> LANGCHAIN_ID_PROPERTY ->
         str_in k INVALID_DOC_METADATA_KEYS = false ->
         dict_lookup k (metadata doc)
         = match dict_lookup k md with
           | Some v => if in_INVALID_METADATA_VALUE v then None else Some v
           | None => None
           end.
Proof.
  intros Hdoc Hid.
  set (props := props_of document (Some md) (Some id)).
  assert (Hnd : NoDup (dict_keys props)) by apply props_of_NoDup.
  assert (Hidl : dict_lookup LANGCHAIN_ID_PROPERTY (valid_metadata props)
                 = Some (VStr id)).
  { rewrite (valid_metadata_lookup props LANGCHAIN_ID_PROPERTY Hnd).
    unfold props. rewrite props_of_lookup_explicit_id.
    unfold kept_entry. cbn [fst snd].
    change (str_in LANGCHAIN_ID_PROPERTY INVALID_DOC_METADATA_KEYS) with false.
    cbn [negb andb in_INVALID_METADATA_VALUE].
    destruct (String.eqb id "Missing property") eqn:E; [|reflexivity].
    apply String.eqb_eq in E. contradiction. }
  eexists. split.
  { rewrite (descriptor2document_on_dict props (VStr document)
               (props_of_lookup_content document (Some md) (Some id) Hdoc)).
    rewrite Hidl. reflexivity. }
  cbn [page_content doc_id metadata]. split; [reflexivity|]. split; [reflexivity|].
  intros k Hk Hres.
  - rewrite dict_lookup_remove.
    destruct (String.eqb LANGCHAIN_ID_PROPERTY k) eqn:E.
    { apply String.eqb_eq in E. symmetry in E. contradiction. }
    rewrite (valid_metadata_lookup props k Hnd).
    unfold props. rewrite props_of_lookup_other; [|exact Hk|].
    + destruct (dict_lookup k md) as [v|]; [|reflexivity].
      unfold kept_entry. cbn [fst snd]. rewrite Hres. cbn [negb andb].
      destruct (in_INVALID_METADATA_VALUE v); reflexivity.
    + intros ->. discriminate.
Qed.

Lemma added_item_reads_back_witness :
  exists doc,
    descriptor2document
      (VDict (props_of "foo" (Some [("baz", VStr "bar"); ("page", VNone)]) (Some "1")))
    = inr doc
    /\ page_content doc = VStr "foo"
    /\ doc_id doc = VStr "1"
    /\ forall k,
         k <> LANGCHAIN_ID_PROPERTY ->
         str_in k INVALID_DOC_METADATA_KEYS = false ->
         dict_lookup k (metadata doc)
         = match dict_lookup k [("baz", VStr "bar"); ("page", VNone)] with
           | Some v => if in_INVALID_METADATA_VALUE v then None else Some v
           | None => None
           end.
Proof.
  apply (added_item_reads_back "foo" [("baz", VStr "bar"); ("page", VNone)] "1");
    discriminate.
Defined.

(** ** The registry of property names *)

Lemma string_app_nil_r (s : string) : (s ++ "")%string = s.
Proof. induction s as [|c s IH]; simpl; [reflexivity | rewrite IH; reflexivity]. Qed.

Lemma string_app_assoc (a b c : string) :
  ((a ++ b) ++ c)%string = (a ++ (b ++ c))%string.
Proof. induction a as [|x a IH]; simpl; [reflexivity | rewrite IH; reflexivity]. Qed.

Lemma str_split_comma_aux_field (s : string) : forall cur rest,
  comma_free s ->
  str_split_comma_aux cur (s ++ "," ++ rest) = (cur ++ s)%string :: str_split_comma_aux "" rest.
Proof.
  induction s as [|c s IH]; intros cur rest Hs.
  - simpl. rewrite string_app_nil_r. reflexivity.
  - assert (Hc : Ascii.eqb c ","%char = false).
    { destruct (Ascii.eqb c ","%char) eqn:E; [|reflexivity].
      apply Ascii.eqb_eq in E. subst c. exfalso. apply Hs. left. reflexivity. }
    assert (Hs' : comma_free s).
    { intros Hin. apply Hs. right. exact Hin. }
    cbn [append str_split_comma_aux]. rewrite Hc.
    rewrite (IH _ rest Hs'), string_app_assoc. reflexivity.
Qed.

Lemma str_split_comma_aux_last (s : string) : forall cur,
  comma_free s ->
  str_split_comma_aux cur s = [(cur ++ s)%string].
Proof.
  induction s as [|c s IH]; intros cur Hs.
  - simpl. rewrite string_app_nil_r. reflexivity.
  - assert (Hc : Ascii.eqb c ","%char = false).
    { destruct (Ascii.eqb c ","%char) eqn:E; [|reflexivity].
      apply Ascii.eqb_eq in E. subst c. exfalso. apply Hs. left. reflexivity. }
    assert (Hs' : comma_free s).
    { intros Hin. apply Hs. right. exact Hin. }
    cbn [str_split_comma_aux]. rewrite Hc.
    rewrite (IH _ Hs'), string_app_assoc. reflexivity.
Qed.

Lemma split_join_comma (l : list string) :
  Forall comma_free l ->
  str_split_comma (str_join "," l)
  = match l with
    | [] => [""]
    | _ => l
    end.
Proof.
  unfold str_split_comma. induction l as [|s l IH]; intros Hl.
  - reflexivity.
  - inversion Hl as [|? ? Hs Hl']; subst.
    destruct l as [|s2 l].
    + simpl. apply (str_split_comma_aux_last s "" Hs).
    + change (str_join "," (s :: s2 :: l))
        with (s ++ "," ++ str_join "," (s2 :: l))%string.
      rewrite (str_split_comma_aux_field s "" _ Hs).
      rewrite (IH Hl'). reflexivity.
Qed.

Lemma find_property_entity_cmds name unique_entity deletion :
  get_cmds_from_query [find_property_entity name unique_entity deletion]
  = inr ["FindEntity"].
Proof. reflexivity. Qed.

Lemma run_vdms_query_validates client all_queries all_blobs cmd_list response blobs s :
  get_cmds_from_query all_queries = inr cmd_list ->
  client (sent s) all_queries all_blobs = (response, blobs) ->
  response_validates response ->
  exists response',
    run_vdms_query client all_queries all_blobs s
    = (with_call s all_queries all_blobs, inr (response', blobs))
    /\ res_map keep_entities_with_id response = inr response'.
Proof.
  intros Hcmds Hreply [Hany [response' Hkeep]].
  destruct (Hany cmd_list) as [b Hb].
  exists response'. split; [|exact Hkeep].
  unfold run_vdms_query. rewrite Hreply.
  unfold check_valid_response. rewrite Hcmds. cbn [res_bind].
  rewrite Hb. cbn [res_bind]. rewrite Hkeep. reflexivity.
Qed.

(** X6. The registry of property names survives its encoding: when the
    store hands back the blob that [add_entity_with_blob] made of a list of
    comma-free names, [get_properties] returns that list, sorted.  The
    empty list is the exception: it is encoded as the empty text and read
    back as the one blank name. *)
Theorem stored_property_list_reads_back
    (client : list Call -> list Value -> list Blob -> Reply)
    (name stored_as : string) (props : list string) (unique_entity deletion : bool)
    (response : list Value) (s : Store) :
  Forall comma_free props ->
  response_validates response ->
  client (sent s) [find_property_entity name unique_entity deletion] []
  = (response, [snd (add_entity_with_blob stored_as props)]) ->
  get_properties client name unique_entity deletion s
  = (with_call s [find_property_entity name unique_entity deletion] [],
     inr (sort_strings
            match props with
            | [] => [""]
            | _ => props
            end)).
Proof.
  intros Hprops Hvalid Hreply.
  destruct (run_vdms_query_validates client _ _ _ _ _ s
              (find_property_entity_cmds name unique_entity deletion) Hreply Hvalid)
    as (response' & Hrun & _).
  unfold get_properties. unfold bind at 1. rewrite Hrun.
  cbn [add_entity_with_blob snd str2bytes].
  unfold bind, lift, ret. cbn [bytes2str].
  rewrite <- (split_join_comma props Hprops).
  destruct props as [|p props]; reflexivity.
Qed.

Lemma stored_property_list_reads_back_witness :
  get_properties
    (fun _ _ _ =>
       ([VDict [("FindEntity", VDict [("returned", VInt 1); ("status", VInt 0)])]],
        [snd (add_entity_with_blob "langchain" ["langchain_id"; "content"; "baz"])]))
    "langchain" false false sample_store
  = (with_call sample_store [find_property_entity "langchain" false false] [],
     inr (sort_strings ["langchain_id"; "content"; "baz"])).
Proof.
  apply (stored_property_list_reads_back _ "langchain" "langchain"
           ["langchain_id"; "content"; "baz"] false false
           [VDict [("FindEntity", VDict [("returned", VInt 1); ("status", VInt 0)])]]
           sample_store).
  - repeat (apply Forall_cons; [intros H; simpl in H; intuition discriminate|]).
    apply Forall_nil.
  - split.
    + intros cmd_list. induction cmd_list as [|cmd rest IH].
      * exists false. reflexivity.
      * destruct (String.eqb cmd "FindEntity") eqn:E.
        -- apply String.eqb_eq in E. subst cmd. exists true. reflexivity.
        -- cbn [any_returned py_first res_bind py_contains].
           unfold dict_has. cbn [dict_lookup]. rewrite E. exact IH.
    + eexists. reflexivity.
  - reflexivity.
Defined.

Lemma set_difference_In a b x :
  In x (set_difference a b) <-> In x a /\ ~ In x b.
Proof.
  unfold set_difference. rewrite dedup_In, filter_In, negb_true_iff.
  split; intros [H1 H2]; (split; [exact H1|]).
  - intros Hin. apply str_in_iff in Hin. congruence.
  - destruct (str_in x b) eqn:E; [|reflexivity].
    apply str_in_iff in E. contradiction.
Qed.

Lemma get_properties_sorted client name unique_entity deletion s s1 pushed :
  get_properties client name unique_entity deletion s = (s1, inr pushed) ->
  StronglySorted str_le pushed.
Proof.
  unfold get_properties. unfold bind at 1.
  destruct (run_vdms_query client _ _ s) as [s' [e|[response response_blob]]];
    [discriminate|].
  unfold bind at 1.
  destruct response_blob as [|blob rest].
  - unfold ret. intros H. injection H as _ <-. apply sort_strings_sorted.
  - unfold bind, lift. destruct (bytes2str blob) as [e|txt]; [discriminate|].
    unfold ret. intros H. injection H as _ <-. apply sort_strings_sorted.
Qed.

(** X7. [push_update_properties] with a property name known to the client
    that the store does not list: after the lookup exactly one more call is
    sent, which deletes the old registry entity and adds one whose text and
    blob hold the sorted union of the store's names and the client's; the
    blob travels wrapped in one more list; the flag that asks for a
    re-read is set and the client's own list is left as it was. *)
Theorem push_update_properties_pushes_missing
    (client : list Call -> list Value -> list Blob -> Reply)
    (name : string) (pushed : list string) (x : string) (s s1 : Store) :
  replies_validate client ->
  get_properties client name false false s = (s1, inr pushed) ->
  In x (collection_properties s) ->
  ~ In x pushed ->
  exists all s2,
    push_update_properties client name s = (s2, inr tt)
    /\ StronglySorted str_le all
    /\ (forall y, In y all <-> In y pushed \/ In y (collection_properties s))
    /\ sent s2
       = sent s
         ++ [([find_property_entity name false false], []);
             ([find_property_entity name false true;
               fst (add_entity_with_blob name all)],
              [ListOfBlobs [snd (add_entity_with_blob name all)]])]
    /\ updated_properties_flag s2 = true
    /\ collection_properties s2 = collection_properties s.
Proof.
  intros Hclient Hget Hx Hnx.
  set (missing := set_difference (collection_properties s) pushed).
  set (all := sort_strings (pushed ++ missing)).
  assert (Hs1 : s1 = with_call s [find_property_entity name false false] []).
  { rewrite <- (get_properties_store client name false false s), Hget. reflexivity. }
  assert (Hmissing : (0 <? List.length missing)%nat = true).
  { assert (Hin : In x missing) by (apply set_difference_In; split; assumption).
    destruct missing; [destruct Hin|reflexivity]. }
  assert (Hcmds : get_cmds_from_query
                    [find_property_entity name false true;
                     fst (add_entity_with_blob name all)]
                  = inr ["FindEntity"; "AddEntity"]) by reflexivity.
  destruct (run_vdms_query_validated client _
              [ListOfBlobs [snd (add_entity_with_blob name all)]] _ s1 Hclient Hcmds)
    as (response & response_array & Hrun & _).
  exists all. eexists. split; [|split; [|split]].
  - unfold push_update_properties. unfold bind at 1. rewrite Hget.
    unfold bind at 1. unfold get_collection_properties.
    replace (collection_properties s1) with (collection_properties s)
      by (rewrite Hs1; reflexivity).
    fold missing. rewrite Hmissing. fold all.
    cbn [build_property_query add_entity_with_blob].
    cbn [add_entity_with_blob fst snd] in Hrun.
    unfold bind. rewrite Hrun. unfold set_updated_properties_flag. reflexivity.
  - apply sort_strings_sorted.
  - intros y. unfold all.
    assert (Hperm : In y (sort_strings (pushed ++ missing)) <-> In y (pushed ++ missing)).
    { split; apply Permutation_in;
        [apply Permutation_sym|]; apply sort_strings_perm. }
    rewrite Hperm, in_app_iff. unfold missing. rewrite set_difference_In.
    split.
    + intros [H|[H _]]; [left|right]; exact H.
    + intros [H|H]; [left; exact H|].
      destruct (str_in y pushed) eqn:E.
      * left. apply str_in_iff. exact E.
      * right. split; [exact H|]. intros Hin. apply str_in_iff in Hin. congruence.
  - cbn [sent updated_properties_flag collection_properties with_call].
    rewrite Hs1. cbn [sent collection_properties with_call].
    rewrite <- app_assoc. repeat split.
Qed.

Lemma push_update_properties_pushes_missing_witness :
  let s :=
    mkStore DEFAULT_COLLECTION_NAME ["_distance"; "baz"; "content"; "langchain_id"]
      false [] [] in
  exists all s2,
    push_update_properties empty_store_client "langchain" s = (s2, inr tt)
    /\ StronglySorted str_le all
    /\ (forall y,
          In y all
          <-> In y (sort_strings DEFAULT_PROPERTIES) \/ In y (collection_properties s))
    /\ sent s2
       = sent s
         ++ [([find_property_entity "langchain" false false], []);
             ([find_property_entity "langchain" false true;
               fst (add_entity_with_blob "langchain" all)],
              [ListOfBlobs [snd (add_entity_with_blob "langchain" all)]])]
    /\ updated_properties_flag s2 = true
    /\ collection_properties s2 = collection_properties s.
Proof.
  intros s.
  apply (push_update_properties_pushes_missing empty_store_client "langchain"
           (sort_strings DEFAULT_PROPERTIES) "baz" s
           (with_call s [find_property_entity "langchain" false false] [])).
  - exact empty_store_client_validates.
  - reflexivity.
  - simpl. auto.
  - vm_compute. intuition discriminate.
Defined.

(** X8. [check_and_update_properties] after a push (the flag is set):
    one lookup is sent, the client's list of property names becomes the
    list the store returned - names known only to the client are
    dropped - and the flag is cleared. *)
Theorem check_and_update_properties_adopts_store_list
    (client : list Call -> list Value -> list Blob -> Reply)
    (pushed : list string) (s s1 : Store) :
  updated_properties_flag s = true ->
  get_properties client (collection_name s) false false s = (s1, inr pushed) ->
  exists s2,
    check_and_update_properties client s = (s2, inr tt)
    /\ collection_properties s2 = pushed
    /\ updated_properties_flag s2 = false
    /\ sent s2 = sent s ++ [([find_property_entity (collection_name s) false false], [])]
    /\ logged s2 = logged s.
Proof.
  intros Hflag Hget.
  assert (Hs1 : s1 = with_call s [find_property_entity (collection_name s) false false] []).
  { rewrite <- (get_properties_store client (collection_name s) false false s), Hget.
    reflexivity. }
  assert (Hsorted : sort_strings pushed = pushed).
  { apply sort_strings_sorted_id. exact (get_properties_sorted _ _ _ _ _ _ _ Hget). }
  unfold check_and_update_properties.
  unfold bind at 1. unfold get_updated_properties_flag. rewrite Hflag.
  unfold bind at 1. unfold get_collection_name.
  unfold bind at 1. rewrite Hget.
  unfold bind, get_collection_properties, set_collection_properties,
    set_updated_properties_flag, ret.
  cbn [collection_properties collection_name updated_properties_flag sent logged].
  rewrite Hsorted.
  destruct (list_eq_dec string_dec (sort_strings (collection_properties s1)) pushed)
    as [Heq|Hneq].
  - eexists. split; [reflexivity|].
    cbn [collection_properties updated_properties_flag sent logged].
    rewrite Hs1. cbn [collection_properties sent logged with_call].
    rewrite Hs1 in Heq. cbn [collection_properties with_call] in Heq.
    repeat split. exact Heq.
  - eexists. split; [reflexivity|].
    cbn [collection_properties updated_properties_flag sent logged].
    rewrite Hs1. cbn [collection_properties sent logged with_call].
    repeat split.
Qed.

Lemma check_and_update_properties_adopts_store_list_witness :
  let s :=
    mkStore DEFAULT_COLLECTION_NAME ["_distance"; "baz"; "content"; "langchain_id"]
      true [] [] in
  exists s2,
    check_and_update_properties empty_store_client s = (s2, inr tt)
    /\ collection_properties s2 = ["_distance"; "content"; "langchain_id"]
    /\ updated_properties_flag s2 = false
    /\ sent s2 = sent s ++ [([find_property_entity (collection_name s) false false], [])]
    /\ logged s2 = logged s.
Proof.
  intros s.
  apply (check_and_update_properties_adopts_store_list empty_store_client
           ["_distance"; "content"; "langchain_id"] s
           (with_call s [find_property_entity (collection_name s) false false] []));
    reflexivity.
Defined.

(** ** Unfiltered search *)

Lemma set_entities_found ents new_entities :
  set_entities [find_descriptor_result ents] "FindDescriptor" new_entities
  = inr [find_descriptor_result new_entities].
Proof. reflexivity. Qed.

Lemma nearest_unconstrained_found client setname k fetch_k results all_blobs
    ents blobs s :
  let query :=
    add_descriptor "FindDescriptor" setname None None VNone VNone (Some fetch_k)
      VNone results in
  client (sent s) [query] all_blobs = ([find_descriptor_result ents], blobs) ->
  Forall has_identity ents ->
  nearest_unconstrained client "FindDescriptor" setname k fetch_k results all_blobs s
  = (with_call s [query] all_blobs,
     inr ([find_descriptor_result (slice_to ents k)],
          slice_to blobs (Z.of_nat (List.length (slice_to ents k))))).
Proof.
  intros query Hreply Hids.
  unfold nearest_unconstrained. unfold bind at 1.
  rewrite (get_k_candidates_found client setname (Some fetch_k) results all_blobs
             ents blobs s Hreply Hids).
  reflexivity.
Qed.

Lemma get_descriptor_response_unconstrained client setname k fetch_k results
    query_embedding ents blobs shared s :
  let query :=
    add_descriptor "FindDescriptor" setname None None VNone VNone (Some fetch_k)
      VNone results in
  (k < fetch_k)%Z ->
  client (sent s) [query] (query_blobs query_embedding)
  = ([find_descriptor_result ents], blobs) ->
  Forall has_identity ents ->
  get_descriptor_response client "FindDescriptor" setname k fetch_k VNone results
    query_embedding false shared s
  = (with_call s [query] (query_blobs query_embedding),
     inr (([find_descriptor_result (slice_to ents k)],
           slice_to blobs (Z.of_nat (List.length (slice_to ents k)))), results)).
Proof.
  intros query Hk Hreply Hids.
  unfold get_descriptor_response.
  destruct (Z.geb_spec k fetch_k) as [Hge|_]; [lia|].
  cbn [is_None]. unfold bind at 1. unfold bind at 1.
  change (match embedding2bytes query_embedding with
          | Some blob => [blob]
          | None => []
          end) with (query_blobs query_embedding).
  rewrite (nearest_unconstrained_found client setname k fetch_k results _ ents blobs s
             Hreply Hids).
  reflexivity.
Qed.

(** ** Distance normalisation at its edges *)

Lemma finite_distances_all_infinite entities :
  Forall (fun ent => has_distance ent PInf) entities ->
  finite_distances entities = inr [].
Proof.
  intros H. unfold finite_distances.
  assert (Hread : res_map (fun ent => py_getitem ent "_distance") entities
                  = inr (map (fun _ => VNum PInf) entities)).
  { induction H as [|ent entities (d & -> & Hd) _ IH]; [reflexivity|].
    cbn [res_map py_getitem]. rewrite Hd. cbn [res_bind]. rewrite IH. reflexivity. }
  rewrite Hread. cbn [res_bind]. f_equal.
  clear. induction entities as [|ent entities IH]; [reflexivity|exact IH].
Qed.

(** X9. A normalised, unfiltered search whose kept neighbours hold no
    finite distance - in particular one that finds no neighbour at all, as on
    an empty collection - raises [ValueError]: [max] is applied to an empty
    list outside every [try]. *)
Theorem normalized_search_without_finite_distance_raises
    (client : list Call -> list Value -> list Blob -> Reply)
    (setname : string) (k fetch_k : Z) (results : Value)
    (query_embedding : option (list Float)) (ents : list Value)
    (blobs : list Blob) (shared : bool) (s : Store) :
  let query :=
    add_descriptor "FindDescriptor" setname None None VNone VNone (Some fetch_k)
      VNone results in
  (k < fetch_k)%Z ->
  client (sent s) [query] (query_blobs query_embedding)
  = ([find_descriptor_result ents], blobs) ->
  Forall has_identity ents ->
  Forall (fun ent => has_distance ent PInf) (slice_to ents k) ->
  get_descriptor_response client "FindDescriptor" setname k fetch_k VNone results
    query_embedding true shared s
  = (with_call s [query] (query_blobs query_embedding),
     inl (ValueError "max() arg is an empty sequence")).
Proof.
  intros query Hk Hreply Hids Hinf.
  unfold get_descriptor_response.
  destruct (Z.geb_spec k fetch_k) as [Hge|_]; [lia|].
  cbn [is_None]. unfold bind at 1. unfold bind at 1.
  change (match embedding2bytes query_embedding with
          | Some blob => [blob]
          | None => []
          end) with (query_blobs query_embedding).
  rewrite (nearest_unconstrained_found client setname k fetch_k results _ ents blobs s
             Hreply Hids).
  unfold ret at 1. cbn iota.
  unfold normalize_response. unfold bind at 1. unfold bind at 1.
  unfold lift at 1.
  change (response_field [find_descriptor_result (slice_to ents k)]
            "FindDescriptor" "entities")
    with (@inr Exn Value (VList (slice_to ents k))).
  cbn iota. unfold bind at 1. unfold lift at 1. cbn [py_iter].
  unfold bind at 1. unfold lift at 1.
  rewrite (finite_distances_all_infinite _ Hinf).
  reflexivity.
Qed.

Lemma normalized_search_without_finite_distance_raises_witness :
  get_descriptor_response empty_store_client "FindDescriptor" "langchain" 3 15 VNone
    VNone (Some [Fin 1; Fin 0]) true false sample_store
  = (with_call sample_store
       [add_descriptor "FindDescriptor" "langchain" None None VNone VNone (Some 15%Z)
          VNone VNone]
       (query_blobs (Some [Fin 1; Fin 0])),
     inl (ValueError "max() arg is an empty sequence")).
Proof.
  apply (normalized_search_without_finite_distance_raises empty_store_client
           "langchain" 3 15 VNone (Some [Fin 1; Fin 0]) [] [] false sample_store).
  - lia.
  - reflexivity.
  - constructor.
  - constructor.
Defined.

Lemma normalize_entity_zero m ent x s :
  has_distance ent x ->
  m == 0 ->
  exists ent',
    normalize_entity (VNum (Fin m)) ent s
    = (with_log (with_log s INFO "Exception[in get_descriptor_response]")
         INFO "Normalizing to",
       inr ent')
    /\ has_distance ent' (Fin 0).
Proof.
  intros (d & -> & Hd) Hm.
  assert (Hz : Qeq_bool (Qred (m + 0)) 0 = true).
  { apply Qeq_bool_iff. rewrite Qred_correct, Hm. reflexivity. }
  assert (Hz' : Qeq_bool m 0 = true) by (apply Qeq_bool_iff; exact Hm).
  assert (Hnd : normalized_distance (VNum (Fin m)) (VDict d) = inl ZeroDivisionError).
  { unfold normalized_distance, py_sub, min_dist.
    cbn [py_getitem]. rewrite Hd. cbn [res_bind py_float].
    rewrite float_sub_zero_fin. unfold py_div. cbn [float_is_zero].
    rewrite Hz. reflexivity. }
  unfold normalize_entity. unfold bind at 1. unfold try_except, lift at 1.
  rewrite Hnd. unfold bind at 1. unfold bind at 1. unfold ret.
  unfold fallback_distance, min_dist. cbn [value_eqb float_eqb]. rewrite Hz'.
  unfold lift. cbn [logger py_setitem].
  eexists. split; [reflexivity|].
  eexists. split; [reflexivity|]. apply dict_lookup_set_same.
Qed.

Lemma normalize_entities_zero m entities xs :
  Forall2 has_distance entities xs ->
  m == 0 ->
  forall s,
  exists s' entities',
    normalize_entities (VNum (Fin m)) entities s = (s', inr entities')
    /\ List.length entities' = List.length entities
    /\ Forall (fun ent' => has_distance ent' (Fin 0)) entities'
    /\ sent s' = sent s
    /\ logged s'
       = logged s
         ++ flat_map
              (fun _ => [(INFO, "Exception[in get_descriptor_response]");
                         (INFO, "Normalizing to")])
              entities.
Proof.
  intros Hd Hm.
  induction Hd as [|ent x entities xs Hent _ IH]; intros s.
  - exists s, []. cbn [normalize_entities flat_map]. rewrite app_nil_r.
    repeat split. constructor.
  - destruct (normalize_entity_zero m ent x s Hent Hm) as (ent' & He & Hz).
    destruct (IH (with_log (with_log s INFO "Exception[in get_descriptor_response]")
                    INFO "Normalizing to"))
      as (s' & entities' & Hes & Hlen & Hall & Hsent & Hlog).
    exists s', (ent' :: entities'). split; [|split; [|split; [|split]]].
    + cbn [normalize_entities]. unfold bind at 1. rewrite He.
      unfold bind at 1. rewrite Hes. reflexivity.
    + simpl. rewrite Hlen. reflexivity.
    + constructor; assumption.
    + rewrite Hsent. reflexivity.
    + rewrite Hlog. cbn [with_log logger fst logged flat_map].
      rewrite <- !app_assoc. reflexivity.
Qed.

(** X10. Normalisation when the greatest finite distance is zero (a lone
    exact match, say): the division fails for every entity, each failure is
    caught, and every distance - an infinite one too - is set to 0.0,
    with two info records per entity. *)
Theorem normalization_with_zero_maximum
    (response entities : list Value) (xs : list Float) (m : Q) (s : Store) :
  response_field response "FindDescriptor" "entities" = inr (VList entities) ->
  Forall2 has_distance entities xs ->
  Forall finite_or_inf xs ->
  Qlist_max (finite_part xs) = Some m ->
  m == 0 ->
  exists s' response' entities',
    normalize_response "FindDescriptor" response s = (s', inr response')
    /\ response_field response' "FindDescriptor" "entities" = inr (VList entities')
    /\ List.length entities' = List.length entities
    /\ Forall (fun ent' => has_distance ent' (Fin 0)) entities'
    /\ sent s' = sent s
    /\ logged s'
       = logged s
         ++ flat_map
              (fun _ => [(INFO, "Exception[in get_descriptor_response]");
                         (INFO, "Normalizing to")])
              entities.
Proof.
  intros Hresp Hd Hf Hmax Hm.
  destruct (normalize_entities_zero m entities xs Hd Hm s)
    as (s' & entities' & Hn & Hlen & Hall & Hsent & Hlog).
  destruct (set_entities_only_spec response "FindDescriptor" entities entities' Hresp)
    as (response' & Hset & Hget).
  exists s', response', entities'.
  split; [|repeat split; assumption].
  unfold normalize_response, bind, lift.
  rewrite Hresp. cbn [py_iter].
  rewrite (finite_distances_spec entities xs Hd Hf).
  rewrite (py_max_finite _ m Hmax).
  rewrite Hn. rewrite Hset. reflexivity.
Qed.

Lemma normalization_with_zero_maximum_witness :
  exists s' response' entities',
    normalize_response "FindDescriptor"
      [find_descriptor_result [raw_record "1" (Some "foo") 0]] sample_store
    = (s', inr response')
    /\ response_field response' "FindDescriptor" "entities" = inr (VList entities')
    /\ List.length entities' = 1
    /\ Forall (fun ent' => has_distance ent' (Fin 0)) entities'
    /\ sent s' = sent sample_store
    /\ logged s'
       = logged sample_store
         ++ [(INFO, "Exception[in get_descriptor_response]"); (INFO, "Normalizing to")].
Proof.
  apply (normalization_with_zero_maximum
           [find_descriptor_result [raw_record "1" (Some "foo") 0]]
           [raw_record "1" (Some "foo") 0] [Fin 0] 0 sample_store).
  - reflexivity.
  - apply Forall2_cons; [eexists; split; reflexivity|]. apply Forall2_nil.
  - apply Forall_cons; [right; eexists; reflexivity|]. apply Forall_nil.
  - reflexivity.
  - reflexivity.
Defined.

Lemma Qlist_max_bounds l m q :
  Qlist_max l = Some m -> In q l -> (q <= m)%Q.
Proof.
  destruct l as [|q0 l]; [discriminate|].
  intros H Hin. injection H as <-.
  destruct (Qmax_from_spec l q0) as [_ Hall].
  rewrite Forall_forall in Hall. apply Hall. exact Hin.
Qed.

Lemma finite_part_In q xs : In (Fin q) xs -> In q (finite_part xs).
Proof.
  intros Hin. unfold finite_part. apply in_flat_map.
  exists (Fin q). split; [exact Hin|left; reflexivity].
Qed.

(** X11. Normalised distances lie between 0 and 1: when no returned
    distance is negative and the greatest finite one is positive, every
    finite distance is normalised to a number of [0, 1], and a distance
    equal to the greatest one to 1. *)
Theorem normalized_distances_lie_in_unit_interval
    (response entities : list Value) (xs : list Float) (m : Q) (s : Store) :
  response_field response "FindDescriptor" "entities" = inr (VList entities) ->
  Forall2 has_distance entities xs ->
  Forall finite_or_inf xs ->
  Qlist_max (finite_part xs) = Some m ->
  (0 < m)%Q ->
  (forall q, In (Fin q) xs -> (0 <= q)%Q) ->
  exists response' entities',
    normalize_response "FindDescriptor" response s = (s, inr response')
    /\ response_field response' "FindDescriptor" "entities" = inr (VList entities')
    /\ Forall2
         (fun x ent' =>
            forall q, x = Fin q ->
              exists q',
                has_distance ent' (Fin q')
                /\ (0 <= q')%Q /\ (q' <= 1)%Q /\ (q == m -> q' == 1))
         xs entities'.
Proof.
  intros Hresp Hd Hf Hmax Hm Hpos.
  assert (Hnz : ~ m == 0).
  { intros E. rewrite E in Hm. exact (Qlt_irrefl 0 Hm). }
  destruct (normalize_entities_spec m entities xs s Hd Hf Hnz) as (entities' & Hn & Hall).
  destruct (set_entities_only_spec response "FindDescriptor" entities entities' Hresp)
    as (response' & Hset & Hget).
  exists response', entities'. split; [|split; [exact Hget|]].
  - unfold normalize_response, bind, lift.
    rewrite Hresp. cbn [py_iter].
    rewrite (finite_distances_spec entities xs Hd Hf).
    rewrite (py_max_finite _ m Hmax).
    rewrite Hn. rewrite Hset. reflexivity.
  - assert (Hbound : forall q, In (Fin q) xs -> (0 <= q)%Q /\ (q <= m)%Q).
    { intros q Hin. split; [apply Hpos; exact Hin|].
      apply (Qlist_max_bounds _ _ _ Hmax). apply finite_part_In. exact Hin. }
    clear Hpos Hmax Hn Hset Hget Hd Hf Hresp.
    induction Hall as [|x ent' xs entities' Hx _ IH]; constructor.
    + intros q ->. destruct Hx as (q' & Hhas & Hq').
      destruct (Hbound q (or_introl eq_refl)) as [H0 H1].
      exists q'. split; [exact Hhas|]. rewrite Hq'. split; [|split].
      * apply Qle_shift_div_l; [exact Hm|]. rewrite Qmult_0_l. exact H0.
      * apply Qle_shift_div_r; [exact Hm|]. rewrite Qmult_1_l. exact H1.
      * intros E. rewrite E. unfold Qdiv. apply Qmult_inv_r. exact Hnz.
    + apply IH. intros q Hin. apply Hbound. right. exact Hin.
Qed.

Lemma normalized_distances_lie_in_unit_interval_witness :
  exists response' entities',
    normalize_response "FindDescriptor"
      [find_descriptor_result [record_foo; record_thud]] sample_store
    = (sample_store, inr response')
    /\ response_field response' "FindDescriptor" "entities" = inr (VList entities')
    /\ Forall2
         (fun x ent' =>
            forall q, x = Fin q ->
              exists q',
                has_distance ent' (Fin q')
                /\ (0 <= q')%Q /\ (q' <= 1)%Q /\ (q == 3 # 10 -> q' == 1))
         [Fin (1 # 10); Fin (3 # 10)] entities'.
Proof.
  apply (normalized_distances_lie_in_unit_interval
           [find_descriptor_result [record_foo; record_thud]]
           [record_foo; record_thud] [Fin (1 # 10); Fin (3 # 10)] (3 # 10) sample_store).
  - reflexivity.
  - repeat (apply Forall2_cons; [eexists; split; reflexivity|]).
    apply Forall2_nil.
  - repeat (apply Forall_cons; [right; eexists; reflexivity|]).
    apply Forall_nil.
  - reflexivity.
  - reflexivity.
  - intros q [H|[H|[]]]; injection H as <-; discriminate.
Defined.

(** ** Dictionaries with distinct keys: a guarded fold is a filter *)

Lemma dict_set_fresh k v (d : Dict) :
  ~ In k (dict_keys d) -> dict_set k v d = d ++ [(k, v)].
Proof.
  induction d as [|[k0 v0] d IH]; simpl; intros Hk; [reflexivity|].
  destruct (String.eqb k k0) eqn:E.
  - apply String.eqb_eq in E. subst k0. exfalso. apply Hk. left. reflexivity.
  - rewrite IH; [reflexivity|]. intros Hin. apply Hk. right. exact Hin.
Qed.

Lemma fold_set_filter (p : string * Value -> bool) (d : Dict) :
  NoDup (dict_keys d) ->
  forall acc : Dict,
    (forall k, In k (dict_keys d) -> ~ In k (dict_keys acc)) ->
    fold_left (fun (a : Dict) kv => if p kv then dict_set (fst kv) (snd kv) a else a) d acc
    = acc ++ filter p d.
Proof.
  induction d as [|[k0 v0] d IH]; intros Hnd acc Hfresh; simpl.
  - symmetry. apply app_nil_r.
  - simpl in Hnd. inversion Hnd as [|? ? Hnotin Hnd']; subst.
    destruct (p (k0, v0)) eqn:Hp; cbn [fst snd].
    + rewrite dict_set_fresh by (apply Hfresh; left; reflexivity).
      rewrite (IH Hnd').
      * rewrite <- app_assoc. reflexivity.
      * intros k Hin Hacc. unfold dict_keys in Hacc. rewrite map_app in Hacc.
        apply in_app_or in Hacc. destruct Hacc as [Hacc|[<-|[]]].
        -- exact (Hfresh k (or_intror Hin) Hacc).
        -- exact (Hnotin Hin).
    + apply (IH Hnd'). intros k Hin. apply Hfresh. right. exact Hin.
Qed.

Lemma filter_keys_incl (p : string * Value -> bool) (d : Dict) k :
  In k (dict_keys (filter p d)) -> In k (dict_keys d).
Proof.
  unfold dict_keys. rewrite !in_map_iff.
  intros (kv & Hk & Hin). apply filter_In in Hin.
  exists kv. split; [exact Hk|apply Hin].
Qed.

Lemma filter_keys_NoDup (p : string * Value -> bool) (d : Dict) :
  NoDup (dict_keys d) -> NoDup (dict_keys (filter p d)).
Proof.
  induction d as [|[k0 v0] d IH]; simpl; intros Hnd; [constructor|].
  inversion Hnd as [|? ? Hnotin Hnd']; subst.
  destruct (p (k0, v0)); [|apply IH; exact Hnd'].
  simpl. constructor; [|apply IH; exact Hnd'].
  intros Hin. apply Hnotin. exact (filter_keys_incl p d k0 Hin).
Qed.

Lemma valid_metadata_filter (d : Dict) :
  NoDup (dict_keys d) -> valid_metadata d = filter kept_entry d.
Proof.
  intros Hnd. unfold valid_metadata, metadata_step.
  rewrite (fold_set_filter kept_entry d Hnd []); [reflexivity|].
  intros k _ [].
Qed.

Lemma strip_invalid_filter (d : Dict) :
  NoDup (dict_keys d) ->
  strip_invalid (VDict d)
  = inr (VDict (filter (fun kv => negb (in_INVALID_METADATA_VALUE (snd kv))) d)).
Proof.
  intros Hnd. unfold strip_invalid. cbn [py_items res_bind].
  rewrite (fold_set_filter (fun kv => negb (in_INVALID_METADATA_VALUE (snd kv))) d Hnd []);
    [reflexivity|].
  intros k _ [].
Qed.

Lemma dict_lookup_filter (p : string * Value -> bool) (d : Dict) k v :
  NoDup (dict_keys d) ->
  dict_lookup k d = Some v ->
  dict_lookup k (filter p d) = if p (k, v) then Some v else None.
Proof.
  induction d as [|[k0 v0] d IH]; simpl; intros Hnd Hl; [discriminate|].
  inversion Hnd as [|? ? Hnotin Hnd']; subst.
  destruct (String.eqb k k0) eqn:E.
  - apply String.eqb_eq in E. subst k0. injection Hl as ->.
    destruct (p (k, v)); simpl.
    + rewrite String.eqb_refl. reflexivity.
    + apply dict_lookup_not_in. intros Hin. apply Hnotin.
      exact (filter_keys_incl p d k Hin).
  - destruct (p (k0, v0)); simpl; [rewrite E|]; apply IH; assumption.
Qed.

Lemma filter_kept_entry_strip (d : Dict) :
  filter kept_entry (filter (fun kv => negb (in_INVALID_METADATA_VALUE (snd kv))) d)
  = filter kept_entry d.
Proof.
  induction d as [|kv d IH]; simpl; [reflexivity|].
  destruct (in_INVALID_METADATA_VALUE (snd kv)) eqn:E; cbn [negb].
  - unfold kept_entry at 2. rewrite E. cbn [negb]. rewrite andb_false_r. exact IH.
  - simpl. rewrite IH. reflexivity.
Qed.

(** ** The unfiltered search, end to end *)

Lemma stored_record_identity ent : stored_record ent -> has_identity ent.
Proof.
  intros (d & i & t & -> & _ & Hi & _). exists d, (VStr i).
  split; [reflexivity|exact Hi].
Qed.

Lemma descriptor2document_strip ent :
  stored_record ent ->
  exists ent' doc,
    strip_invalid ent = inr ent'
    /\ descriptor2document ent' = inr doc
    /\ descriptor2document ent = inr doc.
Proof.
  intros (d & i & t & -> & Hnd & Hi & Hiv & Ht & Htv).
  set (p := fun kv : string * Value => negb (in_INVALID_METADATA_VALUE (snd kv))).
  assert (Hnd' : NoDup (dict_keys (filter p d))) by (apply filter_keys_NoDup; exact Hnd).
  assert (Ht' : dict_lookup TEXT_PROPERTY (filter p d) = Some (VStr t)).
  { rewrite (dict_lookup_filter p d TEXT_PROPERTY (VStr t) Hnd Ht).
    unfold p. cbn [snd]. rewrite Htv. reflexivity. }
  unfold p in Hnd', Ht'. clear p.
  assert (Hid : dict_lookup LANGCHAIN_ID_PROPERTY (valid_metadata d) = Some (VStr i))
    by (apply valid_metadata_identity; assumption).
  eexists. eexists. split; [apply strip_invalid_filter; exact Hnd|]. split.
  - rewrite (descriptor2document_on_dict _ (VStr t) Ht').
    rewrite (valid_metadata_filter _ Hnd').
    rewrite filter_kept_entry_strip.
    rewrite <- (valid_metadata_filter d Hnd). rewrite Hid. reflexivity.
  - rewrite (descriptor2document_on_dict d (VStr t) Ht). rewrite Hid. reflexivity.
Qed.

Lemma res_map_length {A B : Type} (f : A -> Res B) l : forall l',
  res_map f l = inr l' -> List.length l' = List.length l.
Proof.
  intros l' H. apply res_map_Forall2 in H.
  symmetry. exact (Forall2_length H).
Qed.

Lemma res_map_strip ents :
  Forall stored_record ents ->
  exists cleaned docs,
    res_map strip_invalid ents = inr cleaned
    /\ res_map descriptor2document cleaned = inr docs
    /\ res_map descriptor2document ents = inr docs.
Proof.
  induction 1 as [|ent ents Hent _ (cleaned & docs & Hc & Hd1 & Hd2)].
  - exists [], []. repeat split.
  - destruct (descriptor2document_strip ent Hent) as (ent' & doc & He & Hp1 & Hp2).
    exists (ent' :: cleaned), (doc :: docs).
    cbn [res_map]. rewrite He, Hc, Hp1, Hd1, Hp2, Hd2. repeat split.
Qed.

Lemma count_returned_found ents k s :
  count_returned [find_descriptor_result ents] k s
  = ((if (Z.of_nat (List.length ents) =? k)%Z then s
      else with_log s INFO "Only num_returned returned. Provide fetch_k > k"),
     inr (VList ents)).
Proof.
  unfold count_returned, bind, lift. cbn [py_first].
  change (py_contains "FindDescriptor" (find_descriptor_result ents))
    with (@inr Exn bool true).
  cbn iota.
  change (py_getitem (find_descriptor_result ents) "FindDescriptor")
    with (@inr Exn Value
            (VDict [("entities", VList ents);
                    ("returned", VNat (List.length ents));
                    ("status", VInt 0)])).
  cbn iota. cbn [py_get dict_lookup String.eqb Ascii.eqb Bool.eqb py_len].
  destruct (Z.of_nat (List.length ents) =? k)%Z; reflexivity.
Qed.

Lemma firstn_stored {A : Type} (P : A -> Prop) (l : list A) n :
  Forall P l -> Forall P (firstn n l).
Proof.
  intros H. revert n. induction H as [|x l Hx _ IH]; intros [|n]; simpl;
    constructor; auto.
Qed.

Lemma slice_to_Forall {A : Type} (P : A -> Prop) (l : list A) k :
  Forall P l -> Forall P (slice_to l k).
Proof. intros H. unfold slice_to. destruct (0 <=? k)%Z; apply firstn_stored; exact H. Qed.

Lemma query_one_unfiltered client name k fetch_k results shared qemb ents blobs
    cleaned s :
  let query :=
    add_descriptor "FindDescriptor" name None None VNone VNone (Some fetch_k)
      VNone results in
  let kept := slice_to ents k in
  let s1 := with_call s [query] [BytesOfEmb qemb] in
  (k < fetch_k)%Z ->
  client (sent s) [query] [BytesOfEmb qemb] = ([find_descriptor_result ents], blobs) ->
  Forall has_identity ents ->
  res_map strip_invalid kept = inr cleaned ->
  query_one client name k fetch_k VNone results false shared qemb s
  = ((if (Z.of_nat (List.length kept) =? k)%Z then s1
      else with_log s1 INFO "Only num_returned returned. Provide fetch_k > k"),
     inr (([find_descriptor_result cleaned],
           slice_to blobs (Z.of_nat (List.length kept))), results)).
Proof.
  intros query kept s1 Hk Hreply Hids Hclean.
  unfold query_one. unfold bind at 1.
  destruct (Z.geb_spec fetch_k k) as [_|Hlt']; [|lia].
  rewrite (get_descriptor_response_unconstrained client name k fetch_k results
             (Some qemb) ents blobs shared s Hk Hreply Hids).
  fold query. fold kept. change (query_blobs (Some qemb)) with [BytesOfEmb qemb].
  fold s1. cbn iota.
  unfold bind at 1. unfold try_except. rewrite (count_returned_found kept k s1).
  set (s2 := if (Z.of_nat (List.length kept) =? k)%Z then s1
             else with_log s1 INFO "Only num_returned returned. Provide fetch_k > k").
  unfold bind at 1. unfold lift at 1. cbn [py_iter].
  unfold bind at 1. unfold lift at 1. rewrite Hclean.
  assert (Hlen : List.length cleaned = List.length kept)
    by exact (res_map_length _ _ _ Hclean).
  unfold bind at 1.
  destruct kept as [|e0 kept'] eqn:Hkept.
  - destruct cleaned; [reflexivity|discriminate].
  - unfold lift at 1.
    change (set_entities_only [find_descriptor_result (e0 :: kept')]
              "FindDescriptor" cleaned)
      with (@inr Exn (list Value)
              [VDict [("FindDescriptor",
                       VDict [("entities", VList cleaned);
                              ("returned", VNat (List.length (e0 :: kept')));
                              ("status", VInt 0)])]]).
    rewrite <- Hlen. reflexivity.
Qed.

Lemma query_by_embeddings_unfiltered client qemb cname k fetch_k results include
    ents blobs cleaned s :
  let name :=
    match cname with
    | Some n => n
    | None => collection_name s
    end in
  let query :=
    add_descriptor "FindDescriptor" name None None VNone VNone (Some fetch_k)
      VNone (results_asked results include (collection_properties s)) in
  let kept := slice_to ents k in
  let s1 := with_call s [query] [BytesOfEmb qemb] in
  updated_properties_flag s = false ->
  (k < fetch_k)%Z ->
  client (sent s) [query] [BytesOfEmb qemb] = ([find_descriptor_result ents], blobs) ->
  Forall has_identity ents ->
  res_map strip_invalid kept = inr cleaned ->
  query_by_embeddings client (Some [qemb]) cname k fetch_k VNone results false include s
  = ((if (Z.of_nat (List.length kept) =? k)%Z then s1
      else with_log s1 INFO "Only num_returned returned. Provide fetch_k > k"),
     inr [([find_descriptor_result cleaned],
           slice_to blobs (Z.of_nat (List.length kept)))]).
Proof.
  intros name query kept s1 Hf Hk Hreply Hids Hclean.
  unfold query_by_embeddings.
  unfold bind at 1. rewrite (check_and_update_properties_idle client s Hf).
  unfold bind at 1.
  assert (Hname : match cname with
                  | Some n => ret n
                  | None => get_collection_name
                  end s = (s, inr name)).
  { unfold name. destruct cname; reflexivity. }
  rewrite Hname.
  unfold bind at 1. unfold get_collection_properties at 1.
  unfold bind at 1. cbn [for_fold].
  unfold bind at 1. unfold bind at 1.
  match goal with
  | |- context [query_one client name k fetch_k VNone ?r false ?sh qemb s] =>
      rewrite (query_one_unfiltered client name k fetch_k r sh qemb ents blobs
                 cleaned s Hk Hreply Hids Hclean)
  end.
  reflexivity.
Qed.

(** X12. The unfiltered search by vector, end to end: when the store
    answers the one nearest-neighbour query with records as it keeps them
    for added texts (the identity and the content are texts, so that
    [Document] accepts them), [similarity_search_by_vector] returns, in the store's order, the
    documents that [descriptor2document] makes of the first [k] of them;
    it sends that one query and logs that fewer than [k] came back when so
    it is. *)
Theorem similarity_search_returns_nearest_documents
    (client : list Call -> list Value -> list Blob -> Reply)
    (embedding : list Float) (k fetch_k : Z) (kwargs : SearchKwargs)
    (ents : list Value) (blobs : list Blob) (s : Store) :
  let name :=
    match kw_collection_name kwargs with
    | Some n => n
    | None => collection_name s
    end in
  let query :=
    add_descriptor "FindDescriptor" name None None VNone VNone (Some fetch_k) VNone
      (results_asked (kw_results kwargs) (kw_include kwargs) (collection_properties s)) in
  updated_properties_flag s = false ->
  (k < fetch_k)%Z ->
  kw_normalize_distance kwargs = false ->
  client (sent s) [query] [BytesOfEmb embedding] = ([find_descriptor_result ents], blobs) ->
  Forall stored_record ents ->
  exists docs s',
    similarity_search_by_vector client embedding k fetch_k VNone kwargs s
    = (s', inr docs)
    /\ res_map descriptor2document (slice_to ents k) = inr docs
    /\ sent s' = sent s ++ [([query], [BytesOfEmb embedding])]
    /\ logged s'
       = logged s
         ++ (if (Z.of_nat (List.length (slice_to ents k)) =? k)%Z then []
             else [fewer_than_k_record])
         ++ [(INFO, "VDMS similarity search took")].
Proof.
  intros name query Hf Hk Hnorm Hreply Hstored.
  assert (Hids : Forall has_identity ents).
  { eapply Forall_impl; [|exact Hstored]. exact stored_record_identity. }
  destruct (res_map_strip (slice_to ents k) (slice_to_Forall _ _ k Hstored))
    as (cleaned & docs & Hclean & Hdocs & Hdocs0).
  exists docs. eexists. split; [|split; [exact Hdocs0|]].
  - unfold similarity_search_by_vector. unfold bind at 1. rewrite Hnorm.
    rewrite (query_by_embeddings_unfiltered client embedding (kw_collection_name kwargs)
               k fetch_k (kw_results kwargs) (kw_include kwargs) ents blobs cleaned s
               Hf Hk Hreply Hids Hclean).
    unfold bind at 1. unfold logger at 1. cbn [for_fold].
    unfold bind at 1. unfold bind at 1. unfold documents_of_result.
    unfold bind at 1. unfold try_except.
    unfold bind at 1. unfold lift at 1. cbn [py_first].
    unfold bind at 1. unfold lift at 1.
    change (py_getitem (find_descriptor_result cleaned) "FindDescriptor")
      with (@inr Exn Value
              (VDict [("entities", VList cleaned);
                      ("returned", VNat (List.length cleaned));
                      ("status", VInt 0)])).
    cbn iota. unfold lift at 1.
    cbn [py_get dict_lookup String.eqb Ascii.eqb Bool.eqb].
    unfold lift at 1. rewrite Hdocs. unfold ret. reflexivity.
  - destruct (Z.of_nat (List.length (slice_to ents k)) =? k)%Z;
      cbn [sent logged with_log with_call logger fst app];
      split; try reflexivity.
    rewrite <- app_assoc. reflexivity.
Qed.

Lemma similarity_search_returns_nearest_documents_witness :
  exists docs s',
    similarity_search_by_vector
      (fun _ _ _ => ([find_descriptor_result [record_foo; record_thud]], []))
      [Fin 1; Fin 0] 1 15 VNone no_kwargs sample_store
    = (s', inr docs)
    /\ res_map descriptor2document (slice_to [record_foo; record_thud] 1) = inr docs
    /\ sent s'
       = sent sample_store
         ++ [([add_descriptor "FindDescriptor" "langchain" None None VNone VNone
                 (Some 15%Z) VNone
                 (results_asked VNone None (collection_properties sample_store))],
              [BytesOfEmb [Fin 1; Fin 0]])]
    /\ logged s'
       = logged sample_store
         ++ (if (Z.of_nat (List.length (slice_to [record_foo; record_thud] 1)) =? 1)%Z
             then [] else [fewer_than_k_record])
         ++ [(INFO, "VDMS similarity search took")].
Proof.
  apply (similarity_search_returns_nearest_documents
           (fun _ _ _ => ([find_descriptor_result [record_foo; record_thud]], []))
           [Fin 1; Fin 0] 1 15 no_kwargs [record_foo; record_thud] [] sample_store).
  - reflexivity.
  - lia.
  - reflexivity.
  - reflexivity.
  - repeat (apply Forall_cons;
            [eexists; eexists; eexists;
             split; [reflexivity|];
             split; [solve_NoDup|];
             repeat split; reflexivity|]).
    apply Forall_nil.
Defined.

Lemma project_entity_stripped ent x :
  stored_record ent ->
  has_distance ent x ->
  exists ent' doc,
    strip_invalid ent = inr ent'
    /\ descriptor2document ent = inr doc
    /\ forall d0,
         project_entity ent' d0 = inr ((doc, float_round10 x), Some (doc_id doc)).
Proof.
  intros (d & i & t & -> & Hnd & Hi & Hiv & Ht & Htv) (d' & Hd' & Hx).
  injection Hd' as <-.
  assert (Hnd' : NoDup (dict_keys
                          (filter (fun kv => negb (in_INVALID_METADATA_VALUE (snd kv))) d)))
    by (apply filter_keys_NoDup; exact Hnd).
  assert (Hid : dict_lookup LANGCHAIN_ID_PROPERTY (valid_metadata d) = Some (VStr i))
    by (apply valid_metadata_identity; assumption).
  eexists. eexists. split; [apply strip_invalid_filter; exact Hnd|]. split.
  - rewrite (descriptor2document_on_dict d (VStr t) Ht). rewrite Hid. reflexivity.
  - intros d0. unfold project_entity. cbn [py_getitem py_items].
    rewrite (dict_lookup_filter _ d "_distance" (VNum x) Hnd Hx).
    cbn [snd in_INVALID_METADATA_VALUE negb res_bind py_float].
    rewrite (dict_lookup_filter _ d TEXT_PROPERTY (VStr t) Hnd Ht).
    cbn [snd]. rewrite Htv. cbn [negb res_bind].
    rewrite (valid_metadata_filter _ Hnd'), filter_kept_entry_strip.
    rewrite <- (valid_metadata_filter d Hnd). rewrite Hid.
    cbn [new_Document res_bind doc_id]. reflexivity.
Qed.

Lemma project_entities_all (l : list Value) (items : list (Document * Float)) :
  Forall2
    (fun ent item =>
       forall d0, project_entity ent d0 = inr (item, Some (doc_id (fst item))))
    l items ->
  forall acc d0, project_entities l acc d0 = (acc ++ items, None).
Proof.
  induction 1 as [|ent item l items Hent _ IH]; intros acc d0; cbn [project_entities].
  - rewrite app_nil_r. reflexivity.
  - rewrite Hent, IH, <- app_assoc. reflexivity.
Qed.

Lemma res_map_strip_scored ents xs :
  Forall stored_record ents ->
  Forall2 has_distance ents xs ->
  exists cleaned docs,
    res_map strip_invalid ents = inr cleaned
    /\ res_map descriptor2document ents = inr docs
    /\ forall acc d0,
         project_entities cleaned acc d0
         = (acc ++ combine docs (map float_round10 xs), None).
Proof.
  intros Hs Hd. revert Hs.
  induction Hd as [|ent x ents xs Hx _ IH]; intros Hs.
  - exists [], []. repeat split. intros acc d0. simpl. rewrite app_nil_r. reflexivity.
  - inversion Hs as [|? ? Hent Hs']; subst.
    destruct (IH Hs') as (cleaned & docs & Hc & Hdocs & Hproj).
    destruct (project_entity_stripped ent x Hent Hx) as (ent' & doc & He & Hdoc & Hp).
    exists (ent' :: cleaned), (doc :: docs).
    cbn [res_map]. rewrite He, Hc, Hdoc, Hdocs. repeat split.
    intros acc d0. cbn [project_entities map combine].
    rewrite Hp, Hproj, <- app_assoc. reflexivity.
Qed.

Lemma slice_to_Forall2 {A B : Type} (P : A -> B -> Prop) (l : list A) (l' : list B) k :
  Forall2 P l l' -> Forall2 P (slice_to l k) (slice_to l' k).
Proof.
  intros H. unfold slice_to. rewrite (Forall2_length H).
  assert (Hn : forall n, Forall2 P (firstn n l) (firstn n l')).
  { induction H as [|x y l l' Hxy _ IH]; intros [|n]; simpl; constructor; auto. }
  destruct (0 <=? k)%Z; apply Hn.
Qed.

(** X13. The unfiltered search with scores, end to end: for records as
    the store keeps them for added texts (the identity and the content are
    texts, so that [Document] accepts them),
    [similarity_search_with_score] returns the same documents as
    the search by vector, each paired with its record's distance rounded to
    ten decimals, in the store's order, without the parse warning. *)
Theorem similarity_search_with_score_pairs_rounded_distances
    (client : list Call -> list Value -> list Blob -> Reply)
    (get_embedding : string -> Res (list Float))
    (text : string) (embedding : list Float) (k fetch_k : Z) (kwargs : SearchKwargs)
    (ents : list Value) (xs : list Float) (blobs : list Blob) (s : Store) :
  let name :=
    match kw_collection_name kwargs with
    | Some n => n
    | None => collection_name s
    end in
  let query :=
    add_descriptor "FindDescriptor" name None None VNone VNone (Some fetch_k) VNone
      (results_asked (kw_results kwargs) (kw_include kwargs) (collection_properties s)) in
  get_embedding text = inr embedding ->
  updated_properties_flag s = false ->
  (k < fetch_k)%Z ->
  kw_normalize_distance kwargs = false ->
  client (sent s) [query] [BytesOfEmb embedding] = ([find_descriptor_result ents], blobs) ->
  Forall stored_record ents ->
  Forall2 has_distance ents xs ->
  exists docs s',
    similarity_search_with_score client get_embedding text k fetch_k VNone kwargs s
    = (s', inr (combine docs (map float_round10 (slice_to xs k))))
    /\ res_map descriptor2document (slice_to ents k) = inr docs
    /\ sent s' = sent s ++ [([query], [BytesOfEmb embedding])]
    /\ logged s'
       = logged s
         ++ (if (Z.of_nat (List.length (slice_to ents k)) =? k)%Z then []
             else [fewer_than_k_record]).
Proof.
  intros name query Hemb Hf Hk Hnorm Hreply Hstored Hdist.
  assert (Hids : Forall has_identity ents).
  { eapply Forall_impl; [|exact Hstored]. exact stored_record_identity. }
  destruct (res_map_strip_scored (slice_to ents k) (slice_to xs k)
              (slice_to_Forall _ _ k Hstored) (slice_to_Forall2 _ _ _ k Hdist))
    as (cleaned & docs & Hclean & Hdocs & Hproj).
  exists docs. eexists. split; [|split; [exact Hdocs|]].
  - unfold similarity_search_with_score. unfold bind at 1. unfold lift at 1.
    rewrite Hemb. unfold bind at 1. rewrite Hnorm.
    rewrite (query_by_embeddings_unfiltered client embedding (kw_collection_name kwargs)
               k fetch_k (kw_results kwargs) (kw_include kwargs) ents blobs cleaned s
               Hf Hk Hreply Hids Hclean).
    unfold results2documents_and_scores, parse_results.
    assert (Hents : forall arr,
               entities_of_results [([find_descriptor_result cleaned], arr)]
               = inr cleaned).
    { intros arr. unfold entities_of_results. cbn [py_first res_bind].
      change (py_getitem (find_descriptor_result cleaned) "FindDescriptor")
        with (@inr Exn Value
                (VDict [("entities", VList cleaned);
                        ("returned", VNat (List.length cleaned));
                        ("status", VInt 0)])).
      cbn [res_bind py_get dict_lookup String.eqb Ascii.eqb Bool.eqb py_len py_iter].
      destruct cleaned; reflexivity. }
    rewrite Hents, Hproj. reflexivity.
  - destruct (Z.of_nat (List.length (slice_to ents k)) =? k)%Z;
      cbn [sent logged with_log with_call logger fst app];
      split; try reflexivity.
    rewrite app_nil_r. reflexivity.
Qed.

Lemma similarity_search_with_score_pairs_rounded_distances_witness :
  exists docs s',
    similarity_search_with_score
      (fun _ _ _ => ([find_descriptor_result [record_foo; record_thud]], []))
      (fun _ => inr [Fin 1; Fin 0]) "foo" 2 15 VNone no_kwargs sample_store
    = (s', inr (combine docs
                  (map float_round10 (slice_to [Fin (1 # 10); Fin (3 # 10)] 2))))
    /\ res_map descriptor2document (slice_to [record_foo; record_thud] 2) = inr docs
    /\ sent s'
       = sent sample_store
         ++ [([add_descriptor "FindDescriptor" "langchain" None None VNone VNone
                 (Some 15%Z) VNone
                 (results_asked VNone None (collection_properties sample_store))],
              [BytesOfEmb [Fin 1; Fin 0]])]
    /\ logged s'
       = logged sample_store
         ++ (if (Z.of_nat (List.length (slice_to [record_foo; record_thud] 2)) =? 2)%Z
             then [] else [fewer_than_k_record]).
Proof.
  apply (similarity_search_with_score_pairs_rounded_distances
           (fun _ _ _ => ([find_descriptor_result [record_foo; record_thud]], []))
           (fun _ => inr [Fin 1; Fin 0]) "foo" [Fin 1; Fin 0] 2 15 no_kwargs
           [record_foo; record_thud] [Fin (1 # 10); Fin (3 # 10)] [] sample_store).
  - reflexivity.
  - reflexivity.
  - lia.
  - reflexivity.
  - reflexivity.
  - repeat (apply Forall_cons;
            [eexists; eexists; eexists;
             split; [reflexivity|];
             split; [solve_NoDup|];
             repeat split; reflexivity|]).
    apply Forall_nil.
  - repeat (apply Forall2_cons; [eexists; split; reflexivity|]).
    apply Forall2_nil.
Defined.

(** ** Adding a batch *)

Lemma py_eq_zero_int z : py_eq_zero (VInt z) = (z =? 0)%Z.
Proof. reflexivity. Qed.

Lemma zip4_batch (texts : list string) : forall (metadatas : list Dict)
    (embeddings : list (list Float)) (ids : list string),
  List.length texts = List.length embeddings ->
  List.length texts = List.length metadatas ->
  List.length texts = List.length ids ->
  map (fun it : Dict * list Float * string * string =>
         VDict (props_of (snd (fst it)) (Some (fst (fst (fst it)))) (Some (snd it))))
      (zip4 metadatas embeddings texts ids)
  = batch_properties_of texts metadatas ids
  /\ List.concat (map (fun it : Dict * list Float * string * string => snd (fst (fst it)))
                    (zip4 metadatas embeddings texts ids))
     = List.concat embeddings.
Proof.
  induction texts as [|doc texts IH];
    intros [|meta metadatas] [|emb embeddings] [|id ids] H1 H2 H3;
    try discriminate; simpl.
  - split; reflexivity.
  - injection H1 as H1. injection H2 as H2. injection H3 as H3.
    destruct (IH metadatas embeddings ids H1 H2 H3) as [Hp He].
    rewrite Hp, He. split; reflexivity.
Qed.

Lemma properties_loop_run (items : list (Dict * list Float * string * string)) :
  forall (acc : list Float * list Value * option (list Float)) s,
  exists s' last,
    for_fold items acc
      (fun '(extended_emb, batch_properties, _) '(meta, emb, doc, id) =>
         props <- get_props_from_metadata doc (Some meta) (Some id) ;;
         ret (extended_emb ++ emb, batch_properties ++ [VDict props], Some emb)) s
    = (s',
       inr (fst (fst acc) ++ List.concat (map (fun it => snd (fst (fst it))) items),
            snd (fst acc)
            ++ map (fun it =>
                      VDict (props_of (snd (fst it)) (Some (fst (fst (fst it))))
                               (Some (snd it))))
                 items,
            last))
    /\ sent s' = sent s
    /\ logged s' = logged s
    /\ collection_name s' = collection_name s
    /\ updated_properties_flag s' = updated_properties_flag s.
Proof.
  induction items as [|[[[meta emb] doc] id] items IH]; intros acc s; cbn [for_fold].
  - destruct acc as [[extended_emb batch_properties] last].
    exists s, last. cbn [fst snd map List.concat]. rewrite !app_nil_r.
    repeat split.
  - destruct acc as [[extended_emb batch_properties] last].
    unfold bind at 1. unfold bind at 1.
    rewrite get_props_from_metadata_run. unfold ret at 1.
    match goal with
    | |- context [for_fold items ?a ?f ?st] =>
        destruct (IH a st) as (s' & last' & -> & Hs & Hl & Hn & Hfl)
    end.
    exists s', last'. cbn [fst snd map List.concat].
    rewrite <- !app_assoc. cbn [app].
    cbn [sent logged collection_name updated_properties_flag] in Hs, Hl, Hn, Hfl.
    repeat split; assumption.
Qed.

Lemma add_batch_answered client name texts embeddings metadatas ids status blobs s :
  List.length texts = List.length embeddings ->
  List.length texts = List.length metadatas ->
  List.length texts = List.length ids ->
  client (sent s) [add_query name texts metadatas ids] [BytesOfEmb (List.concat embeddings)]
  = ([add_descriptor_result status], blobs) ->
  exists s',
    add_batch client name texts embeddings (Some metadatas) ids s
    = (s', inr (if (status =? 0)%Z then ids else []))
    /\ sent s'
       = sent s ++ [([add_query name texts metadatas ids],
                     [BytesOfEmb (List.concat embeddings)])]
    /\ logged s' = logged s
    /\ collection_name s' = collection_name s
    /\ updated_properties_flag s' = updated_properties_flag s.
Proof.
  intros H1 H2 H3 Hreply.
  unfold add_batch.
  unfold bind at 1. rewrite (len_check_same texts embeddings _ _ s H1).
  unfold bind at 1. rewrite (len_check_same texts metadatas _ _ s H2).
  unfold bind at 1. rewrite (len_check_same texts ids _ _ s H3).
  unfold bind at 1.
  destruct (properties_loop_run (zip4 metadatas embeddings texts ids) ([], [], None) s)
    as (s1 & last & -> & Hs1 & Hl1 & Hn1 & Hf1).
  cbn [fst snd app embedding2bytes].
  destruct (zip4_batch texts metadatas embeddings ids H1 H2 H3) as [-> ->].
  fold (add_query name texts metadatas ids).
  assert (Hrun :
            run_vdms_query client [add_query name texts metadatas ids]
              [BytesOfEmb (List.concat embeddings)] s1
            = (with_call s1 [add_query name texts metadatas ids]
                 [BytesOfEmb (List.concat embeddings)],
               inr ([add_descriptor_result status], blobs))).
  { unfold run_vdms_query. rewrite <- Hs1 in Hreply. rewrite Hreply.
    unfold check_valid_response, add_query. rewrite add_descriptor_cmds.
    reflexivity. }
  unfold bind at 1. rewrite Hrun.
  unfold try_except, lift.
  change (ids_if_added [add_descriptor_result status] ids)
    with (@inr Exn (list string) (if py_eq_zero (VInt status) then ids else [])).
  rewrite py_eq_zero_int.
  eexists. split; [reflexivity|].
  cbn [sent logged collection_name updated_properties_flag with_call].
  rewrite Hs1, Hl1, Hn1, Hf1. repeat split.
Qed.

(** X14. [add_batch] sends one [AddDescriptor] command that carries the
    properties of the items in the order of the batch, next to one blob made
    of the embeddings laid end to end; it returns the ids when the store
    answers with status 0 and the empty list, without a word in the log,
    when it answers with any other status. *)
Theorem add_batch_returns_ids_iff_status_zero
    (client : list Call -> list Value -> list Blob -> Reply)
    (name : string) (texts : list string) (embeddings : list (list Float))
    (metadatas : list Dict) (ids : list string) (status : Z) (blobs : list Blob)
    (s : Store) :
  List.length texts = List.length embeddings ->
  List.length texts = List.length metadatas ->
  List.length texts = List.length ids ->
  client (sent s) [add_query name texts metadatas ids] [BytesOfEmb (List.concat embeddings)]
  = ([add_descriptor_result status], blobs) ->
  exists s',
    add_batch client name texts embeddings (Some metadatas) ids s
    = (s', inr (if (status =? 0)%Z then ids else []))
    /\ sent s'
       = sent s ++ [([add_query name texts metadatas ids],
                     [BytesOfEmb (List.concat embeddings)])]
    /\ logged s' = logged s.
Proof.
  intros H1 H2 H3 Hreply.
  destruct (add_batch_answered client name texts embeddings metadatas ids status blobs s
              H1 H2 H3 Hreply) as (s' & Hrun & Hsent & Hlog & _).
  exists s'. repeat split; assumption.
Qed.

Lemma add_batch_returns_ids_iff_status_zero_witness :
  exists s',
    add_batch (fun _ _ _ => ([add_descriptor_result 2], [])) "langchain"
      ["foo"; "thud"] [[Fin 1; Fin 0]; [Fin 0; Fin 1]]
      (Some [[("baz", VStr "bar")]; [("bar", VStr "baz")]]) ["1"; "2"] sample_store
    = (s', inr (if (2 =? 0)%Z then ["1"; "2"] else []))
    /\ sent s'
       = sent sample_store
         ++ [([add_query "langchain" ["foo"; "thud"]
                 [[("baz", VStr "bar")]; [("bar", VStr "baz")]] ["1"; "2"]],
              [BytesOfEmb (List.concat [[Fin 1; Fin 0]; [Fin 0; Fin 1]])])]
    /\ logged s' = logged sample_store.
Proof.
  apply (add_batch_returns_ids_iff_status_zero
           (fun _ _ _ => ([add_descriptor_result 2], [])) "langchain"
           ["foo"; "thud"] [[Fin 1; Fin 0]; [Fin 0; Fin 1]]
           [[("baz", VStr "bar")]; [("bar", VStr "baz")]] ["1"; "2"] 2 [] sample_store);
    reflexivity.
Defined.

Lemma len_check_differs {A B : Type} (x : list A) (y : list B) x_name y_name s :
  List.length x <> List.length y ->
  exists msg, _len_check_if_sized x y x_name y_name s = (s, inl (ValueError msg)).
Proof.
  intros H. unfold _len_check_if_sized.
  destruct (Nat.eqb_spec (List.length x) (List.length y)) as [E|_]; [contradiction|].
  eexists. reflexivity.
Qed.

(** X15. [add_batch] checks the lengths before anything else: when the
    texts and the embeddings, the metadata or the ids differ in number it
    raises [ValueError] and leaves the store as it was - no property name
    is registered and nothing is sent. *)
Theorem add_batch_rejects_unequal_lengths
    (client : list Call -> list Value -> list Blob -> Reply)
    (name : string) (texts : list string) (embeddings : list (list Float))
    (metadatas : list Dict) (ids : list string) (s : Store) :
  List.length texts <> List.length embeddings
  \/ List.length texts <> List.length metadatas
  \/ List.length texts <> List.length ids ->
  exists msg,
    add_batch client name texts embeddings (Some metadatas) ids s
    = (s, inl (ValueError msg)).
Proof.
  intros H. unfold add_batch.
  destruct (Nat.eq_dec (List.length texts) (List.length embeddings)) as [E1|N1].
  - unfold bind at 1. rewrite (len_check_same texts embeddings _ _ s E1).
    destruct (Nat.eq_dec (List.length texts) (List.length metadatas)) as [E2|N2].
    + unfold bind at 1. rewrite (len_check_same texts metadatas _ _ s E2).
      destruct (Nat.eq_dec (List.length texts) (List.length ids)) as [E3|N3].
      * exfalso. destruct H as [H|[H|H]]; contradiction.
      * unfold bind at 1.
        destruct (len_check_differs texts ids "texts" "ids" s N3) as [msg ->].
        exists msg. reflexivity.
    + unfold bind at 1.
      destruct (len_check_differs texts metadatas "texts" "metadatas" s N2) as [msg ->].
      exists msg. reflexivity.
  - unfold bind at 1.
    destruct (len_check_differs texts embeddings "texts" "embeddings" s N1) as [msg ->].
    exists msg. reflexivity.
Qed.

Lemma add_batch_rejects_unequal_lengths_witness :
  exists msg,
    add_batch empty_store_client "langchain" ["foo"; "thud"] [[Fin 1; Fin 0]]
      (Some [[]; []]) ["1"; "2"] sample_store
    = (sample_store, inl (ValueError msg)).
Proof.
  apply (add_batch_rejects_unequal_lengths empty_store_client "langchain"
           ["foo"; "thud"] [[Fin 1; Fin 0]] [[]; []] ["1"; "2"] sample_store).
  left. discriminate.
Defined.

(** X16. When the store fails the [AddDescriptor] command for a reason
    other than its journal being full, [add_batch] raises nothing: it
    returns the empty list after two info records, having sent its one
    command. *)
Theorem add_batch_failed_command_returns_nothing
    (client : list Call -> list Value -> list Blob -> Reply)
    (name : string) (texts : list string) (embeddings : list (list Float))
    (metadatas : list Dict) (ids : list string) (d : Dict) (info : string)
    (blobs : list Blob) (s : Store) :
  List.length texts = List.length embeddings ->
  List.length texts = List.length metadatas ->
  List.length texts = List.length ids ->
  client (sent s) [add_query name texts metadatas ids] [BytesOfEmb (List.concat embeddings)]
  = ([VDict d], blobs) ->
  dict_has "AddDescriptor" d = false ->
  dict_has "FindDescriptor" d = false ->
  dict_lookup "info" d = Some (VStr info) ->
  str_contains "OutOfJournalSpace" info = false ->
  exists s',
    add_batch client name texts embeddings (Some metadatas) ids s = (s', inr [])
    /\ sent s'
       = sent s ++ [([add_query name texts metadatas ids],
                     [BytesOfEmb (List.concat embeddings)])]
    /\ logged s'
       = logged s ++ [(INFO, "Exception[in add_batch]"); (INFO, "Returning []")].
Proof.
  intros H1 H2 H3 Hreply Hadd Hfind Hinfo Hother.
  unfold add_batch.
  unfold bind at 1. rewrite (len_check_same texts embeddings _ _ s H1).
  unfold bind at 1. rewrite (len_check_same texts metadatas _ _ s H2).
  unfold bind at 1. rewrite (len_check_same texts ids _ _ s H3).
  unfold bind at 1.
  destruct (properties_loop_run (zip4 metadatas embeddings texts ids) ([], [], None) s)
    as (s1 & last & -> & Hs1 & Hl1 & _).
  cbn [fst snd app embedding2bytes].
  destruct (zip4_batch texts metadatas embeddings ids H1 H2 H3) as [-> ->].
  fold (add_query name texts metadatas ids).
  assert (Hrun :
            run_vdms_query client [add_query name texts metadatas ids]
              [BytesOfEmb (List.concat embeddings)] s1
            = (with_call s1 [add_query name texts metadatas ids]
                 [BytesOfEmb (List.concat embeddings)],
               inr ([VDict d], blobs))).
  { unfold run_vdms_query. rewrite <- Hs1 in Hreply. rewrite Hreply.
    unfold check_valid_response, add_query. rewrite add_descriptor_cmds.
    cbn [res_bind any_returned py_first py_contains res_map keep_entities_with_id].
    rewrite Hadd, Hfind. reflexivity. }
  unfold bind at 1. rewrite Hrun.
  unfold try_except at 1. unfold lift at 1.
  unfold ids_if_added. cbn [py_first res_bind py_getitem].
  assert (Hnone : dict_lookup "AddDescriptor" d = None).
  { unfold dict_has in Hadd. destruct (dict_lookup "AddDescriptor" d); congruence. }
  rewrite Hnone. cbn [res_bind].
  unfold bind at 1. unfold lift at 1. cbn [py_first].
  unfold bind at 1. unfold lift at 1. cbn [py_getitem]. rewrite Hinfo.
  unfold bind at 1. unfold lift at 1. cbn [py_contains]. rewrite Hother.
  unfold bind, logger, ret.
  eexists. split; [reflexivity|].
  cbn [sent logged with_call]. rewrite Hs1, Hl1, <- app_assoc. split; reflexivity.
Qed.

Lemma add_batch_failed_command_returns_nothing_witness :
  exists s',
    add_batch
      (fun _ _ _ =>
         ([VDict [("FailedCommand", VStr "AddDescriptor");
                  ("info", VStr "Set not found");
                  ("status", VInt (-1))]], []))
      "langchain" ["foo"] [[Fin 1; Fin 0]] (Some [[("baz", VStr "bar")]]) ["1"]
      sample_store
    = (s', inr [])
    /\ sent s'
       = sent sample_store
         ++ [([add_query "langchain" ["foo"] [[("baz", VStr "bar")]] ["1"]],
              [BytesOfEmb (List.concat [[Fin 1; Fin 0]])])]
    /\ logged s'
       = logged sample_store
         ++ [(INFO, "Exception[in add_batch]"); (INFO, "Returning []")].
Proof.
  apply (add_batch_failed_command_returns_nothing
           (fun _ _ _ =>
              ([VDict [("FailedCommand", VStr "AddDescriptor");
                       ("info", VStr "Set not found");
                       ("status", VInt (-1))]], []))
           "langchain" ["foo"] [[Fin 1; Fin 0]] [[("baz", VStr "bar")]] ["1"]
           [("FailedCommand", VStr "AddDescriptor");
            ("info", VStr "Set not found");
            ("status", VInt (-1))]
           "Set not found" [] sample_store);
    reflexivity.
Defined.

(** ** Adding in windows *)

Lemma slice_length_eq {A B : Type} (l : list A) (l' : list B) a e :
  List.length l = List.length l' ->
  List.length (slice l a e) = List.length (slice l' a e).
Proof.
  intros H. unfold slice, slice_to. rewrite !length_skipn.
  destruct (0 <=? e)%Z; rewrite !length_firstn, H; reflexivity.
Qed.

Lemma slice_then_rest {A : Type} (l : list A) a e :
  (0 <= a <= e)%Z ->
  slice l a e ++ skipn (Z.to_nat e) l = skipn (Z.to_nat a) l.
Proof.
  intros [Ha Hae]. unfold slice, slice_to.
  destruct (Z.leb_spec 0 e) as [_|He]; [|lia].
  rewrite skipn_firstn_comm.
  rewrite <- (firstn_skipn (Z.to_nat e - Z.to_nat a) (skipn (Z.to_nat a) l)) at 2.
  rewrite skipn_skipn.
  replace (Z.to_nat e - Z.to_nat a + Z.to_nat a) with (Z.to_nat e) by lia.
  reflexivity.
Qed.

Lemma range_up_slices {A : Type} (l : list A) (b : Z) :
  (0 < b)%Z ->
  forall fuel cur,
    (0 <= cur)%Z ->
    Z.to_nat (Z.of_nat (List.length l) - cur) <= fuel ->
    List.concat
      (map (fun st => slice l st (Z.min (st + b) (Z.of_nat (List.length l))))
         (range_up fuel cur (Z.of_nat (List.length l)) b))
    = skipn (Z.to_nat cur) l.
Proof.
  intros Hb. induction fuel as [|fuel IH]; intros cur Hcur Hfuel.
  - simpl. symmetry. apply skipn_all2. lia.
  - cbn [range_up].
    destruct (Z.ltb_spec cur (Z.of_nat (List.length l))) as [Hlt|Hge].
    + cbn [map List.concat]. rewrite IH by lia.
      rewrite <- (slice_then_rest l cur (Z.min (cur + b) (Z.of_nat (List.length l))))
        by lia.
      f_equal.
      destruct (Z.le_ge_cases (cur + b) (Z.of_nat (List.length l))) as [Hle|Hgt].
      * rewrite Z.min_l by exact Hle. reflexivity.
      * rewrite Z.min_r by exact Hgt.
        rewrite !skipn_all2 by lia. reflexivity.
    + simpl. symmetry. apply skipn_all2. lia.
Qed.

Lemma range_up_nonnegative b : (0 < b)%Z ->
  forall fuel cur stop, (0 <= cur)%Z ->
    Forall (fun st => (0 <= st)%Z) (range_up fuel cur stop b).
Proof.
  intros Hb. induction fuel as [|fuel IH]; intros cur stop Hcur; cbn [range_up].
  - constructor.
  - destruct (cur <? stop)%Z; constructor; [exact Hcur|]. apply IH. lia.
Qed.

Lemma add_window_accepted client texts embeddings ids m ms batch_size inserted bm
    start_idx s :
  List.length texts = List.length embeddings ->
  List.length texts = List.length (m :: ms) ->
  List.length texts = List.length ids ->
  accepts_additions client (collection_name s) ->
  exists s',
    add_window client texts embeddings ids (Some (m :: ms)) batch_size (inserted, bm)
      start_idx s
    = (s',
       inr (inserted
            ++ slice ids start_idx
                 (Z.min (start_idx + batch_size) (Z.of_nat (List.length texts))),
            Some (slice (m :: ms) start_idx
                    (Z.min (start_idx + batch_size) (Z.of_nat (List.length texts))))))
    /\ logged s' = logged s
    /\ collection_name s' = collection_name s.
Proof.
  intros H1 H2 H3 Hacc.
  set (e := Z.min (start_idx + batch_size) (Z.of_nat (List.length texts))).
  destruct (Hacc (sent s)
              (VList (batch_properties_of (slice texts start_idx e)
                        (slice (m :: ms) start_idx e) (slice ids start_idx e)))
              [BytesOfEmb (List.concat (slice embeddings start_idx e))])
    as [blobs Hreply].
  destruct (add_batch_answered client (collection_name s)
              (slice texts start_idx e) (slice embeddings start_idx e)
              (slice (m :: ms) start_idx e) (slice ids start_idx e) 0 blobs s
              (slice_length_eq _ _ _ _ H1) (slice_length_eq _ _ _ _ H2)
              (slice_length_eq _ _ _ _ H3) Hreply)
    as (s' & Hrun & _ & Hlog & Hname & _).
  exists s'. split; [|split; assumption].
  unfold add_window. fold e.
  unfold bind at 1. unfold try_except.
  unfold bind at 1. unfold get_collection_name at 1.
  rewrite Hrun. reflexivity.
Qed.

Lemma add_windows_accepted client texts embeddings ids m ms batch_size :
  List.length texts = List.length embeddings ->
  List.length texts = List.length (m :: ms) ->
  List.length texts = List.length ids ->
  forall starts inserted bm s,
    accepts_additions client (collection_name s) ->
    exists s' bm',
      for_fold starts (inserted, bm)
        (add_window client texts embeddings ids (Some (m :: ms)) batch_size) s
      = (s',
         inr (inserted
              ++ List.concat
                   (map (fun st =>
                           slice ids st
                             (Z.min (st + batch_size) (Z.of_nat (List.length texts))))
                      starts),
              bm'))
      /\ logged s' = logged s
      /\ collection_name s' = collection_name s.
Proof.
  intros H1 H2 H3.
  induction starts as [|st starts IH]; intros inserted bm s Hacc; cbn [for_fold].
  - exists s, bm. cbn [map List.concat]. rewrite app_nil_r. repeat split.
  - destruct (add_window_accepted client texts embeddings ids m ms batch_size
                inserted bm st s H1 H2 H3 Hacc)
      as (s1 & Hwin & Hlog1 & Hname1).
    unfold bind at 1. rewrite Hwin.
    rewrite <- Hname1 in Hacc.
    match goal with
    | |- context [for_fold starts (?a, ?b) _ s1] =>
        destruct (IH a b s1 Hacc) as (s' & bm' & Hrest & Hlog & Hname)
    end.
    exists s', bm'. rewrite Hrest. cbn [map List.concat].
    rewrite <- app_assoc. split; [reflexivity|].
    split; congruence.
Qed.

Lemma push_update_properties_ok client name s :
  replies_validate client ->
  registry_readable client name ->
  exists s',
    push_update_properties client name s = (s', inr tt)
    /\ logged s' = logged s
    /\ collection_name s' = collection_name s.
Proof.
  intros Hvalid Hread.
  destruct (client (sent s) [find_property_entity name false false] [])
    as [response blobs] eqn:Hreply.
  assert (Hv : response_validates response).
  { specialize (Hvalid (sent s) [find_property_entity name false false] []).
    rewrite Hreply in Hvalid. exact Hvalid. }
  destruct (run_vdms_query_validates client _ _ _ _ _ s
              (find_property_entity_cmds name false false) Hreply Hv)
    as (response' & Hrun & _).
  assert (Hget : exists pushed,
             get_properties client name false false s
             = (with_call s [find_property_entity name false false] [], inr pushed)).
  { unfold get_properties. unfold bind at 1. rewrite Hrun.
    specialize (Hread (sent s)). rewrite Hreply in Hread. cbn [snd] in Hread.
    destruct blobs as [|blob rest].
    - eexists. reflexivity.
    - destruct Hread as [txt Htxt]. unfold bind, lift. rewrite Htxt.
      eexists. reflexivity. }
  destruct Hget as [pushed Hget].
  unfold push_update_properties. unfold bind at 1. rewrite Hget.
  unfold bind at 1. unfold get_collection_properties.
  destruct (0 <? List.length
                   (set_difference
                      (collection_properties
                         (with_call s [find_property_entity name false false] []))
                      pushed))%nat.
  - cbn [build_property_query add_entity_with_blob].
    match goal with
    | |- context [run_vdms_query client ?q ?b] =>
        assert (Hcmds : get_cmds_from_query q = inr ["FindEntity"; "AddEntity"])
          by reflexivity;
        destruct (run_vdms_query_validated client q b _
                    (with_call s [find_property_entity name false false] [])
                    Hvalid Hcmds)
          as (r & ra & Hrun2 & _)
    end.
    unfold bind. rewrite Hrun2. eexists. split; [reflexivity|].
    split; reflexivity.
  - eexists. split; [reflexivity|]. split; reflexivity.
Qed.

(** X17. [add_from] with every window accepted: given as many
    embeddings, metadata and ids as texts, a positive batch size and a store
    that accepts each batch, [add_from] returns all the ids, in the order
    given, and logs nothing. *)
Theorem add_from_returns_all_ids_when_accepted
    (client : list Call -> list Value -> list Blob -> Reply)
    (texts : list string) (embeddings : list (list Float)) (ids : list string)
    (m : Dict) (ms : list Dict) (batch_size : Z) (s : Store) :
  List.length texts = List.length embeddings ->
  List.length texts = List.length (m :: ms) ->
  List.length texts = List.length ids ->
  (0 < batch_size)%Z ->
  accepts_additions client (collection_name s) ->
  replies_validate client ->
  registry_readable client (collection_name s) ->
  exists s',
    add_from client texts embeddings ids (Some (m :: ms)) batch_size s = (s', inr ids)
    /\ logged s' = logged s.
Proof.
  intros H1 H2 H3 Hb Hacc Hvalid Hread.
  unfold add_from. unfold bind at 1. unfold lift at 1. unfold py_range.
  destruct (Z.eqb_spec batch_size 0) as [E|_]; [lia|].
  destruct (Z.ltb_spec batch_size 0) as [E|_]; [lia|].
  rewrite Z.sub_0_r, Nat2Z.id.
  destruct (add_windows_accepted client texts embeddings ids m ms batch_size H1 H2 H3
              (range_up (List.length texts) 0 (Z.of_nat (List.length texts)) batch_size)
              [] None s Hacc)
    as (s1 & bm' & Hloop & Hlog1 & Hname1).
  unfold bind at 1. rewrite Hloop. cbn [app].
  assert (Hids :
            List.concat
              (map (fun st =>
                      slice ids st
                        (Z.min (st + batch_size) (Z.of_nat (List.length texts))))
                 (range_up (List.length texts) 0 (Z.of_nat (List.length texts))
                    batch_size))
            = ids).
  { rewrite H3.
    rewrite (range_up_slices ids batch_size Hb (List.length ids) 0); [reflexivity|lia|lia]. }
  rewrite Hids.
  unfold bind at 1. unfold get_collection_name at 1.
  rewrite <- Hname1 in Hread.
  destruct (push_update_properties_ok client (collection_name s1) s1 Hvalid Hread)
    as (s2 & Hpush & Hlog2 & _).
  unfold bind at 1. rewrite Hpush. unfold ret.
  exists s2. split; [reflexivity|]. congruence.
Qed.

Lemma accepting_client_validates : replies_validate accepting_client.
Proof.
  intros history all_queries all_blobs. split.
  - intros cmd_list. induction cmd_list as [|cmd rest IH].
    + exists false. reflexivity.
    + destruct (String.eqb cmd "AddDescriptor") eqn:E.
      * apply String.eqb_eq in E. subst cmd. exact IH.
      * cbn [accepting_client fst any_returned py_first res_bind py_contains
             add_descriptor_result].
        unfold dict_has. cbn [dict_lookup]. rewrite E. exact IH.
  - eexists. reflexivity.
Qed.

Lemma add_from_returns_all_ids_when_accepted_witness :
  exists s',
    add_from accepting_client ["foo"; "thud"; "qux"]
      [[Fin 1; Fin 0]; [Fin 0; Fin 1]; [Fin 1; Fin 1]] ["1"; "2"; "3"]
      (Some [[("baz", VStr "bar")]; []; []]) 2 sample_store
    = (s', inr ["1"; "2"; "3"])
    /\ logged s' = logged sample_store.
Proof.
  apply (add_from_returns_all_ids_when_accepted accepting_client
           ["foo"; "thud"; "qux"] [[Fin 1; Fin 0]; [Fin 0; Fin 1]; [Fin 1; Fin 1]]
           ["1"; "2"; "3"] [("baz", VStr "bar")] [[]; []] 2 sample_store).
  - reflexivity.
  - reflexivity.
  - reflexivity.
  - lia.
  - intros history props all_blobs. exists []. reflexivity.
  - exact accepting_client_validates.
  - intros history. exact I.
Defined.

(** X18. [add_from] without metadata: when [metadatas] is [None] or empty
    and there is a text to add, the first window reads the local
    [batch_metadatas] before it was ever assigned: one error record is
    logged, [NameError] reaches the caller, and nothing is sent. *)
Theorem add_from_without_metadata_raises
    (client : list Call -> list Value -> list Blob -> Reply)
    (text : string) (texts : list string) (embeddings : list (list Float))
    (ids : list string) (metadatas : option (list Dict)) (batch_size : Z) (s : Store) :
  metadatas = None \/ metadatas = Some [] ->
  (0 < batch_size)%Z ->
  add_from client (text :: texts) embeddings ids metadatas batch_size s
  = (with_log s ERROR
       ("Failed to insert batch starting at entity: 0-"
        ++ str_of_Z (Z.min batch_size (Z.of_nat (List.length (text :: texts))) - 1)),
     inl (NameError "batch_metadatas")).
Proof.
  intros Hmeta Hb.
  unfold add_from. unfold bind at 1. unfold lift at 1. unfold py_range.
  destruct (Z.eqb_spec batch_size 0) as [E|_]; [lia|].
  destruct (Z.ltb_spec batch_size 0) as [E|_]; [lia|].
  rewrite Z.sub_0_r, Nat2Z.id.
  cbn [List.length range_up].
  destruct (Z.ltb_spec 0 (Z.of_nat (S (List.length texts)))) as [_|E]; [|lia].
  unfold bind at 1. cbn [for_fold]. unfold bind at 1.
  unfold add_window.
  destruct Hmeta as [-> | ->]; reflexivity.
Qed.

Lemma add_from_without_metadata_raises_witness :
  add_from accepting_client ["foo"] [[Fin 1; Fin 0]] ["1"] None 500 sample_store
  = (with_log sample_store ERROR "Failed to insert batch starting at entity: 0-0",
     inl (NameError "batch_metadatas")).
Proof.
  apply (add_from_without_metadata_raises accepting_client "foo" [] [[Fin 1; Fin 0]]
           ["1"] None 500 sample_store).
  - left. reflexivity.
  - lia.
Defined.

(** X19. [add_from] with a batch size that is not positive adds nothing:
    size 0 makes [range] raise [ValueError] before anything happens, and
    with a negative size no window is visited, so the call only brings the
    registry of property names up to date and returns the empty list. *)
Theorem add_from_with_nonpositive_batch_size_adds_nothing
    (client : list Call -> list Value -> list Blob -> Reply)
    (texts : list string) (embeddings : list (list Float)) (ids : list string)
    (metadatas : option (list Dict)) (batch_size : Z) (s : Store) :
  (batch_size <= 0)%Z ->
  add_from client texts embeddings ids metadatas batch_size s
  = if (batch_size =? 0)%Z
    then (s, inl (ValueError "range() arg 3 must not be zero"))
    else (push_update_properties client (collection_name s) ;; ret []) s.
Proof.
  intros Hb.
  unfold add_from. unfold bind at 1. unfold lift at 1. unfold py_range.
  destruct (Z.eqb_spec batch_size 0) as [E|Hnz]; [reflexivity|].
  destruct (Z.ltb_spec batch_size 0) as [Hneg|E]; [|lia].
  assert (Hzero : Z.to_nat ((0 - Z.of_nat (List.length texts) + - batch_size - 1)
                            / - batch_size) = 0).
  { assert (H : ((0 - Z.of_nat (List.length texts) + - batch_size - 1)
                 / - batch_size < 1)%Z)
      by (apply Z.div_lt_upper_bound; lia).
    lia. }
  rewrite Hzero. reflexivity.
Qed.

Lemma add_from_with_nonpositive_batch_size_adds_nothing_witness :
  add_from accepting_client ["foo"] [[Fin 1; Fin 0]] ["1"] (Some [[]]) (-1) sample_store
  = if (-1 =? 0)%Z
    then (sample_store, inl (ValueError "range() arg 3 must not be zero"))
    else (push_update_properties accepting_client (collection_name sample_store) ;;
          ret []) sample_store.
Proof.
  apply (add_from_with_nonpositive_batch_size_adds_nothing accepting_client ["foo"]
           [[Fin 1; Fin 0]] ["1"] (Some [[]]) (-1) sample_store).
  lia.
Defined.

(** ** Counting *)

Lemma res_filter_records ents :
  Forall is_record ents ->
  res_filter (py_contains LANGCHAIN_ID_PROPERTY) ents
  = inr (filter carries_identity ents).
Proof.
  induction 1 as [|ent ents [d ->] _ IH]; [reflexivity|].
  cbn [res_filter py_contains res_bind filter carries_identity]. rewrite IH.
  destruct (dict_has LANGCHAIN_ID_PROPERTY d); reflexivity.
Qed.

(** X20. [count] reports how many of the listed entities carry the
    identity property: whatever number the store gave as ["returned"], the
    reply check has replaced it by the number of entities that hold
    [langchain_id] before [count] reads it. *)
Theorem count_is_number_of_identified_entities
    (client : list Call -> list Value -> list Blob -> Reply)
    (cname : option string) (body : Dict) (ents : list Value) (blobs : list Blob)
    (s : Store) :
  let name :=
    match cname with
    | Some n => n
    | None => collection_name s
    end in
  let query := count_query name (collection_properties s) in
  client (sent s) [query] [] = ([VDict [("FindDescriptor", VDict body)]], blobs) ->
  dict_lookup "entities" body = Some (VList ents) ->
  Forall is_record ents ->
  match dict_lookup "returned" body with
  | Some v => exists x, py_float v = inr x
  | None => True
  end ->
  count client cname s
  = (with_call s [query] [],
     inr (VNat (List.length (filter carries_identity ents)))).
Proof.
  intros name query Hreply Hents Hrecords Hreturned.
  unfold count. unfold bind at 1.
  assert (Hname : match cname with
                  | Some n => ret n
                  | None => get_collection_name
                  end s = (s, inr name)).
  { unfold name. destruct cname; reflexivity. }
  rewrite Hname.
  unfold bind at 1. unfold get_collection_properties at 1.
  fold (count_query name (collection_properties s)). fold query.
  set (kept := filter carries_identity ents).
  set (body' := dict_set "returned" (VNat (List.length kept))
                  (dict_set "entities" (VList kept) body)).
  assert (Hrun : run_vdms_query client [query] [] s
                 = (with_call s [query] [],
                    inr ([VDict [("FindDescriptor", VDict body')]], blobs))).
  { unfold run_vdms_query. rewrite Hreply.
    unfold check_valid_response, query, count_query. rewrite add_descriptor_cmds.
    cbn [res_bind].
    assert (Hany : exists b,
               any_returned [VDict [("FindDescriptor", VDict body)]] ["FindDescriptor"]
               = inr b).
    { cbn [any_returned py_first res_bind py_contains].
      unfold dict_has at 1. cbn [dict_lookup String.eqb Ascii.eqb Bool.eqb].
      cbn [py_getitem dict_lookup String.eqb Ascii.eqb Bool.eqb res_bind py_contains].
      unfold dict_has.
      destruct (dict_lookup "returned" body) as [v|]; [|eexists; reflexivity].
      destruct Hreturned as [x Hx]. cbn [res_bind]. unfold py_gt_zero.
      rewrite Hx. cbn [res_bind].
      destruct (float_ltb (Fin 0) x); eexists; reflexivity. }
    destruct Hany as [b ->]. cbn [res_bind res_map].
    unfold keep_entities_with_id. cbn [py_contains res_bind].
    unfold dict_has at 1. cbn [dict_lookup String.eqb Ascii.eqb Bool.eqb].
    cbn [py_getitem dict_lookup String.eqb Ascii.eqb Bool.eqb res_bind py_get].
    rewrite Hents. cbn [res_bind py_iter].
    rewrite (res_filter_records ents Hrecords). fold kept.
    reflexivity. }
  unfold bind at 1. rewrite Hrun.
  unfold try_except, lift, response_field.
  cbn [py_first res_bind py_getitem dict_lookup String.eqb Ascii.eqb Bool.eqb].
  unfold body'. rewrite dict_lookup_set_same. reflexivity.
Qed.

Lemma count_is_number_of_identified_entities_witness :
  count
    (fun _ _ _ =>
       ([VDict [("FindDescriptor",
                 VDict [("returned", VInt 7); ("status", VInt 0);
                        ("entities",
                         VList [record_foo; VDict [("content", VStr "thud")]])])]],
        []))
    None sample_store
  = (with_call sample_store
       [count_query "langchain" (collection_properties sample_store)] [],
     inr (VNat (List.length
                  (filter carries_identity
                     [record_foo; VDict [("content", VStr "thud")]])))).
Proof.
  apply (count_is_number_of_identified_entities
           (fun _ _ _ =>
              ([VDict [("FindDescriptor",
                        VDict [("returned", VInt 7); ("status", VInt 0);
                               ("entities",
                                VList [record_foo; VDict [("content", VStr "thud")]])])]],
               []))
           None
           [("returned", VInt 7); ("status", VInt 0);
            ("entities", VList [record_foo; VDict [("content", VStr "thud")]])]
           [record_foo; VDict [("content", VStr "thud")]] [] sample_store).
  - reflexivity.
  - reflexivity.
  - repeat (apply Forall_cons; [eexists; reflexivity|]). apply Forall_nil.
  - eexists. reflexivity.
Defined.

(** X21. When the store fails the command, [count] raises nothing and
    returns 0, after the two info records of its [except] branch. *)
Theorem count_of_failed_command_is_zero
    (client : list Call -> list Value -> list Blob -> Reply)
    (cname : option string) (res : Value) (blobs : list Blob) (s : Store) :
  let name :=
    match cname with
    | Some n => n
    | None => collection_name s
    end in
  let query := count_query name (collection_properties s) in
  client (sent s) [query] [] = ([res], blobs) ->
  reports_failure res ->
  exists s',
    count client cname s = (s', inr (VInt 0))
    /\ sent s' = sent s ++ [([query], [])]
    /\ logged s' = logged s ++ count_failure_records.
Proof.
  intros name query Hreply (d & -> & Hfailed & Hfind).
  unfold count. unfold bind at 1.
  assert (Hname : match cname with
                  | Some n => ret n
                  | None => get_collection_name
                  end s = (s, inr name)).
  { unfold name. destruct cname; reflexivity. }
  rewrite Hname.
  unfold bind at 1. unfold get_collection_properties at 1.
  fold (count_query name (collection_properties s)). fold query.
  assert (Hnone : dict_lookup "FindDescriptor" d = None).
  { unfold dict_has in Hfind. destruct (dict_lookup "FindDescriptor" d); congruence. }
  assert (Hrun : run_vdms_query client [query] [] s
                 = (with_call s [query] [], inr ([VDict d], blobs))).
  { unfold run_vdms_query. rewrite Hreply.
    unfold check_valid_response, query, count_query. rewrite add_descriptor_cmds.
    cbn [res_bind any_returned py_first py_contains res_map keep_entities_with_id].
    rewrite Hfind. reflexivity. }
  unfold bind at 1. rewrite Hrun.
  unfold try_except, lift, response_field.
  cbn [py_first res_bind py_getitem]. rewrite Hnone. cbn [res_bind].
  unfold bind, logger, ret.
  eexists. split; [reflexivity|].
  cbn [sent logged with_call count_failure_records].
  rewrite <- app_assoc. split; reflexivity.
Qed.

Lemma count_of_failed_command_is_zero_witness :
  exists s',
    count failing_client None sample_store = (s', inr (VInt 0))
    /\ sent s'
       = sent sample_store
         ++ [([count_query "langchain" (collection_properties sample_store)], [])]
    /\ logged s' = logged sample_store ++ count_failure_records.
Proof.
  apply (count_of_failed_command_is_zero failing_client None failed_command []
           sample_store).
  - reflexivity.
  - eexists. split; [reflexivity|]. split; reflexivity.
Defined.

(** ** Lookups by constraint and by id *)

Lemma get_properties_ok client name s :
  replies_validate client ->
  registry_readable client name ->
  exists pushed,
    get_properties client name false false s
    = (with_call s [find_property_entity name false false] [], inr pushed).
Proof.
  intros Hvalid Hread.
  destruct (client (sent s) [find_property_entity name false false] [])
    as [response blobs] eqn:Hreply.
  assert (Hv : response_validates response).
  { specialize (Hvalid (sent s) [find_property_entity name false false] []).
    rewrite Hreply in Hvalid. exact Hvalid. }
  destruct (run_vdms_query_validates client _ _ _ _ _ s
              (find_property_entity_cmds name false false) Hreply Hv)
    as (response' & Hrun & _).
  unfold get_properties. unfold bind at 1. rewrite Hrun.
  specialize (Hread (sent s)). rewrite Hreply in Hread. cbn [snd] in Hread.
  destruct blobs as [|blob rest].
  - eexists. reflexivity.
  - destruct Hread as [txt Htxt]. unfold bind, lift. rewrite Htxt.
    eexists. reflexivity.
Qed.

Lemma documents_found_listing ents :
  documents_found [find_descriptor_result ents] = res_map descriptor2document ents.
Proof. reflexivity. Qed.

Lemma res_map_app {A B : Type} (f : A -> Res B) (l1 l2 : list A) :
  res_map f (l1 ++ l2)
  = match res_map f l1 with
    | inl e => inl e
    | inr a =>
        match res_map f l2 with
        | inl e => inl e
        | inr b => inr (a ++ b)
        end
    end.
Proof.
  induction l1 as [|x l1 IH]; cbn [app res_map].
  - destruct (res_map f l2); reflexivity.
  - destruct (f x) as [e|y]; cbn [res_bind]; [reflexivity|].
    rewrite IH. destruct (res_map f l1) as [e|a]; cbn [res_bind]; [reflexivity|].
    destruct (res_map f l2); reflexivity.
Qed.

(** X22. [get_by_constraints] is all or nothing: it returns the documents
    of all the entities found together with all the embeddings, or - when
    a single entity fails to project or a single blob fails to decode -
    the pair of two empty lists, after two info records. *)
Theorem get_by_constraints_is_all_or_nothing
    (client : list Call -> list Value -> list Blob -> Reply)
    (name : string) (constraints : Value) (limit : option Z) (include : list string)
    (ents : list Value) (blobs : list Blob) (s : Store) :
  replies_validate client ->
  registry_readable client name ->
  (forall history results,
      client history
        [add_descriptor "FindDescriptor" name None None VNone VNone None constraints
           results] []
      = ([find_descriptor_result ents], blobs)) ->
  Forall has_identity ents ->
  exists s',
    get_by_constraints client name constraints limit include s
    = (s',
       inr match res_map descriptor2document ents, res_map bytes2embedding blobs with
           | inr docs, inr embeddings => (docs, embeddings)
           | _, _ => ([], [])
           end)
    /\ logged s'
       = logged s
         ++ match res_map descriptor2document ents, res_map bytes2embedding blobs with
            | inr _, inr _ => []
            | _, _ => get_by_constraints_failure_records
            end.
Proof.
  intros Hvalid Hread Hreply Hids.
  unfold get_by_constraints. unfold bind at 1.
  assert (Hprep : exists s1 results,
             (if str_in "metadata" include
              then
                props <- get_properties client name false false ;;
                ret (dict_set "list" (VList (map VStr props))
                       match limit with
                       | Some l => dict_set "limit" (VInt l) [("count", VStr "")]
                       | None => [("count", VStr "")]
                       end)
              else
                ret match limit with
                    | Some l => dict_set "limit" (VInt l) [("count", VStr "")]
                    | None => [("count", VStr "")]
                    end) s
             = (s1, inr results)
             /\ logged s1 = logged s).
  { destruct (str_in "metadata" include).
    - destruct (get_properties_ok client name s Hvalid Hread) as [pushed Hget].
      unfold bind. rewrite Hget. eexists. eexists. split; reflexivity.
    - eexists. eexists. split; reflexivity. }
  destruct Hprep as (s1 & results & -> & Hlog1).
  cbn beta iota. unfold bind at 1.
  match goal with
  | |- context [run_vdms_query client [?q] []] =>
      rewrite (run_vdms_query_found client [q] [] ["FindDescriptor"] ents blobs s1
                 (add_descriptor_cmds _ _ _ _ _ _ _ _ _) (Hreply (sent s1) _) Hids)
  end.
  unfold try_except. unfold bind at 1. unfold lift at 1.
  rewrite documents_found_listing.
  destruct (res_map descriptor2document ents) as [e|docs].
  - unfold bind, logger, ret. eexists. split; [reflexivity|].
    cbn [logged with_call get_by_constraints_failure_records].
    rewrite Hlog1, <- app_assoc. reflexivity.
  - unfold bind at 1. unfold lift at 1.
    destruct (res_map bytes2embedding blobs) as [e|embeddings].
    + unfold bind, logger, ret. eexists. split; [reflexivity|].
      cbn [logged with_call get_by_constraints_failure_records].
      rewrite Hlog1, <- app_assoc. reflexivity.
    + unfold ret. eexists. split; [reflexivity|].
      cbn [logged with_call]. rewrite Hlog1, app_nil_r. reflexivity.
Qed.

Lemma listing_client_validates ents :
  Forall has_identity ents -> replies_validate (listing_client ents).
Proof.
  intros Hids history all_queries all_blobs. split.
  - intros cmd_list. apply any_returned_found.
  - eexists. cbn [listing_client fst res_map].
    rewrite (keep_entities_with_id_found ents Hids). reflexivity.
Qed.

Lemma get_by_constraints_is_all_or_nothing_witness :
  exists s',
    get_by_constraints (listing_client [record_foo; record_without_content])
      "langchain" VNone None ["metadata"] sample_store
    = (s', inr ([], []))
    /\ logged s' = logged sample_store ++ get_by_constraints_failure_records.
Proof.
  assert (Hids : Forall has_identity [record_foo; record_without_content]).
  { repeat (apply Forall_cons; [eexists; eexists; split; reflexivity|]).
    apply Forall_nil. }
  destruct (get_by_constraints_is_all_or_nothing
              (listing_client [record_foo; record_without_content])
              "langchain" VNone None ["metadata"]
              [record_foo; record_without_content] [] sample_store
              (listing_client_validates _ Hids)
              (fun _ => I)
              (fun _ _ => eq_refl)
              Hids)
    as (s' & Hrun & Hlog).
  exists s'. split; [exact Hrun|exact Hlog].
Defined.

Lemma get_by_ids_loop client name results found :
  answers_by_id client name found ->
  (forall id, Forall has_identity (found id)) ->
  forall ids docs s,
  exists s',
    for_fold (map id_constraint ids) docs
      (fun docs constraint =>
         let query :=
           add_descriptor "FindDescriptor" name None None VNone VNone None
             constraint results in
         '(response, _) <- run_vdms_query client [query] [] ;;
         r0 <- lift (py_first response) ;;
         has_find <- lift (py_contains "FindDescriptor" r0) ;;
         if has_find then
           this_docs <- lift (documents_found response) ;;
           ret (docs ++ this_docs)
         else ret docs) s
    = (s',
       match res_map descriptor2document (flat_map found ids) with
       | inl e => inl e
       | inr more => inr (docs ++ more)
       end)
    /\ logged s' = logged s.
Proof.
  intros Hanswers Hids.
  induction ids as [|id ids IH]; intros docs s; cbn [map for_fold flat_map].
  - exists s. cbn [res_map]. rewrite app_nil_r. split; reflexivity.
  - destruct (Hanswers (sent s) id results) as [blobs Hreply].
    unfold bind at 1. unfold bind at 1.
    rewrite (run_vdms_query_found client _ [] ["FindDescriptor"] (found id) blobs s
               (add_descriptor_cmds _ _ _ _ _ _ _ _ _) Hreply (Hids id)).
    unfold bind at 1. unfold lift at 1. cbn [py_first].
    unfold bind at 1. unfold lift at 1.
    change (py_contains "FindDescriptor" (find_descriptor_result (found id)))
      with (@inr Exn bool true).
    cbn iota. unfold bind at 1. unfold lift at 1.
    rewrite documents_found_listing, res_map_app.
    destruct (res_map descriptor2document (found id)) as [e|this_docs].
    + eexists. split; reflexivity.
    + unfold ret at 1. cbn beta iota.
      destruct (IH (docs ++ this_docs)
                  (with_call s
                     [add_descriptor "FindDescriptor" name None None VNone VNone None
                        (id_constraint id) results] []))
        as (s' & Hrest & Hlog).
      exists s'. split; [|exact Hlog].
      eapply eq_trans; [exact Hrest|].
      destruct (res_map descriptor2document (flat_map found ids)) as [e|more];
        [reflexivity|]. rewrite <- app_assoc. reflexivity.
Qed.

(** X23. [get_by_ids] returns, id by id in the order asked, the documents
    that [descriptor2document] makes of the records found for each id; an
    id that finds nothing contributes nothing, and a record that fails to
    project makes the whole call raise - nothing is caught here. *)
Theorem get_by_ids_projects_found_records_in_order
    (client : list Call -> list Value -> list Blob -> Reply)
    (ids : list string) (found : string -> list Value) (s : Store) :
  replies_validate client ->
  registry_readable client (collection_name s) ->
  answers_by_id client (collection_name s) found ->
  (forall id, Forall has_identity (found id)) ->
  exists s',
    get_by_ids client ids s
    = (s', res_map descriptor2document (flat_map found ids))
    /\ logged s' = logged s.
Proof.
  intros Hvalid Hread Hanswers Hids.
  unfold get_by_ids. unfold bind at 1. unfold get_collection_name at 1.
  destruct (get_properties_ok client (collection_name s) s Hvalid Hread)
    as [pushed Hget].
  unfold bind at 1. rewrite Hget.
  destruct (get_by_ids_loop client (collection_name s)
              (VDict [("list", VList (map VStr pushed))]) found Hanswers Hids ids []
              (with_call s [find_property_entity (collection_name s) false false] []))
    as (s' & Hloop & Hlog).
  exists s'. split; [|exact Hlog].
  eapply eq_trans; [exact Hloop|].
  destruct (res_map descriptor2document (flat_map found ids)); reflexivity.
Qed.

Lemma get_by_ids_projects_found_records_in_order_witness :
  exists s',
    get_by_ids (listing_client [record_foo]) ["1"; "7"] sample_store
    = (s', res_map descriptor2document (flat_map (fun _ => [record_foo]) ["1"; "7"]))
    /\ logged s' = logged sample_store.
Proof.
  assert (Hids : Forall has_identity [record_foo]).
  { repeat (apply Forall_cons; [eexists; eexists; split; reflexivity|]).
    apply Forall_nil. }
  apply (get_by_ids_projects_found_records_in_order (listing_client [record_foo])
           ["1"; "7"] (fun _ => [record_foo]) sample_store).
  - exact (listing_client_validates _ Hids).
  - intros history. exact I.
  - intros history id results. exists []. reflexivity.
  - intros id. exact Hids.
Defined.

(** ** Deleting nothing *)

Lemma py_range_empty step : step <> 0%Z -> py_range 0 0 step = inr [].
Proof.
  intros Hstep. unfold py_range.
  destruct (Z.eqb_spec step 0) as [E|_]; [contradiction|].
  destruct (Z.ltb_spec step 0) as [Hneg|_]; [|reflexivity].
  assert (Hzero : Z.to_nat ((0 - 0 + - step - 1) / - step) = 0).
  { assert (H : ((0 - 0 + - step - 1) / - step < 1)%Z)
      by (apply Z.div_lt_upper_bound; lia).
    lia. }
  rewrite Hzero. reflexivity.
Qed.

(** X24. [delete] with an empty list of ids deletes nothing: no lookup by
    id is sent, the only command that reaches the store is the one that
    has it write its indices, and the call returns [True]. *)
Theorem delete_of_no_ids_deletes_nothing
    (client : list Call -> list Value -> list Blob -> Reply)
    (kwargs : DeleteKwargs) (s : Store) :
  let name :=
    match del_collection_name kwargs with
    | Some n => n
    | None => collection_name s
    end in
  del_batch_size kwargs <> Some 0%Z ->
  response_validates (fst (client (sent s) [store_index_query name] [])) ->
  exists s',
    delete client (Some []) kwargs s = (s', inr true)
    /\ sent s' = sent s ++ [([store_index_query name], [])]
    /\ logged s' = logged s.
Proof.
  intros name Hsize Hvalid.
  unfold delete. unfold bind at 1.
  assert (Hname : match del_collection_name kwargs with
                  | Some n => ret n
                  | None => get_collection_name
                  end s = (s, inr name)).
  { unfold name. destruct (del_collection_name kwargs); reflexivity. }
  rewrite Hname.
  unfold bind at 1. unfold batch_delete. unfold bind at 1. unfold lift at 1.
  cbn [List.length Z.of_nat].
  rewrite py_range_empty.
  2:{ destruct (del_batch_size kwargs) as [b|]; [|discriminate].
      intros ->. apply Hsize. reflexivity. }
  unfold bind at 1. cbn [delete_windows]. unfold ret at 1. unfold ret at 1.
  unfold bind at 1. unfold lift at 1.
  change (add_descriptor_set "FindDescriptorSet" name None None None None VNone VNone
            true VNone VNone)
    with (@inr Exn Value (store_index_query name)).
  destruct (client (sent s) [store_index_query name] []) as [response blobs] eqn:Hreply.
  cbn [fst] in Hvalid.
  assert (Hcmds : get_cmds_from_query [store_index_query name]
                  = inr ["FindDescriptorSet"]) by reflexivity.
  destruct (run_vdms_query_validates client _ _ _ _ _ s Hcmds Hreply Hvalid)
    as (response' & Hrun & _).
  unfold bind at 1. rewrite Hrun.
  eexists. split; [reflexivity|]. split; reflexivity.
Qed.

Lemma delete_of_no_ids_deletes_nothing_witness :
  exists s',
    delete empty_store_client (Some []) (mkDeleteKwargs None None None) sample_store
    = (s', inr true)
    /\ sent s' = sent sample_store ++ [([store_index_query "langchain"], [])]
    /\ logged s' = logged sample_store.
Proof.
  apply (delete_of_no_ids_deletes_nothing empty_store_client
           (mkDeleteKwargs None None None) sample_store).
  - discriminate.
  - apply empty_store_client_validates.
Defined.

(** ** Metadata that the store can hold *)

(** X25. [validate_vdms_properties] drops exactly the entries whose value
    is a list and keeps the others as they are, in their order; run on its
    own outcome it changes nothing. *)
Theorem validate_vdms_properties_drops_lists (metadata : Dict) :
  NoDup (dict_keys metadata) ->
  validate_vdms_properties metadata
  = filter (fun kv => negb (is_list (snd kv))) metadata
  /\ validate_vdms_properties (validate_vdms_properties metadata)
     = validate_vdms_properties metadata.
Proof.
  intros Hnd.
  assert (Hfilter : forall d,
             NoDup (dict_keys d) ->
             validate_vdms_properties d = filter (fun kv => negb (is_list (snd kv))) d).
  { intros d Hd. unfold validate_vdms_properties.
    rewrite (fold_set_filter (fun kv => negb (is_list (snd kv))) d Hd []);
      [reflexivity|].
    intros k _ []. }
  split; [apply Hfilter; exact Hnd|].
  rewrite (Hfilter metadata Hnd).
  rewrite (Hfilter _ (filter_keys_NoDup _ metadata Hnd)).
  clear. induction metadata as [|kv d IH]; simpl; [reflexivity|].
  destruct (is_list (snd kv)) eqn:E; cbn [negb]; [exact IH|].
  simpl. rewrite E. cbn [negb]. rewrite IH. reflexivity.
Qed.

Lemma validate_vdms_properties_drops_lists_witness :
  let metadata :=
    [("baz", VStr "bar"); ("tags", VList [VStr "a"; VStr "b"]); ("page", VInt 3)] in
  validate_vdms_properties metadata
  = filter (fun kv => negb (is_list (snd kv))) metadata
  /\ validate_vdms_properties (validate_vdms_properties metadata)
     = validate_vdms_properties metadata.
Proof.
  intros metadata.
  apply (validate_vdms_properties_drops_lists metadata).
  unfold metadata. solve_NoDup.
Defined.

(** ** Setting up the collection *)

Lemma add_descriptor_set_cmds name dims engine metric query :
  add_descriptor_set "AddDescriptorSet" name (Some dims) engine metric None VNone
    VNone false VNone VNone = inr query ->
  get_cmds_from_query [query] = inr ["AddDescriptorSet"].
Proof.
  intros H. destruct engine, metric; injection H as <-; reflexivity.
Qed.

(** X26. [_create_collection] fails on a failed command only: when the
    store reports [FailedCommand] it raises [ValueError]; when it answers
    the [AddDescriptorSet] command, status 0 is logged as "created" and
    every other status - whatever it stands for - as "exists", and
    nothing is raised. *)
Theorem create_collection_fails_only_on_failed_command
    (client : list Call -> list Value -> list Blob -> Reply)
    (dims : Z) (engine metric : option string) (query : Value) (s : Store) :
  add_descriptor_set "AddDescriptorSet" (collection_name s) (Some dims) engine metric
    None VNone VNone false VNone VNone = inr query ->
  (forall d blobs,
      client (sent s) [query] [] = ([VDict d], blobs) ->
      reports_failure (VDict d) ->
      dict_has "AddDescriptorSet" d = false ->
      _create_collection client (Some dims) engine metric s
      = (with_call s [query] [],
         inl (ValueError ("Failed to add collection " ++ collection_name s))))
  /\ (forall status blobs,
         client (sent s) [query] []
         = ([VDict [("AddDescriptorSet", VDict [("status", VInt status)])]], blobs) ->
         _create_collection client (Some dims) engine metric s
         = (with_log (with_call s [query] []) INFO
              ("Descriptor set " ++ collection_name s ++ " "
               ++ (if (status =? 0)%Z then "created" else "exists")),
            inr tt)).
Proof.
  intros Hquery.
  pose proof (add_descriptor_set_cmds _ _ _ _ _ Hquery) as Hcmds.
  split.
  - intros d blobs Hreply (d' & Hd' & Hfailed & Hfind) Hadd.
    injection Hd' as <-.
    unfold _create_collection. unfold bind at 1. unfold get_collection_name at 1.
    unfold bind at 1. unfold lift at 1. rewrite Hquery.
    assert (Hrun : run_vdms_query client [query] [] s
                   = (with_call s [query] [], inr ([VDict d], blobs))).
    { unfold run_vdms_query. rewrite Hreply.
      unfold check_valid_response. rewrite Hcmds.
      cbn [res_bind any_returned py_first py_contains res_map keep_entities_with_id].
      rewrite Hadd, Hfind. reflexivity. }
    unfold bind at 1. rewrite Hrun.
    unfold bind at 1. unfold lift at 1. cbn [py_first].
    unfold bind at 1. unfold lift at 1. cbn [py_contains]. rewrite Hfailed.
    reflexivity.
  - intros status blobs Hreply.
    unfold _create_collection. unfold bind at 1. unfold get_collection_name at 1.
    unfold bind at 1. unfold lift at 1. rewrite Hquery.
    assert (Hrun : run_vdms_query client [query] [] s
                   = (with_call s [query] [],
                      inr ([VDict [("AddDescriptorSet",
                                    VDict [("status", VInt status)])]], blobs))).
    { unfold run_vdms_query. rewrite Hreply.
      unfold check_valid_response. rewrite Hcmds. reflexivity. }
    unfold bind at 1. rewrite Hrun.
    unfold bind, lift, logger.
    cbn [py_first py_contains dict_has dict_lookup String.eqb Ascii.eqb Bool.eqb
         py_getitem].
    rewrite py_eq_zero_int. reflexivity.
Qed.

Lemma create_collection_fails_only_on_failed_command_witness :
  _create_collection
    (fun _ _ _ => ([VDict [("AddDescriptorSet", VDict [("status", VInt 2)])]], []))
    (Some 2%Z) (Some "FaissFlat") (Some "L2") sample_store
  = (with_log
       (with_call sample_store
          [VDict [("AddDescriptorSet",
                   VDict [("name", VStr "langchain"); ("dimensions", VInt 2);
                          ("engine", VStr "FaissFlat"); ("metric", VStr "L2")])]] [])
       INFO "Descriptor set langchain exists",
     inr tt).
Proof.
  apply (proj2 (create_collection_fails_only_on_failed_command
                  (fun _ _ _ =>
                     ([VDict [("AddDescriptorSet", VDict [("status", VInt 2)])]], []))
                  2 (Some "FaissFlat") (Some "L2")
                  (VDict [("AddDescriptorSet",
                           VDict [("name", VStr "langchain"); ("dimensions", VInt 2);
                                  ("engine", VStr "FaissFlat"); ("metric", VStr "L2")])])
                  sample_store eq_refl)
           2%Z []).
  reflexivity.
Defined.
